(** * Calendar query parser: a shallow embedding of [query_parser.py]

    The development follows the layout of the Python module.  The library
    layers the module calls into ([str], [re], [datetime], [pytz],
    [tzlocal], [dateutil]) are modelled first; the class
    [CalendarQueryParser] is then transcribed method by method, and the
    properties of the specification are stated and proved about the
    transcription.  The callers of the parser follow: the event methods of
    [GoogleCalendarService] ([calendar_service.py]) and the query tool of
    [CalendarMCPServer] ([mcp_server.py]).

    Scope of the library models:
    - text is ASCII: a character of code 128 or more is kept as it is by
      [lower] and is neither a word character, a digit nor white space;
    - [int] is applied to runs of decimal digits only, and refuses, as the
      interpreter does unless it is configured otherwise, a run of more
      than 4300 digits;
    - the system clock is a sequence of readings, one for each call of
      [datetime.now]; a zone is its key and its offset from UTC;
    - dates are those of the proleptic Gregorian calendar, with the day
      arithmetic of [timedelta] and its [OverflowError] outside the years
      1 to 9999;
    - [dateutil] is explicit on month-name literals and a parameter of the
      installation on the others;
    - [logger.warning] calls have no effect on the result and are left out;
    - the events of the calendar API are JSON objects whose values are
      texts; the request to the API and its failures are not modelled, the
      methods of the service start from the items of its answer;
    - how a time is printed ([strftime], and [dateutil] on the times of the
      API) is a parameter. *)

From Stdlib Require Import ZArith List String Ascii Bool Lia Permutation.
Import ListNotations.
Open Scope string_scope.
Open Scope Z_scope.

(** ** [str]: the string operations the parser uses *)

Module Text.

Definition code (c : ascii) : Z := Z.of_N (N_of_ascii c).

Definition between (lo hi : Z) (c : ascii) : bool :=
  (lo <=? code c) && (code c <=? hi).

Definition is_upper (c : ascii) : bool := between 65 90 c.
Definition is_lower (c : ascii) : bool := between 97 122 c.
Definition is_digit (c : ascii) : bool := between 48 57 c.

(** [\w] on ASCII text: letters, digits and the underscore. *)
Definition is_word (c : ascii) : bool :=
  is_upper c || is_lower c || is_digit c || (code c =? 95).

(** [\s]: tab, line feed, vertical tab, form feed, carriage return, the
    four separators 28..31 and the space. *)
Definition is_space (c : ascii) : bool :=
  between 9 13 c || between 28 31 c || (code c =? 32).

Definition lower_char (c : ascii) : ascii :=
  if is_upper c then ascii_of_N (N_of_ascii c + 32) else c.

(** [str.lower] *)
Fixpoint lower (s : string) : string :=
  match s with
  | EmptyString => EmptyString
  | String c s' => String (lower_char c) (lower s')
  end.

Definition digit_value (c : ascii) : Z := code c - 48.

Fixpoint decimal_acc (acc : Z) (s : string) : Z :=
  match s with
  | EmptyString => acc
  | String c s' => decimal_acc (10 * acc + digit_value c) s'
  end.

(** The number a run of decimal digits writes. *)
Definition decimal (s : string) : Z := decimal_acc 0 s.

Fixpoint all_digits (s : string) : bool :=
  match s with
  | EmptyString => true
  | String c s' => is_digit c && all_digits s'
  end.

(** [s[i:j]] *)
Definition slice (s : string) (i j : nat) : string :=
  substring i (j - i) s.

End Text.

(** ** [re]: a backtracking matcher for the constructs the patterns use

    The matcher is written in continuation-passing style: alternatives are
    tried in the order of the pattern, quantifiers are greedy, and a failed
    continuation makes the matcher back up, as the interpreter's engine
    does.  [search] tries the start positions from left to right. *)

Module Re.

Inductive cset : Type :=
| Digit                      (* \d *)
| Space                      (* \s *)
| Any                        (* .  : any character but a line feed *)
| OneOf (l : list ascii).    (* [...] *)

Inductive regex : Type :=
| Eps
| Lit (s : string)                            (* literal text *)
| Set_ (c : cset)                             (* one character of a set *)
| WordB                                       (* \b *)
| Seq (a b : regex)                           (* ab *)
| Alt (a b : regex)                           (* a|b *)
| Opt (a : regex)                             (* a? *)
| Rep (c : cset) (lo : nat) (hi : option nat) (* c{lo,hi}, c*, c+ *)
| Group (a : regex).                          (* ( a ), group 1 *)

Record cursor := Cursor {
  prev : option ascii;     (* the character before the position *)
  pos : nat;
  rest : string
}.

(** The span of group 1, when it took part in the match. *)
Definition caps := option (nat * nat).

Record match_obj := Match {
  m_start : nat;
  m_end : nat;
  m_group1 : caps
}.

Definition char_eq (ignorecase : bool) (a x : ascii) : bool :=
  if ignorecase then Ascii.eqb (Text.lower_char a) (Text.lower_char x)
  else Ascii.eqb a x.

Definition in_cset (ignorecase : bool) (c : cset) (x : ascii) : bool :=
  match c with
  | Digit => Text.is_digit x
  | Space => Text.is_space x
  | Any => negb (Text.code x =? 10)
  | OneOf l => existsb (fun a => char_eq ignorecase a x) l
  end.

Definition word_before (cu : cursor) : bool :=
  match prev cu with Some c => Text.is_word c | None => false end.

Definition word_after (cu : cursor) : bool :=
  match rest cu with String c _ => Text.is_word c | EmptyString => false end.

Definition at_boundary (cu : cursor) : bool :=
  xorb (word_before cu) (word_after cu).

Definition below (hi : option nat) (n : nat) : bool :=
  match hi with Some h => Nat.ltb n h | None => true end.

Fixpoint lit_from (ic : bool) (l : string) (cu : cursor) : option cursor :=
  match l with
  | EmptyString => Some cu
  | String a l' =>
      match rest cu with
      | String x s' =>
          if char_eq ic a x
          then lit_from ic l' (Cursor (Some x) (S (pos cu)) s')
          else None
      | EmptyString => None
      end
  end.

Fixpoint rep_from {R : Type} (ic : bool) (c : cset) (lo : nat)
    (hi : option nat) (n : nat) (p : option ascii) (i : nat) (s : string)
    (g : caps) (k : cursor -> caps -> option R) {struct s} : option R :=
  let stop := if Nat.leb lo n then k (Cursor p i s) g else None in
  match s with
  | String x s' =>
      if in_cset ic c x && below hi n
      then match rep_from ic c lo hi (S n) (Some x) (S i) s' g k with
           | Some r => Some r
           | None => stop
           end
      else stop
  | EmptyString => stop
  end.

Fixpoint run {R : Type} (ic : bool) (r : regex) (cu : cursor) (g : caps)
    (k : cursor -> caps -> option R) {struct r} : option R :=
  match r with
  | Eps => k cu g
  | Lit l =>
      match lit_from ic l cu with
      | Some cu' => k cu' g
      | None => None
      end
  | Set_ c =>
      match rest cu with
      | String x s' =>
          if in_cset ic c x then k (Cursor (Some x) (S (pos cu)) s') g
          else None
      | EmptyString => None
      end
  | WordB => if at_boundary cu then k cu g else None
  | Seq a b => run ic a cu g (fun cu' g' => run ic b cu' g' k)
  | Alt a b =>
      match run ic a cu g k with
      | Some res => Some res
      | None => run ic b cu g k
      end
  | Opt a =>
      match run ic a cu g k with
      | Some res => Some res
      | None => k cu g
      end
  | Rep c lo hi => rep_from ic c lo hi 0 (prev cu) (pos cu) (rest cu) g k
  | Group a => run ic a cu g (fun cu' _ => k cu' (Some (pos cu, pos cu')))
  end.

(** A match of [r] that starts exactly at the cursor. *)
Definition match_here (ic : bool) (r : regex) (cu : cursor)
  : option match_obj :=
  run ic r cu None (fun cu' g => Some (Match (pos cu) (pos cu') g)).

Fixpoint search_from (ic : bool) (r : regex) (p : option ascii) (i : nat)
    (s : string) {struct s} : option match_obj :=
  match match_here ic r (Cursor p i s) with
  | Some m => Some m
  | None =>
      match s with
      | String x s' => search_from ic r (Some x) (S i) s'
      | EmptyString => None
      end
  end.

(** [re.search(pattern, text)] and [re.search(pattern, text,
    re.IGNORECASE)]. *)
Definition search (r : regex) (text : string) (ignorecase : bool)
  : option match_obj :=
  search_from ignorecase r None 0 text.

(** [match.group(1)] *)
Definition group1 (text : string) (m : match_obj) : string :=
  match m_group1 m with
  | Some (i, j) => Text.slice text i j
  | None => EmptyString
  end.

(** A match object is always true; [None] is false. *)
Definition truthy (m : option match_obj) : bool :=
  match m with Some _ => true | None => false end.

(** [(?:w|w1|w2|...)] *)
Fixpoint any_of (w : string) (ws : list string) : regex :=
  match ws with
  | [] => Lit w
  | w' :: ws' => Alt (Lit w) (any_of w' ws')
  end.

(** A pattern without a capturing group. *)
Fixpoint groupless (r : regex) : bool :=
  match r with
  | Eps | Lit _ | Set_ _ | WordB | Rep _ _ _ => true
  | Seq a b | Alt a b => groupless a && groupless b
  | Opt a => groupless a
  | Group _ => false
  end.

(** Every character of [s] is in the set. *)
Fixpoint all_in (ic : bool) (c : cset) (s : string) : bool :=
  match s with
  | EmptyString => true
  | String x s' => in_cset ic c x && all_in ic c s'
  end.

(** No character of [s] is the character [a]. *)
Fixpoint lacks (ic : bool) (a : ascii) (s : string) : bool :=
  match s with
  | EmptyString => true
  | String x s' => negb (char_eq ic a x) && lacks ic a s'
  end.

Declare Scope re_scope.
Delimit Scope re_scope with re.
Infix "++" := Seq (right associativity, at level 60) : re_scope.

Definition star (c : cset) : regex := Rep c 0 None.      (* c* *)
Definition plus (c : cset) : regex := Rep c 1 None.      (* c+ *)
Definition times (c : cset) (lo hi : nat) : regex := Rep c lo (Some hi).
Definition word (w : string) : regex := (WordB ++ Lit w ++ WordB)%re.

End Re.

(** ** Exceptions and the clock

    The parser reads the system clock through [datetime.now]; a computation
    is therefore a function of the clock, whose successive readings are
    given as UTC microseconds since the epoch.  A computation returns a
    value or raises. *)

Inductive exn : Type :=
| UnknownTimeZoneError
| ValueError
| OverflowError.

Inductive outcome (A : Type) : Type :=
| Returns (a : A)
| Raises (e : exn).
Arguments Returns {A} a.
Arguments Raises {A} e.

Record Clock := {
  ticks : nat -> Z;     (* the n-th reading of the system clock *)
  reads : nat           (* how many readings were made so far *)
}.

Definition M (A : Type) : Type := Clock -> outcome A * Clock.

Definition ret {A : Type} (a : A) : M A := fun c => (Returns a, c).

Definition raise {A : Type} (e : exn) : M A := fun c => (Raises e, c).

Definition bind {A B : Type} (m : M A) (f : A -> M B) : M B :=
  fun c =>
    match m c with
    | (Returns a, c') => f a c'
    | (Raises e, c') => (Raises e, c')
    end.

(** [try: m except (handled): h] *)
Definition try_except {A : Type} (m : M A) (handled : exn -> bool) (h : M A)
  : M A :=
  fun c =>
    match m c with
    | (Returns a, c') => (Returns a, c')
    | (Raises e, c') => if handled e then h c' else (Raises e, c')
    end.

Definition lift {A : Type} (o : outcome A) : M A := fun c => (o, c).

(** [int(s)] for a run of decimal digits: the interpreter raises
    [ValueError] for a run of more than [sys.int_max_str_digits] digits,
    4300 unless it is configured otherwise. *)
Definition MAX_STR_DIGITS : nat := 4300.

Definition int (s : string) : outcome Z :=
  if Nat.leb (String.length s) MAX_STR_DIGITS
  then Returns (Text.decimal s)
  else Raises ValueError.

(** One reading of the system clock. *)
Definition read_clock : M Z :=
  fun c => (Returns (ticks c (reads c)),
            {| ticks := ticks c; reads := S (reads c) |}).

Notation "x <- m ;; k" := (bind m (fun x => k))
  (at level 61, m at next level, right associativity).

(** ** [datetime]: the proleptic Gregorian calendar of the standard library *)

Module Datetime.

Definition MINYEAR : Z := 1.
Definition MAXYEAR : Z := 9999.
Definition MAXORDINAL : Z := 3652059.     (* date.max.toordinal() *)

Definition DAYS_IN_MONTH : list Z :=
  [-1; 31; 28; 31; 30; 31; 30; 31; 31; 30; 31; 30; 31].

Definition DAYS_BEFORE_MONTH : list Z :=
  [-1; 0; 31; 59; 90; 120; 151; 181; 212; 243; 273; 304; 334].

Definition index (l : list Z) (i : Z) : Z := nth (Z.to_nat i) l 0.

Definition is_leap (year : Z) : bool :=
  (year mod 4 =? 0) && (negb (year mod 100 =? 0) || (year mod 400 =? 0)).

Definition days_before_year (year : Z) : Z :=
  let y := year - 1 in
  y * 365 + y / 4 - y / 100 + y / 400.

Definition days_in_month (year month : Z) : Z :=
  if (month =? 2) && is_leap year then 29 else index DAYS_IN_MONTH month.

Definition days_before_month (year month : Z) : Z :=
  index DAYS_BEFORE_MONTH month
  + (if (2 <? month) && is_leap year then 1 else 0).

Definition ymd2ord (year month day : Z) : Z :=
  days_before_year year + days_before_month year month + day.

Definition DI400Y : Z := 146097.
Definition DI100Y : Z := 36524.
Definition DI4Y : Z := 1461.

Definition ord2ymd (n0 : Z) : Z * Z * Z :=
  let n := n0 - 1 in
  let n400 := n / DI400Y in
  let n := n mod DI400Y in
  let year := n400 * 400 + 1 in
  let n100 := n / DI100Y in
  let n := n mod DI100Y in
  let n4 := n / DI4Y in
  let n := n mod DI4Y in
  let n1 := n / 365 in
  let n := n mod 365 in
  let year := year + n100 * 100 + n4 * 4 + n1 in
  if (n1 =? 4) || (n100 =? 4) then (year - 1, 12, 31)
  else
    let leapyear := (n1 =? 3) && (negb (n4 =? 24) || (n100 =? 3)) in
    let month := Z.shiftr (n + 50) 5 in
    let preceding :=
      index DAYS_BEFORE_MONTH month
      + (if (2 <? month) && leapyear then 1 else 0) in
    if n <? preceding
    then
      let month := month - 1 in
      let preceding :=
        preceding - (index DAYS_IN_MONTH month
                     + (if (month =? 2) && leapyear then 1 else 0)) in
      (year, month, n - preceding + 1)
    else (year, month, n - preceding + 1).

(** A time zone: its key and its offset from UTC, in seconds, at a UTC
    instant. *)
Record tzinfo := {
  tzname : string;
  utcoffset : Z -> Z
}.

Record datetime := {
  year : Z;
  month : Z;
  day : Z;
  hour : Z;
  minute : Z;
  second : Z;
  microsecond : Z;
  tz : option tzinfo     (* [None] for a naive datetime *)
}.

Definition toordinal (d : datetime) : Z := ymd2ord (year d) (month d) (day d).

(** [d.weekday()]: 0 is Monday, 6 is Sunday. *)
Definition weekday (d : datetime) : Z := (toordinal d + 6) mod 7.

(** [d.replace(hour=h, minute=m, second=s, microsecond=us)] *)
Definition replace_time (d : datetime) (h m s us : Z) : datetime :=
  {| year := year d; month := month d; day := day d;
     hour := h; minute := m; second := s; microsecond := us; tz := tz d |}.

(** [d.replace(year=y)]: the new date has to exist. *)
Definition replace_year (d : datetime) (y : Z) : outcome datetime :=
  if (MINYEAR <=? y) && (y <=? MAXYEAR)
     && (1 <=? month d) && (month d <=? 12)
     && (1 <=? day d) && (day d <=? days_in_month y (month d))
  then Returns {| year := y; month := month d; day := day d;
                  hour := hour d; minute := minute d; second := second d;
                  microsecond := microsecond d; tz := tz d |}
  else Raises ValueError.

(** [d.replace(tzinfo=z)] and, for these zones, [z.localize(d)]. *)
Definition replace_tzinfo (d : datetime) (z : tzinfo) : datetime :=
  {| year := year d; month := month d; day := day d;
     hour := hour d; minute := minute d; second := second d;
     microsecond := microsecond d; tz := Some z |}.

(** [d + timedelta(days=k)]: the wall-clock date moves by [k] days, the
    time of day and the zone are kept. *)
Definition add_days (d : datetime) (k : Z) : outcome datetime :=
  let o := toordinal d + k in
  if (0 <? o) && (o <=? MAXORDINAL)
  then let '(y, m, dd) := ord2ymd o in
       Returns {| year := y; month := m; day := dd;
                  hour := hour d; minute := minute d; second := second d;
                  microsecond := microsecond d; tz := tz d |}
  else Raises OverflowError.

Definition EPOCH_ORDINAL : Z := 719163.          (* 1970-01-01 *)
Definition US_PER_DAY : Z := 86400000000.

(** The wall clock of zone [z] at the UTC instant [t] (microseconds since
    the epoch). *)
Definition wall_clock (z : tzinfo) (aware : bool) (t : Z) : datetime :=
  let local := t + 1000000 * utcoffset z (t / 1000000) in
  let '(y, m, d) := ord2ymd (local / US_PER_DAY + EPOCH_ORDINAL) in
  let tod := local mod US_PER_DAY in
  {| year := y; month := m; day := d;
     hour := tod / 3600000000;
     minute := (tod / 60000000) mod 60;
     second := (tod / 1000000) mod 60;
     microsecond := tod mod 1000000;
     tz := if aware then Some z else None |}.

(** [datetime.now(z)] *)
Definition now (z : tzinfo) : M datetime :=
  t <- read_clock ;; ret (wall_clock z true t).

(** [datetime.now()]: the naive local time of the host, whose zone is
    [host_zone]. *)
Definition now_naive (host_zone : tzinfo) : M datetime :=
  t <- read_clock ;; ret (wall_clock host_zone false t).

End Datetime.

(** ** The installation

    What the parser finds on the machine it runs on: the zone database
    behind [pytz.timezone], the zone of the host (the one [datetime.now()]
    and [tzlocal] use), whether [tzlocal] can be imported, and how
    [dateutil] reads the literals whose interpretation the repository
    leaves to the library: given the literal and the default year, month
    and day, the year, month and day it resolves, or [None] when it
    rejects the literal. *)

Record Host := {
  tzdb : string -> option Datetime.tzinfo;
  host_zone : Datetime.tzinfo;
  has_tzlocal : bool;
  other_literal : string -> Z * Z * Z -> option (Z * Z * Z)
}.

(** ** [pytz] and [tzlocal] *)

Module Pytz.

Definition utc : Datetime.tzinfo :=
  {| Datetime.tzname := "UTC"; Datetime.utcoffset := fun _ => 0 |}.

(** [pytz.timezone(name)] *)
Definition timezone (h : Host) (name : string) : M Datetime.tzinfo :=
  match tzdb h name with
  | Some z => ret z
  | None => raise UnknownTimeZoneError
  end.

(** [z.localize(d)] *)
Definition localize (z : Datetime.tzinfo) (d : Datetime.datetime)
  : Datetime.datetime :=
  Datetime.replace_tzinfo d z.

End Pytz.

(** ** [dateutil.parser]

    [parse] fills the fields the literal does not give from a default, which
    is the naive local date of the host at midnight.  The model is explicit
    for a month name with a day of at most two digits and an optional year
    above 100, in either order, separated by white space or commas; every
    other literal is read by [other_literal]. *)

Module Dateutil.

Inductive token : Type :=
| TWord (w : string)
| TNum (n : string)
| TSep (c : ascii).

Definition is_alpha (c : ascii) : bool :=
  Text.is_upper c || Text.is_lower c.

Fixpoint lex (s : string) : list token :=
  match s with
  | EmptyString => []
  | String c s' =>
      let ts := lex s' in
      if is_alpha c then
        match ts with
        | TWord w :: ts' => TWord (String c w) :: ts'
        | _ => TWord (String c EmptyString) :: ts
        end
      else if Text.is_digit c then
        match ts with
        | TNum n :: ts' => TNum (String c n) :: ts'
        | _ => TNum (String c EmptyString) :: ts
        end
      else TSep c :: ts
  end.

Definition MONTHS : list (string * string) :=
  [("jan", "january"); ("feb", "february"); ("mar", "march");
   ("apr", "april"); ("may", "may"); ("jun", "june"); ("jul", "july");
   ("aug", "august"); ("sep", "september"); ("oct", "october");
   ("nov", "november"); ("dec", "december")].

Fixpoint month_from (i : Z) (l : list (string * string)) (w : string)
  : option Z :=
  match l with
  | [] => None
  | (a, f) :: l' =>
      if String.eqb w a || String.eqb w f then Some i
      else month_from (i + 1) l' w
  end.

(** The number of the month a word names, in any case. *)
Definition month (w : string) : option Z :=
  month_from 1 MONTHS (Text.lower w).

Definition is_jump (c : ascii) : bool :=
  Text.is_space c || (Text.code c =? 44).

(** The words and numbers of a literal whose separators are all white
    space or commas. *)
Fixpoint significant (ts : list token) : option (list token) :=
  match ts with
  | [] => Some []
  | TSep c :: ts' => if is_jump c then significant ts' else None
  | t :: ts' =>
      match significant ts' with
      | Some l => Some (t :: l)
      | None => None
      end
  end.

Definition short_day (n : string) : bool :=
  (Nat.leb (String.length n) 2) && (Text.decimal n <=? 31).

Definition long_year (n : string) : bool := 100 <? Text.decimal n.

(** Month, day and optional year of a month-name literal. *)
Definition month_day_literal (s : string) : option (Z * Z * option Z) :=
  match significant (lex s) with
  | Some [TWord w; TNum d] | Some [TNum d; TWord w] =>
      match month w with
      | Some m => if short_day d then Some (m, Text.decimal d, None) else None
      | None => None
      end
  | Some [TWord w; TNum d; TNum y] | Some [TNum d; TWord w; TNum y] =>
      match month w with
      | Some m =>
          if short_day d && long_year y
          then Some (m, Text.decimal d, Some (Text.decimal y))
          else None
      | None => None
      end
  | _ => None
  end.

(** [default.replace(year=y, month=m, day=d)] on the midnight default. *)
Definition build (y m d : Z) : outcome Datetime.datetime :=
  if (Datetime.MINYEAR <=? y) && (y <=? Datetime.MAXYEAR)
     && (1 <=? m) && (m <=? 12)
     && (1 <=? d) && (d <=? Datetime.days_in_month y m)
  then Returns {| Datetime.year := y; Datetime.month := m;
                  Datetime.day := d; Datetime.hour := 0;
                  Datetime.minute := 0; Datetime.second := 0;
                  Datetime.microsecond := 0; Datetime.tz := None |}
  else Raises ValueError.

(** [date_parser.parse(s)] *)
Definition parse (h : Host) (s : string) : M Datetime.datetime :=
  default <- Datetime.now_naive (host_zone h) ;;
  match month_day_literal s with
  | Some (m, d, None) => lift (build (Datetime.year default) m d)
  | Some (m, d, Some y) => lift (build y m d)
  | None =>
      match other_literal h s (Datetime.year default,
                               Datetime.month default,
                               Datetime.day default) with
      | Some (y, m, d) => lift (build y m d)
      | None => raise ValueError
      end
  end.

End Dateutil.

(** ** [CalendarQueryParser] *)

Import Re.

Definition MONTH_NAMES : regex :=
  any_of "january" ["february"; "march"; "april"; "may"; "june"; "july";
                    "august"; "september"; "october"; "november";
                    "december"].

Definition MONTH_ABBRS : regex :=
  any_of "jan" ["feb"; "mar"; "apr"; "may"; "jun"; "jul"; "aug"; "sep";
                "oct"; "nov"; "dec"].

Definition SEP : regex := Set_ (OneOf ["/"%char; "-"%char]).     (* [/-] *)

(** The result of [parse_query]: a dictionary with the key ['intent'], the
    keys that go with that intent, ['timezone'] and ['original_query']. *)
Inductive Intent : Type :=
| upcoming_events (days_ahead max_results : Z)
| specific_date (date : Datetime.datetime)
| date_range (start_date end_date : Datetime.datetime).

Record ParsedQuery := {
  intent : Intent;
  timezone : option string;
  original_query : string
}.

Record CalendarQueryParser := {
  default_timezone : Datetime.tzinfo;
  patterns : list (string * list regex);
  day_patterns : list (string * list regex)
}.

(** [d[key]] for a key of the table. *)
Fixpoint get {A : Type} (d : list (string * list A)) (key : string)
  : list A :=
  match d with
  | [] => []
  | (k, v) :: d' => if String.eqb k key then v else get d' key
  end.

Section Parser.

Variable host : Host.

(** [__init__]: the default zone is the one [tzlocal] detects, UTC when
    [tzlocal] cannot be imported. *)
Definition init : CalendarQueryParser := {|
  default_timezone :=
    if has_tzlocal host then host_zone host else Pytz.utc;
  patterns := [
    ("today", [
      (WordB ++ Lit "today" ++ WordB)%re;
      (WordB ++ Lit "this" ++ plus Space ++ Lit "day" ++ WordB)%re;
      (WordB ++ Lit "what" ++ star Any ++ Lit "today" ++ WordB)%re;
      (WordB ++ Lit "today" ++ star Any ++ Lit "schedule" ++ WordB)%re;
      (WordB ++ Lit "today" ++ star Any ++ Lit "events" ++ WordB)%re;
      (WordB ++ Lit "today" ++ star Any ++ Lit "appointments" ++ WordB)%re
    ]);
    ("tomorrow", [
      (WordB ++ Lit "tomorrow" ++ WordB)%re;
      (WordB ++ Lit "next" ++ plus Space ++ Lit "day" ++ WordB)%re;
      (WordB ++ Lit "what" ++ star Any ++ Lit "tomorrow" ++ WordB)%re;
      (WordB ++ Lit "tomorrow" ++ star Any ++ Lit "schedule" ++ WordB)%re;
      (WordB ++ Lit "tomorrow" ++ star Any ++ Lit "events" ++ WordB)%re;
      (WordB ++ Lit "tomorrow" ++ star Any ++ Lit "appointments"
       ++ WordB)%re
    ]);
    ("yesterday", [
      (WordB ++ Lit "yesterday" ++ WordB)%re;
      (WordB ++ Lit "previous" ++ plus Space ++ Lit "day" ++ WordB)%re;
      (WordB ++ Lit "yesterday" ++ star Any ++ Lit "events" ++ WordB)%re
    ]);
    ("this_week", [
      (WordB ++ Lit "this" ++ plus Space ++ Lit "week" ++ WordB)%re;
      (WordB ++ Lit "this" ++ plus Space ++ Lit "week" ++ star Any
       ++ Lit "events" ++ WordB)%re;
      (WordB ++ Lit "this" ++ plus Space ++ Lit "week" ++ star Any
       ++ Lit "schedule" ++ WordB)%re;
      (WordB ++ Lit "weekly" ++ plus Space ++ Lit "schedule" ++ WordB)%re
    ]);
    ("next_week", [
      (WordB ++ Lit "next" ++ plus Space ++ Lit "week" ++ WordB)%re;
      (WordB ++ Lit "next" ++ plus Space ++ Lit "week" ++ star Any
       ++ Lit "events" ++ WordB)%re;
      (WordB ++ Lit "next" ++ plus Space ++ Lit "week" ++ star Any
       ++ Lit "schedule" ++ WordB)%re
    ]);
    ("upcoming", [
      (WordB ++ Lit "upcoming" ++ WordB)%re;
      (WordB ++ Lit "coming" ++ plus Space ++ Lit "up" ++ WordB)%re;
      (WordB ++ Lit "next" ++ star Any ++ Lit "events" ++ WordB)%re;
      (WordB ++ Lit "future" ++ star Any ++ Lit "events" ++ WordB)%re;
      (WordB ++ Lit "what" ++ star Any ++ Lit "next" ++ WordB)%re
    ]);
    ("specific_date", [
      (WordB ++ times Digit 1 2 ++ SEP ++ times Digit 1 2 ++ SEP
       ++ times Digit 2 4 ++ WordB)%re;
      (WordB ++ times Digit 4 4 ++ SEP ++ times Digit 1 2 ++ SEP
       ++ times Digit 1 2 ++ WordB)%re;
      (WordB ++ MONTH_NAMES ++ plus Space ++ times Digit 1 2 ++ WordB)%re;
      (WordB ++ MONTH_ABBRS ++ plus Space ++ times Digit 1 2 ++ WordB)%re;
      (WordB ++ times Digit 1 2 ++ plus Space ++ MONTH_NAMES ++ WordB)%re;
      (WordB ++ times Digit 1 2 ++ plus Space ++ MONTH_ABBRS ++ WordB)%re
    ])
  ];
  day_patterns := [
    ("monday", [word "monday"; word "mon"]);
    ("tuesday", [word "tuesday"; word "tue"; word "tues"]);
    ("wednesday", [word "wednesday"; word "wed"]);
    ("thursday", [word "thursday"; word "thu"; word "thur";
                  word "thurs"]);
    ("friday", [word "friday"; word "fri"]);
    ("saturday", [word "saturday"; word "sat"]);
    ("sunday", [word "sunday"; word "sun"])
  ]
|}.

Variable self : CalendarQueryParser.

(** [_parse_timezone] *)
Definition _parse_timezone (timezone_str : option string)
  : M Datetime.tzinfo :=
  match timezone_str with
  | None | Some EmptyString => ret (default_timezone self)
  | Some name =>
      try_except (Pytz.timezone host name)
        (fun e => match e with UnknownTimeZoneError => true | _ => false end)
        (ret (default_timezone self))
  end.

(** [_matches_patterns] *)
Fixpoint _matches_patterns (text : string) (pats : list regex) : bool :=
  match pats with
  | [] => false
  | pattern :: pats' =>
      if truthy (search pattern text true) then true
      else _matches_patterns text pats'
  end.

(** [\bnext\s+week\b] *)
Definition RE_NEXT_WEEK : regex :=
  (WordB ++ Lit "next" ++ plus Space ++ Lit "week" ++ WordB)%re.

(** [\bthis\s+week\b] *)
Definition RE_THIS_WEEK : regex :=
  (WordB ++ Lit "this" ++ plus Space ++ Lit "week" ++ WordB)%re.

(** [\bnext\s+(\d+)\s+days?\b] *)
Definition RE_NEXT_N_DAYS : regex :=
  (WordB ++ Lit "next" ++ plus Space ++ Group (plus Digit) ++ plus Space
   ++ Lit "day" ++ Opt (Lit "s") ++ WordB)%re.

(** [\b(\d+)\s+days?\b] *)
Definition RE_N_DAYS : regex :=
  (WordB ++ Group (plus Digit) ++ plus Space ++ Lit "day" ++ Opt (Lit "s")
   ++ WordB)%re.

(** [\b(?:show|first|next)\s+(?:me\s+)?(\d+)\s+(?:events?|appointments?|meetings?)\b] *)
Definition RE_MAX_RESULTS : regex :=
  (WordB ++ any_of "show" ["first"; "next"] ++ plus Space
   ++ Opt (Lit "me" ++ plus Space) ++ Group (plus Digit) ++ plus Space
   ++ Alt (Lit "event" ++ Opt (Lit "s"))
        (Alt (Lit "appointment" ++ Opt (Lit "s"))
             (Lit "meeting" ++ Opt (Lit "s")))
   ++ WordB)%re.

(** [_extract_number_of_days] *)
Definition _extract_number_of_days (text : string) : outcome Z :=
  if truthy (search RE_NEXT_WEEK text false)
     || truthy (search RE_THIS_WEEK text false)
  then Returns 7
  else
    match search RE_NEXT_N_DAYS text false with
    | Some m => int (group1 text m)
    | None =>
        match search RE_N_DAYS text false with
        | Some m => int (group1 text m)
        | None => Returns 7
        end
    end.

(** [_extract_max_results] *)
Definition _extract_max_results (text : string) : outcome Z :=
  match search RE_MAX_RESULTS text false with
  | Some m =>
      match int (group1 text m) with
      | Returns n => Returns (Z.min n 50)
      | Raises e => Raises e
      end
  | None => Returns 10
  end.

Definition YEAR_TAIL : regex := times Digit 4 4.

Definition date_patterns : list regex := [
  (WordB ++ Group (times Digit 1 2 ++ SEP ++ times Digit 1 2 ++ SEP
                   ++ times Digit 2 4) ++ WordB)%re;
  (WordB ++ Group (times Digit 4 4 ++ SEP ++ times Digit 1 2 ++ SEP
                   ++ times Digit 1 2) ++ WordB)%re;
  (WordB ++ Group (MONTH_NAMES ++ plus Space ++ times Digit 1 2
                   ++ Opt (Opt (Lit ",") ++ plus Space ++ YEAR_TAIL))
   ++ WordB)%re;
  (WordB ++ Group (MONTH_ABBRS ++ plus Space ++ times Digit 1 2
                   ++ Opt (Opt (Lit ",") ++ plus Space ++ YEAR_TAIL))
   ++ WordB)%re;
  (WordB ++ Group (times Digit 1 2 ++ plus Space ++ MONTH_NAMES
                   ++ Opt (plus Space ++ YEAR_TAIL)) ++ WordB)%re;
  (WordB ++ Group (times Digit 1 2 ++ plus Space ++ MONTH_ABBRS
                   ++ Opt (plus Space ++ YEAR_TAIL)) ++ WordB)%re
].

(** The body of the [try] in [_extract_specific_date]. *)
Definition parse_literal (date_str : string) (timezone : Datetime.tzinfo)
  : M Datetime.datetime :=
  parsed_date <- Dateutil.parse host date_str ;;
  parsed_date <-
    (if Datetime.year parsed_date =? 1900
     then
       now <- Datetime.now timezone ;;
       lift (Datetime.replace_year parsed_date (Datetime.year now))
     else ret parsed_date) ;;
  let parsed_date :=
    match Datetime.tz parsed_date with
    | None => Pytz.localize timezone parsed_date
    | Some _ => parsed_date
    end in
  ret (Datetime.replace_time parsed_date 0 0 0 0).

Definition caught (e : exn) : bool :=
  match e with
  | ValueError | OverflowError => true
  | UnknownTimeZoneError => false
  end.

(** The loop of [_extract_specific_date] over the patterns left. *)
Fixpoint extract_from (pats : list regex) (text : string)
    (timezone : Datetime.tzinfo) : M (option Datetime.datetime) :=
  match pats with
  | [] => ret None
  | pattern :: pats' =>
      match search pattern text true with
      | Some m =>
          try_except
            (d <- parse_literal (group1 text m) timezone ;; ret (Some d))
            caught
            (extract_from pats' text timezone)
      | None => extract_from pats' text timezone
      end
  end.

(** [_extract_specific_date] *)
Definition _extract_specific_date (text : string)
    (timezone : Datetime.tzinfo) : M (option Datetime.datetime) :=
  extract_from date_patterns text timezone.

(** The loop of [_extract_day_of_week] over the items left. *)
Fixpoint first_day (items : list (string * list regex)) (text : string)
  : option string :=
  match items with
  | [] => None
  | (day, pats) :: items' =>
      if _matches_patterns text pats then Some day
      else first_day items' text
  end.

(** [_extract_day_of_week] *)
Definition _extract_day_of_week (text : string) : option string :=
  first_day (day_patterns self) text.

Definition weekdays : list (string * Z) :=
  [("monday", 0); ("tuesday", 1); ("wednesday", 2); ("thursday", 3);
   ("friday", 4); ("saturday", 5); ("sunday", 6)].

(** [weekdays.get(key)] *)
Fixpoint weekdays_get (d : list (string * Z)) (key : string) : option Z :=
  match d with
  | [] => None
  | (k, v) :: d' => if String.eqb k key then Some v else weekdays_get d' key
  end.

(** [_get_next_weekday] *)
Definition _get_next_weekday (current_date : Datetime.datetime)
    (target_day : string) : outcome Datetime.datetime :=
  match weekdays_get weekdays (Text.lower target_day) with
  | None => Returns current_date
  | Some target_weekday =>
      let days_ahead := target_weekday - Datetime.weekday current_date in
      let days_ahead :=
        if days_ahead <=? 0 then days_ahead + 7 else days_ahead in
      match Datetime.add_days current_date days_ahead with
      | Returns target_date =>
          Returns (Datetime.replace_time target_date 0 0 0 0)
      | Raises e => Raises e
      end
  end.

Definition result (i : Intent) (tz : option string) (query : string)
  : ParsedQuery :=
  {| intent := i; timezone := tz; original_query := query |}.

(** The end of [parse_query]: the weekday check and the default. *)
Definition weekday_or_default (query query_lower : string)
    (tz : option string) (now : Datetime.datetime) : M ParsedQuery :=
  match _extract_day_of_week query_lower with
  | Some day_of_week =>
      target_date <- lift (_get_next_weekday now day_of_week) ;;
      ret (result (specific_date target_date) tz query)
  | None => ret (result (upcoming_events 7 10) tz query)
  end.

(** [parse_query] *)
Definition parse_query (query : string) (timezone : option string)
  : M ParsedQuery :=
  let query_lower := Text.lower query in
  tz <- _parse_timezone timezone ;;
  now <- Datetime.now tz ;;
  if _matches_patterns query_lower (get (patterns self) "today") then
    ret (result (specific_date (Datetime.replace_time now 0 0 0 0))
           timezone query)
  else if _matches_patterns query_lower (get (patterns self) "tomorrow")
  then
    tomorrow <- lift (Datetime.add_days now 1) ;;
    ret (result (specific_date (Datetime.replace_time tomorrow 0 0 0 0))
           timezone query)
  else if _matches_patterns query_lower (get (patterns self) "yesterday")
  then
    yesterday <- lift (Datetime.add_days now (-1)) ;;
    ret (result (specific_date (Datetime.replace_time yesterday 0 0 0 0))
           timezone query)
  else if _matches_patterns query_lower (get (patterns self) "this_week")
  then
    start_of_week <-
      lift (Datetime.add_days now (- Datetime.weekday now)) ;;
    end_of_week <- lift (Datetime.add_days start_of_week 6) ;;
    ret (result
           (date_range (Datetime.replace_time start_of_week 0 0 0 0)
              (Datetime.replace_time end_of_week 23 59 59 999999))
           timezone query)
  else if _matches_patterns query_lower (get (patterns self) "next_week")
  then
    next_monday <-
      lift (Datetime.add_days now (7 - Datetime.weekday now)) ;;
    next_sunday <- lift (Datetime.add_days next_monday 6) ;;
    ret (result
           (date_range (Datetime.replace_time next_monday 0 0 0 0)
              (Datetime.replace_time next_sunday 23 59 59 999999))
           timezone query)
  else if _matches_patterns query_lower (get (patterns self) "upcoming")
  then
    days_ahead <- lift (_extract_number_of_days query_lower) ;;
    max_results <- lift (_extract_max_results query_lower) ;;
    ret (result (upcoming_events days_ahead max_results) timezone query)
  else if _matches_patterns query_lower
            (get (patterns self) "specific_date")
  then
    parsed_date <- _extract_specific_date query tz ;;
    match parsed_date with
    | Some d => ret (result (specific_date d) timezone query)
    | None => weekday_or_default query query_lower timezone now
    end
  else weekday_or_default query query_lower timezone now.

End Parser.

(** ** [GoogleCalendarService]: the events of the API and their formatting

    An event is the JSON object the API returns, with the keys the service
    reads; a key that is absent is [None].  The values of the keys are
    texts, those of ['attendees'] the attendees with their flag ['self']
    and their ['responseStatus']. *)

(** What the display of a time rests on besides the repository: how
    [dateutil] reads an RFC 3339 time over its default date, how the
    standard library converts it to a zone and prints it ([shown], from
    the text, the default date and the zone; [None] when one of the three
    raises), and [strftime]. *)
Record Library := {
  shown : string -> Z * Z * Z -> Datetime.tzinfo -> option string;
  strftime : string -> Datetime.datetime -> string
}.

Module Service.

Record Attendee := {
  self : bool;
  responseStatus : option string
}.

Record EventTime := {
  date : option string;
  dateTime : option string
}.

Record Event := {
  id : option string;
  summary : option string;
  description : option string;
  location : option string;
  start : EventTime;                  (* [{}] when the key is absent *)
  end_ : EventTime;
  status : option string;
  htmlLink : option string;
  attendees : list Attendee           (* [[]] when the key is absent *)
}.

(** The dictionary [_format_event] builds. *)
Record FormattedEvent := {
  f_id : option string;
  f_summary : option string;
  f_description : option string;
  f_location : option string;
  f_start : EventTime;
  f_end : EventTime;
  f_start_formatted : option string;
  f_end_formatted : option string;
  f_status : option string;
  f_html_link : option string;
  f_attendees : list Attendee
}.

(** The truth value of [d.get(key)] for a text. *)
Definition present (v : option string) : bool :=
  match v with
  | Some (String _ _) => true
  | _ => false
  end.

(** [d.get(key, default)] *)
Definition get_or (v : option string) (default : string) : string :=
  match v with
  | Some s => s
  | None => default
  end.

(** [a in s] for a character *)
Fixpoint has_char (a : ascii) (s : string) : bool :=
  match s with
  | EmptyString => false
  | String x s' => Ascii.eqb a x || has_char a s'
  end.

Record GoogleCalendarService := {
  default_timezone : Datetime.tzinfo
}.

Section Methods.

Variable host : Host.
Variable library : Library.

(** [__init__] *)
Definition init : GoogleCalendarService := {|
  default_timezone :=
    if has_tzlocal host then host_zone host else Pytz.utc
|}.

Variable this : GoogleCalendarService.

(** [_parse_timezone] *)
Definition _parse_timezone (timezone_str : option string)
  : M Datetime.tzinfo :=
  match timezone_str with
  | None | Some EmptyString => ret (default_timezone this)
  | Some name =>
      try_except (Pytz.timezone host name)
        (fun e => match e with UnknownTimeZoneError => true | _ => false end)
        (ret (default_timezone this))
  end.

(** [_format_datetime]: [date_parser.parse] reads the clock for its
    default date before it reads the text, and whatever is raised after
    that is caught. *)
Definition _format_datetime (dt_str : string) (timezone : Datetime.tzinfo)
  : M string :=
  if has_char "T"%char dt_str
  then
    default <- Datetime.now_naive (host_zone host) ;;
    match shown library dt_str (Datetime.year default,
                                Datetime.month default,
                                Datetime.day default) timezone with
    | Some text => ret text
    | None => ret dt_str
    end
  else ret dt_str.

(** [_format_event] *)
Definition _format_event (event : Event) (timezone : Datetime.tzinfo)
  : M (option FormattedEvent) :=
  let formatted (start_formatted end_formatted : string) :=
    Some {| f_id := id event;
            f_summary := Some (get_or (summary event) "No title");
            f_description := Some (get_or (description event) "");
            f_location := Some (get_or (location event) "");
            f_start := start event;
            f_end := end_ event;
            f_start_formatted := Some start_formatted;
            f_end_formatted := Some end_formatted;
            f_status := Some (get_or (status event) "");
            f_html_link := Some (get_or (htmlLink event) "");
            f_attendees := attendees event |} in
  if present (date (start event)) then
    let start_formatted := get_or (date (start event)) "" in
    ret (formatted start_formatted
           (get_or (date (end_ event)) start_formatted))
  else if present (dateTime (start event)) then
    start_formatted <-
      _format_datetime (get_or (dateTime (start event)) "") timezone ;;
    end_formatted <-
      (if present (dateTime (end_ event))
       then _format_datetime (get_or (dateTime (end_ event)) "") timezone
       else ret start_formatted) ;;
    ret (formatted start_formatted end_formatted)
  else ret None.

(** The inner loop of [check_availability] and of
    [get_conflicting_events]: the answer of the first attendee flagged
    ['self']. *)
Fixpoint user_response (l : list Attendee) : option string :=
  match l with
  | [] => None
  | attendee :: l' =>
      if self attendee then responseStatus attendee else user_response l'
  end.

(** [user_response == 'declined'] *)
Definition declined (event : Event) : bool :=
  match user_response (attendees event) with
  | Some answer => String.eqb answer "declined"
  | None => false
  end.

(** [check_availability], from the items of the API's answer on. *)
Fixpoint check_availability (events : list Event) : bool :=
  match events with
  | [] => true
  | event :: events' =>
      if declined event then check_availability events'
      else if present (dateTime (start event))
              && present (dateTime (end_ event))
      then false
      else check_availability events'
  end.

(** The loop of [get_conflicting_events]. *)
Fixpoint conflicts_of (events : list Event) (tz : Datetime.tzinfo)
  : M (list FormattedEvent) :=
  match events with
  | [] => ret []
  | event :: events' =>
      if declined event then conflicts_of events' tz
      else
        formatted_event <- _format_event event tz ;;
        conflicts <- conflicts_of events' tz ;;
        ret (match formatted_event with
             | Some f => f :: conflicts
             | None => conflicts
             end)
  end.

(** [get_conflicting_events], from the items of the API's answer on. *)
Definition get_conflicting_events (events : list Event)
    (timezone : option string) : M (list FormattedEvent) :=
  tz <- _parse_timezone timezone ;;
  conflicts_of events tz.

End Methods.

End Service.

(** ** [CalendarMCPServer]: the query tool

    A handler is followed up to the call of the calendar service it awaits:
    its plan is the text it replies with, or the call and what it makes of
    the events the call returns. *)

Module Server.

(** The arguments of the tool [query_calendar]; a key that is absent is
    [None]. *)
Record Arguments := {
  a_query : option string;
  a_timezone : option string;
  a_calendar_id : option string
}.

(** The methods of the calendar service the handler awaits, with their
    keyword arguments. *)
Inductive Call : Type :=
| get_upcoming_events (max_results days_ahead : Z)
    (timezone calendar_id : option string)
| get_events_for_date (date : Datetime.datetime)
    (timezone calendar_id : option string)
| get_events_in_range (start_date end_date : Datetime.datetime)
    (timezone calendar_id : option string).

Inductive Plan : Type :=
| Reply (text : string)
| Await (call : Call) (respond : list Service.FormattedEvent -> string).

Definition LF : string := String "010"%char EmptyString.

Record CalendarMCPServer := {
  query_parser : CalendarQueryParser
}.

Section Handlers.

Variable host : Host.
Variable library : Library.

(** [__init__] *)
Definition init : CalendarMCPServer := {|
  query_parser := init host
|}.

Variable this : CalendarMCPServer.

(** [_format_single_event] *)
Definition _format_single_event (event : Service.FormattedEvent)
  : string :=
  let title := Service.get_or (Service.f_summary event) "No title" in
  let start :=
    Service.get_or (Service.f_start_formatted event) "No start time" in
  let end_ := Service.get_or (Service.f_end_formatted event) "No end time" in
  let location := Service.get_or (Service.f_location event) "" in
  let description := Service.get_or (Service.f_description event) "" in
  let formatted := "📅 " ++ title ++ LF in
  let formatted := formatted ++ "⏰ " ++ start in
  let formatted :=
    if negb (String.eqb end_ "") && negb (String.eqb end_ start)
    then formatted ++ " - " ++ end_
    else formatted in
  let formatted :=
    if negb (String.eqb location "")
    then formatted ++ LF ++ "📍 " ++ location
    else formatted in
  if negb (String.eqb description "")
     && Nat.ltb (String.length description) 100
  then formatted ++ LF ++ "📝 " ++ description
  else formatted.

(** The loop of [_format_events_response]. *)
Fixpoint append_events (response : string)
    (events : list Service.FormattedEvent) : string :=
  match events with
  | [] => response
  | event :: events' =>
      append_events (response ++ _format_single_event event ++ LF) events'
  end.

(** [_format_events_response] *)
Definition _format_events_response (events : list Service.FormattedEvent)
    (original_query : string) (parsed_query : ParsedQuery) : string :=
  match events with
  | [] => "No events found for your query."
  | _ =>
      let response :=
        match intent parsed_query with
        | specific_date date =>
            "Schedule for " ++ strftime library "%A, %B %d, %Y" date
            ++ ":" ++ LF ++ LF
        | date_range start_date end_date =>
            "Events from " ++ strftime library "%B %d" start_date
            ++ " to " ++ strftime library "%B %d, %Y" end_date
            ++ ":" ++ LF ++ LF
        | upcoming_events _ _ =>
            "Calendar events for '" ++ original_query ++ "':" ++ LF ++ LF
        end in
      append_events response events
  end.

(** [_handle_calendar_query].  The intent of a parsed query is one of the
    three the handler tests for, each with its own keys. *)
Definition _handle_calendar_query (arguments : Arguments) : M Plan :=
  let query := Service.get_or (a_query arguments) "" in
  let hint := a_timezone arguments in
  if String.eqb query ""
  then ret (Reply "Error: Query cannot be empty")
  else
    parsed_query <- parse_query host (query_parser this) query hint ;;
    let respond events :=
      _format_events_response events query parsed_query in
    match intent parsed_query with
    | upcoming_events days_ahead max_results =>
        ret (Await
               (get_upcoming_events max_results days_ahead
                  (timezone parsed_query)
                  (a_calendar_id arguments))
               respond)
    | specific_date date =>
        ret (Await
               (get_events_for_date date (timezone parsed_query)
                  (a_calendar_id arguments))
               respond)
    | date_range start_date end_date =>
        ret (Await
               (get_events_in_range start_date end_date
                  (timezone parsed_query)
                  (a_calendar_id arguments))
               respond)
    end.

End Handlers.

End Server.

(** ** Specification-side definitions

    The notions the specification uses to describe the parser; the theorems
    below relate them to the transcription above. *)

(** The categories of the specification, in the order it fixes. *)
Inductive category : Type :=
| today | tomorrow | yesterday | this_week | next_week | upcoming
| specific_date_literal | none.

Definition CATEGORY_ORDER : list category :=
  [today; tomorrow; yesterday; this_week; next_week; upcoming;
   specific_date_literal].

(** The key of the rule table a category is stored under. *)
Definition category_key (c : category) : string :=
  match c with
  | today => "today"
  | tomorrow => "tomorrow"
  | yesterday => "yesterday"
  | this_week => "this_week"
  | next_week => "next_week"
  | upcoming => "upcoming"
  | specific_date_literal => "specific_date"
  | none => "none"
  end.

Section Specification.

Variable host : Host.
Variable self : CalendarQueryParser.

Definition category_matches (text : string) (c : category) : bool :=
  _matches_patterns text (get (patterns self) (category_key c)).

Fixpoint first_category (text : string) (cs : list category) : category :=
  match cs with
  | [] => none
  | c :: cs' =>
      if category_matches text c then c else first_category text cs'
  end.

(** [classify]: the first category of the fixed order one of whose
    patterns matches the lowercased query. *)
Definition classify (query : string) : category :=
  first_category (Text.lower query) CATEGORY_ORDER.

(** [resolve_timezone]: the zone named by the hint, the default zone when
    the hint is absent, empty or unknown. *)
Definition resolve_timezone (hint : option string) : Datetime.tzinfo :=
  match hint with
  | None | Some EmptyString => default_timezone self
  | Some name =>
      match tzdb host name with
      | Some z => z
      | None => default_timezone self
      end
  end.

(** The dispatch table: what a category produces. *)
Definition dispatch (c : category) (query : string)
    (hint : option string) (z : Datetime.tzinfo)
    (now : Datetime.datetime) : M ParsedQuery :=
  match c with
  | today =>
      ret (result (specific_date (Datetime.replace_time now 0 0 0 0))
             hint query)
  | tomorrow =>
      d <- lift (Datetime.add_days now 1) ;;
      ret (result (specific_date (Datetime.replace_time d 0 0 0 0))
             hint query)
  | yesterday =>
      d <- lift (Datetime.add_days now (-1)) ;;
      ret (result (specific_date (Datetime.replace_time d 0 0 0 0))
             hint query)
  | this_week =>
      monday <- lift (Datetime.add_days now (- Datetime.weekday now)) ;;
      sunday <- lift (Datetime.add_days monday 6) ;;
      ret (result
             (date_range (Datetime.replace_time monday 0 0 0 0)
                (Datetime.replace_time sunday 23 59 59 999999))
             hint query)
  | next_week =>
      monday <- lift (Datetime.add_days now (7 - Datetime.weekday now)) ;;
      sunday <- lift (Datetime.add_days monday 6) ;;
      ret (result
             (date_range (Datetime.replace_time monday 0 0 0 0)
                (Datetime.replace_time sunday 23 59 59 999999))
             hint query)
  | upcoming =>
      days <- lift (_extract_number_of_days (Text.lower query)) ;;
      results <- lift (_extract_max_results (Text.lower query)) ;;
      ret (result (upcoming_events days results) hint query)
  | specific_date_literal =>
      found <- _extract_specific_date host query z ;;
      match found with
      | Some d => ret (result (specific_date d) hint query)
      | None =>
          weekday_or_default self query (Text.lower query) hint now
      end
  | none => weekday_or_default self query (Text.lower query) hint now
  end.

(** The reading of the clock [parse_query] starts from, in the resolved
    zone. *)
Definition now_of (hint : option string) (c : Clock) : Datetime.datetime :=
  Datetime.wall_clock (resolve_timezone hint) true (ticks c (reads c)).

(** The clock after that first reading. *)
Definition after_now (c : Clock) : Clock :=
  {| ticks := ticks c; reads := S (reads c) |}.

End Specification.

(** The year [dateutil] gives a literal without year: the one of the host's
    local date at the next reading of the clock. *)
Definition host_year (h : Host) (c : Clock) : Z :=
  Datetime.year (Datetime.wall_clock (host_zone h) false (ticks c (reads c))).

(** [s] contains [w] as a word: [w] stands in [s] with no word character
    directly before or after it. *)
Definition ends_word (s : string) : bool :=
  match s with
  | EmptyString => false
  | String c _ => Text.is_word c
  end.

Fixpoint last_char (p : option ascii) (s : string) : option ascii :=
  match s with
  | EmptyString => p
  | String c s' => last_char (Some c) s'
  end.

Definition begins_word (p : option ascii) : bool :=
  match p with Some c => Text.is_word c | None => false end.

Definition contains_word (w s : string) : Prop :=
  exists pre post,
    s = pre ++ w ++ post
    /\ begins_word (last_char None pre) = false
    /\ ends_word post = false.

(** A date far enough from both ends of the calendar for the parser's day
    arithmetic: 0001-01-07 up to 9999-12-18. *)
Definition safe_date (d : Datetime.datetime) : Prop :=
  6 < Datetime.toordinal d <= Datetime.MAXORDINAL - 13.

Definition midnight (d : Datetime.datetime) : Prop :=
  Datetime.hour d = 0 /\ Datetime.minute d = 0 /\ Datetime.second d = 0
  /\ Datetime.microsecond d = 0.

Definition last_instant (d : Datetime.datetime) : Prop :=
  Datetime.hour d = 23 /\ Datetime.minute d = 59 /\ Datetime.second d = 59
  /\ Datetime.microsecond d = 999999.

Definition ymd (d : Datetime.datetime) : Z * Z * Z :=
  (Datetime.year d, Datetime.month d, Datetime.day d).

(** The last steps of [ord2ymd]: the month and the day of the [n]-th day,
    counted from 0, of a year. *)
Definition month_and_day (leapyear : bool) (n : Z) : Z * Z :=
  let month := Z.shiftr (n + 50) 5 in
  let preceding :=
    Datetime.index Datetime.DAYS_BEFORE_MONTH month
    + (if (2 <? month) && leapyear then 1 else 0) in
  if n <? preceding
  then
    let month := month - 1 in
    let preceding :=
      preceding - (Datetime.index Datetime.DAYS_IN_MONTH month
                   + (if (month =? 2) && leapyear then 1 else 0)) in
    (month, n - preceding + 1)
  else (month, n - preceding + 1).

(** The days [n], [n + 1], ..., [n + k - 1] of a year all lie as many days
    into the year as their month and day say. *)
Fixpoint month_and_day_upto (k : nat) (leapyear : bool) (n : Z) : bool :=
  match k with
  | O => true
  | S k' =>
      (let '(m, d) := month_and_day leapyear n in
       Datetime.index Datetime.DAYS_BEFORE_MONTH m
       + (if (2 <? m) && leapyear then 1 else 0) + d =? n + 1)
      && month_and_day_upto k' leapyear (n + 1)
  end.

(** A datetime that carries a time zone. *)
Definition aware (d : Datetime.datetime) : Prop := Datetime.tz d <> None.

(** A well-formed result: its dates carry a zone, its numbers are counts,
    the number of results at most 50. *)
Definition well_formed (pq : ParsedQuery) : Prop :=
  match intent pq with
  | upcoming_events d m => 0 <= d /\ 0 <= m <= 50
  | specific_date d => aware d
  | date_range s e => aware s /\ aware e
  end.

(** Two clocks that give the same next [k] readings. *)
Definition agree_upto (k : nat) (c1 c2 : Clock) : Prop :=
  forall n : nat,
    (n < k)%nat -> ticks c1 (reads c1 + n) = ticks c2 (reads c2 + n).

(** A computation that reads the clock at most [k] times and whose outcome
    depends on the clock through these readings only: on two clocks that
    give the same next [k] readings it has the same outcome, after the
    same number of readings. *)
Definition reads_within {A : Type} (k : nat) (m : M A) : Prop :=
  forall c1 c2, agree_upto k c1 c2 ->
    fst (m c1) = fst (m c2)
    /\ exists j : nat,
         (j <= k)%nat
         /\ ticks (snd (m c1)) = ticks c1
         /\ reads (snd (m c1)) = (reads c1 + j)%nat
         /\ ticks (snd (m c2)) = ticks c2
         /\ reads (snd (m c2)) = (reads c2 + j)%nat.

(** The cursor over the lower-case form of the text. *)
Definition lower_cursor (cu : cursor) : cursor :=
  Cursor (option_map Text.lower_char (prev cu)) (pos cu)
    (Text.lower (rest cu)).

(** A pattern written in lower case: its literals and the characters of
    its sets are their own lower-case forms. *)
Fixpoint lowercase (r : regex) : bool :=
  match r with
  | Eps | WordB => true
  | Lit l => String.eqb (Text.lower l) l
  | Set_ c | Rep c _ _ =>
      match c with
      | OneOf l => forallb (fun a => Ascii.eqb (Text.lower_char a) a) l
      | _ => true
      end
  | Seq a b | Alt a b => lowercase a && lowercase b
  | Opt a | Group a => lowercase a
  end.

(** A text of ASCII characters, the texts on which [str.lower] and the
    classes of [re] are those of the library models. *)
Fixpoint ascii_text (s : string) : bool :=
  match s with
  | EmptyString => true
  | String c s' => (Text.code c <? 128) && ascii_text s'
  end.

(** A pattern whose literals and sets are written in ASCII. *)
Fixpoint ascii_pattern (r : regex) : bool :=
  match r with
  | Eps | WordB => true
  | Lit l => ascii_text l
  | Set_ c | Rep c _ _ =>
      match c with
      | OneOf l => forallb (fun a => Text.code a <? 128) l
      | _ => true
      end
  | Seq a b | Alt a b => ascii_pattern a && ascii_pattern b
  | Opt a | Group a => ascii_pattern a
  end.

(** A parser all of whose patterns are written in ASCII. *)
Definition ascii_parser (self : CalendarQueryParser) : bool :=
  forallb (fun entry => forallb ascii_pattern (snd entry)) (patterns self).

(** What [lower_char] keeps of a character. *)
Definition lower_char_facts (c : ascii) : bool :=
  Ascii.eqb (Text.lower_char (Text.lower_char c)) (Text.lower_char c)
  && Bool.eqb (Text.is_word (Text.lower_char c)) (Text.is_word c)
  && Bool.eqb (Text.is_digit (Text.lower_char c)) (Text.is_digit c)
  && Bool.eqb (Text.is_space (Text.lower_char c)) (Text.is_space c)
  && Bool.eqb (Text.code (Text.lower_char c) =? 10) (Text.code c =? 10).

(** Two results for the query [q] that differ only in the hint they
    echo. *)
Definition same_answer (q : string) (h1 h2 : option string)
    (r1 r2 : outcome ParsedQuery * Clock) : Prop :=
  snd r1 = snd r2
  /\ match fst r1, fst r2 with
     | Returns pq1, Returns pq2 =>
         intent pq1 = intent pq2
         /\ timezone pq1 = h1 /\ timezone pq2 = h2
         /\ original_query pq1 = q /\ original_query pq2 = q
     | Raises e1, Raises e2 => e1 = e2
     | _, _ => False
     end.

(** A result whose dates are in the zone [z], at midnight, the end of a
    range at the last instant of its day. *)
Definition normalised (z : Datetime.tzinfo) (pq : ParsedQuery) : Prop :=
  match intent pq with
  | upcoming_events _ _ => True
  | specific_date d => midnight d /\ Datetime.tz d = Some z
  | date_range s e =>
      midnight s /\ last_instant e
      /\ Datetime.tz s = Some z /\ Datetime.tz e = Some z
  end.

(** The clock [c'] is the clock [c] after at least [lo] and at most [hi]
    further readings. *)
Definition advanced (lo hi : nat) (c c' : Clock) : Prop :=
  ticks c' = ticks c /\ (reads c + lo <= reads c' <= reads c + hi)%nat.

(** The days from today to the day of a relative-day category. *)
Definition day_offset (c : category) : option Z :=
  match c with
  | today => Some 0
  | tomorrow => Some 1
  | yesterday => Some (-1)
  | _ => None
  end.

(** An event that stands in the way of a time slot: the user has not
    declined it and it has a start and an end time. *)
Definition conflicting (event : Service.Event) : bool :=
  negb (Service.declined event)
  && Service.present (Service.dateTime (Service.start event))
  && Service.present (Service.dateTime (Service.end_ event)).

(** The [timezone] argument of a call of the calendar service. *)
Definition call_timezone (call : Server.Call) : option string :=
  match call with
  | Server.get_upcoming_events _ _ tz _
  | Server.get_events_for_date _ tz _
  | Server.get_events_in_range _ _ tz _ => tz
  end.

(** ** Sample installation and clocks *)

(** The UTC instant of a wall-clock time, in microseconds since the epoch. *)
Definition instant (y m d hh mm ss us : Z) : Z :=
  ((Datetime.ymd2ord y m d - Datetime.EPOCH_ORDINAL) * 86400
   + hh * 3600 + mm * 60 + ss) * 1000000 + us.

(** A clock that gives the same reading every time. *)
Definition frozen (t : Z) : Clock := {| ticks := fun _ => t; reads := 0 |}.

(** A clock whose first reading is [t0] and whose later readings are [t1]. *)
Definition stepping (t0 t1 : Z) : Clock :=
  {| ticks := fun n => match n with O => t0 | S _ => t1 end; reads := 0 |}.

(** A clock that gives the reading [t] thirteen times and [t'] from then
    on. *)
Definition thirteen_then (t t' : Z) : Clock :=
  {| ticks := fun n => if Nat.ltb n 13 then t else t'; reads := 0 |}.

Definition fixed_zone (name : string) (seconds : Z) : Datetime.tzinfo :=
  {| Datetime.tzname := name; Datetime.utcoffset := fun _ => seconds |}.

Definition kiritimati : Datetime.tzinfo :=
  fixed_zone "Pacific/Kiritimati" 50400.

(** [dateutil]'s [convertyear], for the current year [this_year]: a year
    below 100 written with one or two digits is taken in the current
    century, or in the one next to it when that is within fifty years. *)
Definition convertyear (this_year y : Z) (century_specified : bool) : Z :=
  if (y <? 100) && negb century_specified then
    let y' := y + this_year / 100 * 100 in
    if this_year + 50 <=? y' then y' - 100
    else if y' <? this_year - 50 then y' + 100
    else y'
  else y.

(** A number of more than two digits can only be a year. *)
Definition long_token (n : string) : bool :=
  Nat.ltb 2 (String.length n).

Definition is_date_separator (c : ascii) : bool :=
  (Text.code c =? 45) || (Text.code c =? 47).

(** A reading of the literals of the date patterns that
    [Dateutil.month_day_literal] leaves out, after the rules of
    [dateutil], the process having started in the year of the default
    date.  Of three numbers the first is the year when it has more than
    two digits or is above 31, and the last is otherwise: the other two
    are then month and day, or day and month when the first is above 12.
    Next to the name of a month, a number above 31 is the year, and the
    day is that of the default date or the last of the month; a year
    written with four digits is taken as it is. *)
Definition numeric_literal (s : string) (default : Z * Z * Z)
  : option (Z * Z * Z) :=
  let '(this_year, _, default_day) := default in
  let year n := convertyear this_year (Text.decimal n) (long_token n) in
  let month_and_year w n :=
    match Dateutil.month w with
    | Some m =>
        if Dateutil.short_day n then None
        else Some (year n, m,
                   Z.min default_day (Datetime.days_in_month (year n) m))
    | None => None
    end in
  let month_day_year w d y :=
    match Dateutil.month w with
    | Some m =>
        if Dateutil.short_day d && long_token y
        then Some (Text.decimal y, m, Text.decimal d)
        else None
    | None => None
    end in
  match Dateutil.lex s with
  | [Dateutil.TNum a; Dateutil.TSep s1; Dateutil.TNum b; Dateutil.TSep s2;
     Dateutil.TNum c] =>
      if is_date_separator s1 && is_date_separator s2 then
        if long_token a || (31 <? Text.decimal a) then
          if long_token b || long_token c then None
          else Some (year a, Text.decimal b, Text.decimal c)
        else if long_token b then None
        else if 12 <? Text.decimal a
        then Some (year c, Text.decimal b, Text.decimal a)
        else Some (year c, Text.decimal a, Text.decimal b)
      else None
  | ts =>
      match Dateutil.significant ts with
      | Some [Dateutil.TWord w; Dateutil.TNum n]
      | Some [Dateutil.TNum n; Dateutil.TWord w] => month_and_year w n
      | Some [Dateutil.TWord w; Dateutil.TNum d; Dateutil.TNum y]
      | Some [Dateutil.TNum d; Dateutil.TWord w; Dateutil.TNum y] =>
          month_day_year w d y
      | _ => None
      end
  end.

Definition sample_host : Host := {|
  tzdb := fun name =>
    if String.eqb name "UTC" then Some Pytz.utc
    else if String.eqb name "Pacific/Kiritimati" then Some kiritimati
    else None;
  host_zone := Pytz.utc;
  has_tzlocal := true;
  other_literal := numeric_literal
|}.

(** A run of [n] nines, and a query that asks for that many days. *)
Fixpoint nines (n : nat) : string :=
  match n with
  | O => EmptyString
  | S n' => String "9" (nines n')
  end.

Definition long_number_query : string :=
  "upcoming " ++ nines 4301 ++ " days".

Definition date_at (y m d hh mm ss us : Z) (z : Datetime.tzinfo)
  : Datetime.datetime :=
  {| Datetime.year := y; Datetime.month := m; Datetime.day := d;
     Datetime.hour := hh; Datetime.minute := mm; Datetime.second := ss;
     Datetime.microsecond := us; Datetime.tz := Some z |}.

(** Sample events and a library that prints no time. *)
Definition timed_event (summary start_time end_time : string)
    (attendees : list Service.Attendee) : Service.Event :=
  {| Service.id := None; Service.summary := Some summary;
     Service.description := None; Service.location := None;
     Service.start :=
       {| Service.date := None; Service.dateTime := Some start_time |};
     Service.end_ :=
       {| Service.date := None; Service.dateTime := Some end_time |};
     Service.status := None; Service.htmlLink := None;
     Service.attendees := attendees |}.

Definition all_day_event (summary day : string) : Service.Event :=
  {| Service.id := None; Service.summary := Some summary;
     Service.description := None; Service.location := None;
     Service.start := {| Service.date := Some day; Service.dateTime := None |};
     Service.end_ := {| Service.date := None; Service.dateTime := None |};
     Service.status := None; Service.htmlLink := None;
     Service.attendees := [] |}.

Definition review : Service.Event :=
  timed_event "Review" "2025-08-13T10:00:00Z" "2025-08-13T11:00:00Z"
    [ {| Service.self := false; Service.responseStatus := Some "declined" |};
      {| Service.self := true; Service.responseStatus := Some "accepted" |} ].

Definition holiday : Service.Event := all_day_event "Holiday" "2025-08-13".

Definition sample_library : Library := {|
  shown := fun _ _ _ => None;
  strftime := fun _ _ => EmptyString
|}.

(** * Facts about the library models *)

(** ** The calendar *)

Section CalendarFacts.

Import Datetime.

Lemma month_and_day_upto_spec (leap : bool) (k : nat) :
  forall n0, month_and_day_upto k leap n0 = true ->
  forall n, n0 <= n < n0 + Z.of_nat k ->
  let '(m, d) := month_and_day leap n in
  index DAYS_BEFORE_MONTH m + (if (2 <? m) && leap then 1 else 0) + d
  = n + 1.
Proof.
  induction k as [|k IH]; intros n0 H n Hn.
  - lia.
  - cbn [month_and_day_upto] in H. apply andb_true_iff in H as [H0 H1].
    destruct (Z.eq_dec n n0) as [->|Hne].
    + destruct (month_and_day leap n0) as [m d]. now apply Z.eqb_eq.
    + apply (IH (n0 + 1) H1). lia.
Qed.

Lemma month_and_day_ok (leap : bool) (n : Z) :
  0 <= n < 365 + (if leap then 1 else 0) ->
  let '(m, d) := month_and_day leap n in
  index DAYS_BEFORE_MONTH m + (if (2 <? m) && leap then 1 else 0) + d
  = n + 1.
Proof.
  intros Hn. destruct leap.
  - apply (month_and_day_upto_spec true 366 0); [vm_compute; reflexivity|].
    cbn. lia.
  - apply (month_and_day_upto_spec false 365 0); [vm_compute; reflexivity|].
    cbn. lia.
Qed.

(** Every ordinal is the ordinal of its own date. *)
Lemma ord_roundtrip (n : Z) :
  let '(y, m, d) := ord2ymd n in ymd2ord y m d = n.
Proof.
  unfold ord2ymd. cbv zeta.
  set (a := n - 1).
  set (n400 := a / DI400Y). set (r := a mod DI400Y).
  set (n100 := r / DI100Y). set (r2 := r mod DI100Y).
  set (n4 := r2 / DI4Y). set (r3 := r2 mod DI4Y).
  set (n1 := r3 / 365). set (r4 := r3 mod 365).
  assert (Ha : a = DI400Y * n400 + r /\ 0 <= r < DI400Y).
  { unfold n400, r, DI400Y. pose proof (Z_div_mod_eq_full a 146097).
    pose proof (Z.mod_pos_bound a 146097). lia. }
  assert (Hr : r = DI100Y * n100 + r2 /\ 0 <= r2 < DI100Y).
  { unfold n100, r2, DI100Y. pose proof (Z_div_mod_eq_full r 36524).
    pose proof (Z.mod_pos_bound r 36524). lia. }
  assert (Hr2 : r2 = DI4Y * n4 + r3 /\ 0 <= r3 < DI4Y).
  { unfold n4, r3, DI4Y. pose proof (Z_div_mod_eq_full r2 1461).
    pose proof (Z.mod_pos_bound r2 1461). lia. }
  assert (Hr3 : r3 = 365 * n1 + r4 /\ 0 <= r4 < 365).
  { unfold n1, r4. pose proof (Z_div_mod_eq_full r3 365).
    pose proof (Z.mod_pos_bound r3 365). lia. }
  clearbody n400 r n100 r2 n4 r3 n1 r4.
  unfold DI400Y, DI100Y, DI4Y in *.
  assert (Hb : 0 <= n100 <= 4 /\ 0 <= n4 <= 24 /\ 0 <= n1 <= 4) by lia.
  set (y := n400 * 400 + 1 + n100 * 100 + n4 * 4 + n1).
  destruct ((n1 =? 4) || (n100 =? 4)) eqn:Hend.
  - (* the last day of a leap year *)
    assert (Hy : (y - 1) mod 4 = 0
                 /\ ((y - 1) mod 100 <> 0 \/ (y - 1) mod 400 = 0)
                 /\ (y - 1 - 1) * 365 + (y - 1 - 1) / 4
                    - (y - 1 - 1) / 100 + (y - 1 - 1) / 400 + 366 = n).
    { apply orb_true_iff in Hend.
      destruct Hend as [H | H]; apply Z.eqb_eq in H; subst y a.
      - assert (r4 = 0 /\ n4 <= 23 /\ n100 <= 3) by lia.
        split; [| split; [left |]];
          Z.to_euclidean_division_equations; lia.
      - assert (E : r2 = 0 /\ n4 = 0 /\ r3 = 0 /\ n1 = 0 /\ r4 = 0) by lia.
        destruct E as (-> & -> & -> & -> & ->). subst n100.
        split; [| split; [right |]];
          Z.to_euclidean_division_equations; lia. }
    destruct Hy as (H4 & H100 & Hd).
    unfold ymd2ord, days_before_year, days_before_month, is_leap.
    cbv zeta.
    apply Z.eqb_eq in H4. rewrite H4.
    assert (Hl : negb ((y - 1) mod 100 =? 0) || ((y - 1) mod 400 =? 0)
                 = true).
    { apply orb_true_iff. destruct H100 as [H | H].
      - left. apply negb_true_iff. now apply Z.eqb_neq.
      - right. now apply Z.eqb_eq. }
    rewrite Hl. change (index DAYS_BEFORE_MONTH 12) with 334.
    change (2 <? 12) with true. cbn [andb]. lia.
  - apply orb_false_iff in Hend. destruct Hend as [Hn1 Hn100].
    apply Z.eqb_neq in Hn1. apply Z.eqb_neq in Hn100.
    assert (Hb' : n1 <= 3 /\ n100 <= 3) by lia.
    set (leap := (n1 =? 3) && (negb (n4 =? 24) || (n100 =? 3))).
    assert (Hleap : is_leap y = leap).
    { unfold is_leap, leap.
      assert (E4 : (y mod 4 =? 0) = (n1 =? 3)).
      { destruct (Z.eqb_spec n1 3); [apply Z.eqb_eq | apply Z.eqb_neq];
          subst y; Z.to_euclidean_division_equations; lia. }
      rewrite E4. destruct (Z.eqb_spec n1 3) as [E1 | E1];
        [cbn [andb] | reflexivity].
      assert (E100 : (y mod 100 =? 0) = (n4 =? 24)).
      { destruct (Z.eqb_spec n4 24); [apply Z.eqb_eq | apply Z.eqb_neq];
          subst y; Z.to_euclidean_division_equations; lia. }
      rewrite E100. destruct (Z.eqb_spec n4 24) as [E24 | E24];
        [cbn [negb orb] | reflexivity].
      destruct (Z.eqb_spec n100 3); [apply Z.eqb_eq | apply Z.eqb_neq];
        subst y; Z.to_euclidean_division_equations; lia. }
    assert (Hdby : days_before_year y = a - r4).
    { unfold days_before_year. cbv zeta. subst y.
      Z.to_euclidean_division_equations. lia. }
    assert (Hr4 : 0 <= r4 < 365 + (if leap then 1 else 0)).
    { destruct leap; lia. }
    pose proof (month_and_day_ok leap r4 Hr4) as Hmd.
    unfold month_and_day in Hmd. cbv zeta in Hmd.
    destruct (r4 <? _);
      unfold ymd2ord, days_before_month; rewrite Hdby, Hleap; lia.
Qed.

Lemma add_days_spec (d : datetime) (k : Z) :
  0 < toordinal d + k <= MAXORDINAL ->
  exists d', add_days d k = Returns d'
    /\ toordinal d' = toordinal d + k
    /\ ymd d' = ord2ymd (toordinal d + k)
    /\ hour d' = hour d /\ minute d' = minute d /\ second d' = second d
    /\ microsecond d' = microsecond d /\ tz d' = tz d.
Proof.
  intros [Hlo Hhi]. unfold add_days.
  apply Z.ltb_lt in Hlo. apply Z.leb_le in Hhi. rewrite Hlo, Hhi.
  cbn [andb].
  pose proof (ord_roundtrip (toordinal d + k)) as Hrt.
  destruct (ord2ymd (toordinal d + k)) as [[y m] dd].
  eexists. split; [reflexivity|].
  unfold toordinal at 1, ymd. cbn. repeat split; try reflexivity. exact Hrt.
Qed.

Lemma weekday_bounds (d : datetime) : 0 <= weekday d < 7.
Proof. unfold weekday. apply Z.mod_pos_bound. lia. Qed.

End CalendarFacts.

(** ** The clock *)

Section ClockFacts.

Lemma within_pure {A : Type} (k : nat) (o : outcome A) :
  reads_within k (lift o).
Proof.
  intros c1 c2 _. split; [reflexivity|]. exists 0%nat. cbn.
  rewrite !Nat.add_0_r. repeat split. lia.
Qed.

Lemma within_ret {A : Type} (k : nat) (a : A) : reads_within k (ret a).
Proof. exact (within_pure k (Returns a)). Qed.

Lemma within_raise {A : Type} (k : nat) (e : exn) :
  reads_within k (@raise A e).
Proof. exact (within_pure k (Raises e)). Qed.

Lemma within_read_clock (k : nat) : reads_within (S k) read_clock.
Proof.
  intros c1 c2 H. split.
  - cbn. f_equal. pose proof (H 0%nat) as H0.
    rewrite !Nat.add_0_r in H0. apply H0. lia.
  - exists 1%nat. cbn. rewrite !Nat.add_1_r. repeat split. lia.
Qed.

Lemma within_weaken {A : Type} (k k' : nat) (m : M A) :
  (k <= k')%nat -> reads_within k m -> reads_within k' m.
Proof.
  intros Hk Hm c1 c2 H.
  destruct (Hm c1 c2) as (E & j & Hj & Hr).
  - intros n Hn. apply H. lia.
  - split; [exact E|]. exists j. split; [lia | exact Hr].
Qed.

Lemma agree_upto_later (k j k' : nat) (c1 c2 c1' c2' : Clock) :
  agree_upto (k + k') c1 c2 -> (j <= k)%nat ->
  ticks c1' = ticks c1 -> reads c1' = (reads c1 + j)%nat ->
  ticks c2' = ticks c2 -> reads c2' = (reads c2 + j)%nat ->
  agree_upto k' c1' c2'.
Proof.
  intros H Hj T1 R1 T2 R2 n Hn.
  rewrite T1, T2, R1, R2, <- !Nat.add_assoc. apply H. lia.
Qed.

Lemma within_bind {A B : Type} (k k' : nat) (m : M A) (f : A -> M B) :
  reads_within k m -> (forall a, reads_within k' (f a)) ->
  reads_within (k + k') (bind m f).
Proof.
  intros Hm Hf c1 c2 H. unfold bind.
  destruct (Hm c1 c2) as (E & j & Hj & T1 & R1 & T2 & R2).
  { intros n Hn. apply H. lia. }
  pose proof (agree_upto_later k j k' c1 c2 _ _ H Hj T1 R1 T2 R2) as H'.
  destruct (m c1) as [[a1 | e1] c1'], (m c2) as [[a2 | e2] c2'];
    cbn [fst snd] in *; try discriminate.
  - injection E as ->.
    destruct (Hf a2 c1' c2' H') as (E' & j' & Hj' & T1' & R1' & T2' & R2').
    split; [exact E'|]. exists (j + j')%nat.
    rewrite T1', T2', R1', R2', T1, T2, R1, R2, !Nat.add_assoc.
    repeat split. lia.
  - injection E as ->. split; [reflexivity|]. exists j.
    repeat split; try assumption. lia.
Qed.

Lemma within_try_except {A : Type} (k k' : nat) (m h : M A)
    (handled : exn -> bool) :
  reads_within k m -> reads_within k' h ->
  reads_within (k + k') (try_except m handled h).
Proof.
  intros Hm Hh c1 c2 H. unfold try_except.
  destruct (Hm c1 c2) as (E & j & Hj & T1 & R1 & T2 & R2).
  { intros n Hn. apply H. lia. }
  pose proof (agree_upto_later k j k' c1 c2 _ _ H Hj T1 R1 T2 R2) as H'.
  destruct (m c1) as [[a1 | e1] c1'], (m c2) as [[a2 | e2] c2'];
    cbn [fst snd] in *; try discriminate.
  - split; [exact E|]. exists j. repeat split; try assumption. lia.
  - injection E as ->. destruct (handled e2).
    + destruct (Hh c1' c2' H') as (E' & j' & Hj' & T1' & R1' & T2' & R2').
      split; [exact E'|]. exists (j + j')%nat.
      rewrite T1', T2', R1', R2', T1, T2, R1, R2, !Nat.add_assoc.
      repeat split. lia.
    + split; [reflexivity|]. exists j. cbn [snd].
      repeat split; try assumption. lia.
Qed.

(** A step that reads no clock before a computation. *)
Lemma within_bind_pure {A B : Type} (k : nat) (o : outcome A)
    (f : A -> M B) :
  (forall a, reads_within k (f a)) -> reads_within k (bind (lift o) f).
Proof.
  intros Hf. apply (within_bind 0 k); [apply within_pure | exact Hf].
Qed.

End ClockFacts.

(** ** Strings *)

Section StringFacts.

Lemma append_assoc (a b c : string) : (a ++ b) ++ c = a ++ (b ++ c).
Proof. induction a as [|x a IH]; cbn; [reflexivity | now rewrite IH]. Qed.

Lemma length_append (a b : string) :
  String.length (a ++ b) = (String.length a + String.length b)%nat.
Proof. induction a as [|x a IH]; cbn; [reflexivity | now rewrite IH]. Qed.

Lemma substring_all (a b : string) :
  substring 0 (String.length a) (a ++ b) = a.
Proof. induction a as [|x a IH]; cbn; [now destruct b | now rewrite IH]. Qed.

Lemma substring_skip (a b : string) (n : nat) :
  substring (String.length a) n (a ++ b) = substring 0 n b.
Proof. induction a as [|x a IH]; cbn; [reflexivity | apply IH]. Qed.

(** The slice of a text between the ends of two of its parts. *)
Lemma slice_middle (a b c : string) :
  Text.slice (a ++ b ++ c) (String.length a)
    (String.length a + String.length b) = b.
Proof.
  unfold Text.slice.
  replace (String.length a + String.length b - String.length a)%nat
    with (String.length b) by lia.
  rewrite substring_skip. apply substring_all.
Qed.

Lemma substring_length (s : string) :
  forall i n, (String.length (substring i n s) <= String.length s)%nat.
Proof.
  induction s as [|c s IH]; intros i n.
  - destruct i, n; cbn; lia.
  - destruct i as [|i]; [destruct n as [|n]|]; cbn; [lia | |].
    + specialize (IH 0%nat n). lia.
    + specialize (IH i n). lia.
Qed.

Lemma lower_length (s : string) :
  String.length (Text.lower s) = String.length s.
Proof. induction s as [|c s IH]; cbn; [reflexivity | now rewrite IH]. Qed.

Lemma digit_value_bounds (c : ascii) :
  Text.is_digit c = true -> 0 <= Text.digit_value c <= 9.
Proof.
  unfold Text.is_digit, Text.between, Text.digit_value.
  intros H. apply andb_true_iff in H as [H1 H2].
  apply Z.leb_le in H1. apply Z.leb_le in H2. lia.
Qed.

Lemma int_acc_nonneg (s : string) :
  forall acc, 0 <= acc -> Text.all_digits s = true ->
  0 <= Text.decimal_acc acc s.
Proof.
  induction s as [|c s IH]; intros acc Hacc H;
    cbn [Text.decimal_acc Text.all_digits] in *.
  - exact Hacc.
  - apply andb_true_iff in H as [Hc Hs].
    apply IH; [|exact Hs].
    pose proof (digit_value_bounds c Hc). lia.
Qed.

(** A run of digits denotes a natural number. *)
Lemma int_nonneg (s : string) :
  Text.all_digits s = true -> 0 <= Text.decimal s.
Proof. apply int_acc_nonneg. lia. Qed.

End StringFacts.

(** ** The matcher *)

Section ReFacts.

Lemma search_from_eq (ic : bool) (r : regex) (p : option ascii) (i : nat)
    (s : string) :
  search_from ic r p i s
  = match match_here ic r (Cursor p i s) with
    | Some m => Some m
    | None =>
        match s with
        | String x s' => search_from ic r (Some x) (S i) s'
        | EmptyString => None
        end
    end.
Proof. destruct s; reflexivity. Qed.

(** A match somewhere in the text is found by the search, which may
    return an earlier one. *)
Lemma search_from_found (ic : bool) (r : regex) (pre : string) :
  forall p i s m,
  match_here ic r (Cursor (last_char p pre) (i + String.length pre) s)
  = Some m ->
  exists m', search_from ic r p i (pre ++ s) = Some m'.
Proof.
  induction pre as [|c pre IH]; intros p i s m H; cbn [append].
  - cbn in H. rewrite Nat.add_0_r in H. rewrite search_from_eq, H.
    now exists m.
  - rewrite search_from_eq.
    destruct (match_here ic r (Cursor p i (String c (pre ++ s))))
      as [m0|]; [now exists m0|].
    apply (IH (Some c) (S i) s m).
    cbn in H. now rewrite Nat.add_succ_r in H.
Qed.

(** The match the search returns starts somewhere in the text. *)
Lemma search_from_inv (ic : bool) (r : regex) (s : string) :
  forall p i m,
  search_from ic r p i s = Some m ->
  exists pre s',
    s = pre ++ s'
    /\ match_here ic r
         (Cursor (last_char p pre) (i + String.length pre) s') = Some m.
Proof.
  induction s as [|c s IH]; intros p i m H; rewrite search_from_eq in H.
  - destruct (match_here ic r _) eqn:E; [|discriminate].
    exists EmptyString, EmptyString. cbn. rewrite Nat.add_0_r.
    split; [reflexivity|]. now rewrite E.
  - destruct (match_here ic r _) eqn:E.
    + exists EmptyString, (String c s). cbn. rewrite Nat.add_0_r.
      split; [reflexivity|]. now rewrite E.
    + destruct (IH _ _ _ H) as (pre & s' & -> & Hm).
      exists (String c pre), s'. cbn. rewrite Nat.add_succ_r.
      split; [reflexivity | exact Hm].
Qed.

Lemma search_from_ext (ic : bool) (r1 r2 : regex) :
  (forall cu, match_here ic r1 cu = match_here ic r2 cu) ->
  forall s p i, search_from ic r1 p i s = search_from ic r2 p i s.
Proof.
  intros E. induction s as [|c s IH]; intros p i;
    rewrite (search_from_eq ic r1), (search_from_eq ic r2), E;
    [reflexivity | now rewrite IH].
Qed.

Lemma all_in_digit (ic : bool) (s : string) :
  all_in ic Digit s = Text.all_digits s.
Proof. induction s as [|c s IH]; cbn; [reflexivity | now rewrite IH]. Qed.

Lemma lit_from_inv (ic : bool) (l : string) :
  forall cu cu', lit_from ic l cu = Some cu' ->
  exists w, rest cu = w ++ rest cu'
            /\ pos cu' = (pos cu + String.length w)%nat.
Proof.
  induction l as [|a l IH]; intros cu cu' H; cbn in H.
  - injection H as <-. exists EmptyString. cbn. now rewrite Nat.add_0_r.
  - destruct (rest cu) as [|x s'] eqn:Er; [discriminate|].
    destruct (char_eq ic a x); [|discriminate].
    destruct (IH _ _ H) as (w & Hw & Hp). cbn in Hw, Hp.
    exists (String x w). cbn. rewrite Hw, Hp, Nat.add_succ_r.
    split; reflexivity.
Qed.

Lemma lit_from_same (ic : bool) (l : string) :
  forall p i post,
  lit_from ic l (Cursor p i (l ++ post))
  = Some (Cursor (last_char p l) (i + String.length l) post).
Proof.
  induction l as [|a l IH]; intros p i post; cbn.
  - now rewrite Nat.add_0_r.
  - assert (E : char_eq ic a a = true).
    { unfold char_eq. destruct ic; apply Ascii.eqb_refl. }
    rewrite E, IH. now rewrite Nat.add_succ_r.
Qed.

(** What a greedy repetition consumed when the match went through. *)
Lemma rep_from_inv {R : Type} (ic : bool) (c : cset) (lo : nat)
    (hi : option nat) (s : string) :
  forall n p i g k (res : R),
  rep_from ic c lo hi n p i s g k = Some res ->
  exists ds s' p',
    s = ds ++ s' /\ all_in ic c ds = true
    /\ k (Cursor p' (i + String.length ds) s') g = Some res.
Proof.
  induction s as [|x s IH]; intros n p i g k res H; cbn in H.
  - destruct (Nat.leb lo n); [|discriminate].
    exists EmptyString, EmptyString, p. cbn. now rewrite Nat.add_0_r.
  - assert (Hstop :
      (if Nat.leb lo n then k (Cursor p i (String x s)) g else None)
      = Some res ->
      exists ds s' p',
        String x s = ds ++ s' /\ all_in ic c ds = true
        /\ k (Cursor p' (i + String.length ds) s') g = Some res).
    { intros Hs. destruct (Nat.leb lo n); [|discriminate].
      exists EmptyString, (String x s), p. cbn. now rewrite Nat.add_0_r. }
    destruct (in_cset ic c x && below hi n) eqn:Ec; [|now apply Hstop].
    destruct (rep_from ic c lo hi (S n) (Some x) (S i) s g k) eqn:Er;
      [|now apply Hstop].
    injection H as ->.
    destruct (IH _ _ _ _ _ _ Er) as (ds & s' & p' & -> & Hall & Hk).
    apply andb_true_iff in Ec as [Ec _].
    exists (String x ds), s', p'. cbn. rewrite Ec, Hall.
    rewrite Nat.add_succ_r. repeat split. exact Hk.
Qed.

(** A greedy repetition takes a whole run when the rest of the pattern
    matches after it. *)
Lemma rep_from_run {R : Type} (ic : bool) (c : cset) (lo : nat)
    (ds : string) :
  forall n p i tail g k (res : R),
  all_in ic c ds = true ->
  (lo <= n + String.length ds)%nat ->
  match tail with
  | String x _ => in_cset ic c x = false
  | EmptyString => True
  end ->
  k (Cursor (last_char p ds) (i + String.length ds) tail) g = Some res ->
  rep_from ic c lo None n p i (ds ++ tail) g k = Some res.
Proof.
  induction ds as [|x ds IH]; intros n p i tail g k res Hall Hlo Ht Hk.
  - cbn in *. rewrite Nat.add_0_r in *.
    apply Nat.leb_le in Hlo.
    destruct tail as [|y tail]; cbn; rewrite ?Ht, Hlo; exact Hk.
  - cbn in Hall. apply andb_true_iff in Hall as [Hx Hall].
    cbn [append rep_from]. rewrite Hx. cbn [below andb].
    rewrite (IH (S n) (Some x) (S i) tail g k res); auto.
    + cbn in Hlo. lia.
    + cbn in Hk. now rewrite Nat.add_succ_r in Hk.
Qed.

(** What a pattern without group consumed when the match went through;
    it leaves the group as it was. *)
Lemma run_groupless {R : Type} (ic : bool) (r : regex) :
  groupless r = true ->
  forall cu g k (res : R),
  run ic r cu g k = Some res ->
  exists w cu',
    rest cu = w ++ rest cu'
    /\ pos cu' = (pos cu + String.length w)%nat
    /\ k cu' g = Some res.
Proof.
  induction r as [| l | c | | a IHa b IHb | a IHa b IHb | a IHa
                  | c lo hi | a IHa]; intros Hg cu g k res H;
    cbn [run groupless] in *.
  - exists EmptyString, cu. cbn. now rewrite Nat.add_0_r.
  - destruct (lit_from ic l cu) as [cu'|] eqn:El; [|discriminate].
    destruct (lit_from_inv _ _ _ _ El) as (w & Hw & Hp).
    now exists w, cu'.
  - destruct (rest cu) as [|x s'] eqn:Er; [discriminate|].
    destruct (in_cset ic c x); [|discriminate].
    exists (String x EmptyString), (Cursor (Some x) (S (pos cu)) s').
    cbn. rewrite Nat.add_1_r. now repeat split.
  - destruct (at_boundary cu); [|discriminate].
    exists EmptyString, cu. cbn. now rewrite Nat.add_0_r.
  - apply andb_true_iff in Hg as [Ha Hb].
    destruct (IHa Ha _ _ _ _ H) as (w1 & cu1 & Hw1 & Hp1 & H1).
    destruct (IHb Hb _ _ _ _ H1) as (w2 & cu2 & Hw2 & Hp2 & H2).
    exists (w1 ++ w2), cu2.
    rewrite Hw1, Hw2, Hp2, Hp1, append_assoc, length_append.
    repeat split; [lia | exact H2].
  - apply andb_true_iff in Hg as [Ha Hb].
    destruct (run ic a cu g k) eqn:Ea.
    + injection H as ->. exact (IHa Ha _ _ _ _ Ea).
    + exact (IHb Hb _ _ _ _ H).
  - destruct (run ic a cu g k) eqn:Ea.
    + injection H as ->. exact (IHa Hg _ _ _ _ Ea).
    + exists EmptyString, cu. cbn. now rewrite Nat.add_0_r.
  - destruct (rep_from_inv _ _ _ _ _ _ _ _ _ _ _ H)
      as (ds & s' & p' & Hs & _ & Hk).
    exists ds, (Cursor p' (pos cu + String.length ds) s').
    now repeat split.
  - discriminate.
Qed.

(** The span of the group of a pattern [a (c{lo,hi}) b]. *)
Lemma match_group_span (ic : bool) (a b : regex) (c : cset) (lo : nat)
    (hi : option nat) (cu : cursor) (m : match_obj) :
  groupless a = true -> groupless b = true ->
  match_here ic (Seq a (Seq (Group (Rep c lo hi)) b)) cu = Some m ->
  exists w ds tail,
    rest cu = w ++ ds ++ tail
    /\ all_in ic c ds = true
    /\ m_group1 m
       = Some ((pos cu + String.length w)%nat,
               (pos cu + String.length w + String.length ds)%nat).
Proof.
  intros Ha Hb H. unfold match_here in H. cbn [run] in H.
  destruct (run_groupless ic a Ha _ _ _ _ H) as (w & cu1 & Hw & Hp & H1).
  destruct (rep_from_inv _ _ _ _ _ _ _ _ _ _ _ H1)
    as (ds & s' & p' & Hs & Hall & Hk).
  destruct (run_groupless ic b Hb _ _ _ _ Hk) as (w2 & cu2 & _ & _ & H2).
  injection H2 as <-. cbn.
  exists w, ds, s'. rewrite Hw, Hs, Hp. now repeat split.
Qed.

(** The group of a successful search for [a (\d...) b] is a run of
    digits of the text. *)
Lemma search_group_digits (ic : bool) (a b : regex) (lo : nat)
    (hi : option nat) (text : string) (m : match_obj) :
  groupless a = true -> groupless b = true ->
  search (Seq a (Seq (Group (Rep Digit lo hi)) b)) text ic = Some m ->
  exists pre ds post,
    text = pre ++ ds ++ post
    /\ Text.all_digits ds = true
    /\ group1 text m = ds.
Proof.
  intros Ha Hb H. unfold search in H.
  destruct (search_from_inv _ _ _ _ _ _ H) as (pre & s' & -> & Hm).
  destruct (match_group_span _ _ _ _ _ _ _ _ Ha Hb Hm)
    as (w & ds & tail & Hr & Hall & Hg).
  cbn in Hr, Hg. subst s'.
  exists (pre ++ w), ds, tail.
  rewrite append_assoc, <- all_in_digit with (ic := ic).
  repeat split; [exact Hall|].
  unfold group1. rewrite Hg, <- length_append, <- append_assoc.
  apply slice_middle.
Qed.

(** A repetition that went through took at least its minimum. *)
Lemma rep_from_inv_min {R : Type} (ic : bool) (c : cset) (lo : nat)
    (hi : option nat) (s : string) :
  forall n p i g k (res : R),
  rep_from ic c lo hi n p i s g k = Some res ->
  exists ds s' p',
    s = ds ++ s' /\ all_in ic c ds = true
    /\ (lo <= n + String.length ds)%nat
    /\ k (Cursor p' (i + String.length ds) s') g = Some res.
Proof.
  induction s as [|x s IH]; intros n p i g k res H; cbn in H.
  - destruct (Nat.leb_spec lo n); [|discriminate].
    exists EmptyString, EmptyString, p. cbn. rewrite !Nat.add_0_r.
    now repeat split.
  - assert (Hstop :
      (if Nat.leb lo n then k (Cursor p i (String x s)) g else None)
      = Some res ->
      exists ds s' p',
        String x s = ds ++ s' /\ all_in ic c ds = true
        /\ (lo <= n + String.length ds)%nat
        /\ k (Cursor p' (i + String.length ds) s') g = Some res).
    { intros Hs. destruct (Nat.leb_spec lo n); [|discriminate].
      exists EmptyString, (String x s), p. cbn. rewrite !Nat.add_0_r.
      now repeat split. }
    destruct (in_cset ic c x && below hi n) eqn:Ec; [|now apply Hstop].
    destruct (rep_from ic c lo hi (S n) (Some x) (S i) s g k) eqn:Er;
      [|now apply Hstop].
    injection H as ->.
    destruct (IH _ _ _ _ _ _ Er) as (ds & s' & p' & -> & Hall & Hlo & Hk).
    apply andb_true_iff in Ec as [Ec _].
    exists (String x ds), s', p'. cbn. rewrite Ec, Hall.
    rewrite !Nat.add_succ_r. repeat split; [lia | exact Hk].
Qed.

(** The group of a successful search for [a (\d{lo,...}) b] is a run of at
    least [lo] digits of the text. *)
Lemma search_group_run (ic : bool) (a b : regex) (lo : nat)
    (hi : option nat) (text : string) (m : match_obj) :
  groupless a = true -> groupless b = true ->
  search (Seq a (Seq (Group (Rep Digit lo hi)) b)) text ic = Some m ->
  exists pre ds post,
    text = pre ++ ds ++ post
    /\ Text.all_digits ds = true
    /\ (lo <= String.length ds)%nat
    /\ group1 text m = ds.
Proof.
  intros Ha Hb H. unfold search in H.
  destruct (search_from_inv _ _ _ _ _ _ H) as (pre & s' & -> & Hm).
  unfold match_here in Hm. cbn [run] in Hm.
  destruct (run_groupless ic a Ha _ _ _ _ Hm) as (w & cu1 & Hw & Hp & H1).
  destruct (rep_from_inv_min _ _ _ _ _ _ _ _ _ _ _ H1)
    as (ds & s'' & p' & Hs & Hall & Hlo & Hk).
  destruct (run_groupless ic b Hb _ _ _ _ Hk) as (w2 & cu2 & _ & _ & H2).
  injection H2 as <-. cbn in Hw. subst s'. rewrite Hs.
  exists (pre ++ w), ds, s''.
  rewrite append_assoc, <- all_in_digit with (ic := ic).
  repeat split; [exact Hall | lia|].
  unfold group1. cbn [m_group1]. rewrite Hp. cbn [pos Nat.add].
  rewrite <- length_append, <- append_assoc.
  apply slice_middle.
Qed.

End ReFacts.

(** * Facts about the parser *)

Section ParserFacts.

Variable host : Host.
Variable self : CalendarQueryParser.

(** [_parse_timezone] never raises and does not read the clock. *)
Lemma parse_timezone_resolves (hint : option string) (c : Clock) :
  _parse_timezone host self hint c
  = (Returns (resolve_timezone host self hint), c).
Proof.
  destruct hint as [[|a s]|]; cbn; try reflexivity.
  unfold try_except, Pytz.timezone. destruct (tzdb host _); reflexivity.
Qed.

(** The chain of tests of [parse_query] is the dispatch on the first
    category that matches. *)
Lemma parse_query_dispatch (query : string) (hint : option string)
    (c : Clock) :
  parse_query host self query hint c
  = dispatch host self (classify self query) query hint
      (resolve_timezone host self hint) (now_of host self hint c)
      (after_now c).
Proof.
  unfold parse_query, bind at 1. rewrite parse_timezone_resolves.
  unfold Datetime.now, bind at 1. unfold bind at 1, read_clock, ret at 1.
  unfold now_of, after_now.
  set (now := Datetime.wall_clock _ _ _).
  set (c1 := {| ticks := ticks c; reads := S (reads c) |}).
  clearbody now c1.
  unfold classify, CATEGORY_ORDER, first_category, category_matches.
  cbn [category_key].
  repeat match goal with
         | |- context [if _matches_patterns ?t ?p then _ else _] =>
             destruct (_matches_patterns t p)
         end; unfold dispatch; reflexivity.
Qed.

Lemma build_raises (y m d : Z) (e : exn) :
  Dateutil.build y m d = Raises e -> e = ValueError.
Proof.
  unfold Dateutil.build. destruct (_ && _); [discriminate|].
  now intros [= <-].
Qed.

Lemma parse_raises (s : string) (c c' : Clock) (e : exn) :
  Dateutil.parse host s c = (Raises e, c') -> e = ValueError.
Proof.
  unfold Dateutil.parse, Datetime.now_naive, read_clock, ret, lift,
    raise, bind. cbv beta iota.
  destruct (Dateutil.month_day_literal s) as [[[m d] [y|]]|].
  - intros [= H _]. exact (build_raises _ _ _ _ H).
  - intros [= H _]. exact (build_raises _ _ _ _ H).
  - match goal with
    | |- context [other_literal host s ?x] =>
        destruct (other_literal host s x) as [[[y m] d]|]
    end.
    + intros [= H _]. exact (build_raises _ _ _ _ H).
    + now intros [= <- _].
Qed.

Lemma replace_year_raises (d : Datetime.datetime) (y : Z) (e : exn) :
  Datetime.replace_year d y = Raises e -> e = ValueError.
Proof.
  unfold Datetime.replace_year. destruct (_ && _); [discriminate|].
  now intros [= <-].
Qed.

(** Everything the body of the [try] can raise is caught. *)
Lemma parse_literal_caught (s : string) (z : Datetime.tzinfo)
    (c c' : Clock) (e : exn) :
  parse_literal host s z c = (Raises e, c') -> caught e = true.
Proof.
  unfold parse_literal, bind.
  destruct (Dateutil.parse host s c) as [[d | e0] c0] eqn:Ep.
  - destruct (Datetime.year d =? 1900).
    + unfold Datetime.now, read_clock, ret, lift, bind. cbv beta iota.
      destruct (Datetime.replace_year d _) as [d' | e1] eqn:Er.
      * discriminate.
      * intros [= <- _]. now rewrite (replace_year_raises _ _ _ Er).
    + discriminate.
  - intros [= <- _]. now rewrite (parse_raises _ _ _ _ Ep).
Qed.

(** [_extract_specific_date] never raises. *)
Lemma extract_from_returns (pats : list regex) (text : string)
    (z : Datetime.tzinfo) :
  forall c, exists o c', extract_from host pats text z c = (Returns o, c').
Proof.
  induction pats as [|pat pats IH]; intros c; cbn [extract_from].
  - now exists None, c.
  - destruct (search pat text true) as [m|]; [|apply IH].
    unfold try_except, bind at 1.
    destruct (parse_literal host (group1 text m) z c)
      as [[d | e] c0] eqn:Ep.
    + now exists (Some d), c0.
    + rewrite (parse_literal_caught _ _ _ _ _ Ep). apply IH.
Qed.

Lemma group1_length (text : string) (m : match_obj) :
  (String.length (group1 text m) <= String.length text)%nat.
Proof.
  unfold group1. destruct (m_group1 m) as [[i j]|]; [|cbn; lia].
  apply substring_length.
Qed.

(** [int] returns on a run of at most 4300 digits and raises [ValueError]
    on a longer one. *)
Lemma int_returns (s : string) :
  (String.length s <= MAX_STR_DIGITS)%nat -> int s = Returns (Text.decimal s).
Proof. intros H. unfold int. apply Nat.leb_le in H. now rewrite H. Qed.

Lemma int_raises (s : string) :
  (MAX_STR_DIGITS < String.length s)%nat -> int s = Raises ValueError.
Proof.
  intros H. unfold int.
  destruct (Nat.leb_spec (String.length s) MAX_STR_DIGITS);
    [lia | reflexivity].
Qed.

Lemma int_outcome (s : string) (e : exn) :
  int s = Raises e ->
  e = ValueError /\ (MAX_STR_DIGITS < String.length s)%nat.
Proof.
  unfold int.
  destruct (Nat.leb_spec (String.length s) MAX_STR_DIGITS);
    [discriminate|]. intros [= <-]. now split.
Qed.

(** The extraction of the numbers returns on a text of at most 4300
    characters; what it raises is a [ValueError]. *)
Lemma extract_number_of_days_returns (text : string) :
  (String.length text <= MAX_STR_DIGITS)%nat ->
  exists d, _extract_number_of_days text = Returns d.
Proof.
  intros H. unfold _extract_number_of_days.
  destruct (truthy _ || truthy _); [now exists 7|].
  destruct (search RE_NEXT_N_DAYS text false) as [m|].
  - rewrite int_returns; [eexists; reflexivity|].
    pose proof (group1_length text m). lia.
  - destruct (search RE_N_DAYS text false) as [m|]; [|now exists 7].
    rewrite int_returns; [eexists; reflexivity|].
    pose proof (group1_length text m). lia.
Qed.

Lemma extract_max_results_returns (text : string) :
  (String.length text <= MAX_STR_DIGITS)%nat ->
  exists n, _extract_max_results text = Returns n.
Proof.
  intros H. unfold _extract_max_results.
  destruct (search RE_MAX_RESULTS text false) as [m|]; [|now exists 10].
  rewrite int_returns; [eexists; reflexivity|].
  pose proof (group1_length text m). lia.
Qed.

Lemma extract_number_of_days_raises (text : string) (e : exn) :
  _extract_number_of_days text = Raises e -> e = ValueError.
Proof.
  unfold _extract_number_of_days.
  destruct (truthy _ || truthy _); [discriminate|].
  destruct (search RE_NEXT_N_DAYS text false) as [m|].
  - intros H. now apply int_outcome in H.
  - destruct (search RE_N_DAYS text false) as [m|]; [|discriminate].
    intros H. now apply int_outcome in H.
Qed.

Lemma extract_max_results_raises (text : string) (e : exn) :
  _extract_max_results text = Raises e -> e = ValueError.
Proof.
  unfold _extract_max_results.
  destruct (search RE_MAX_RESULTS text false) as [m|]; [|discriminate].
  destruct (int (group1 text m)) as [n|e0] eqn:E; [discriminate|].
  intros [= <-]. now apply int_outcome in E.
Qed.

Lemma weekdays_get_bounds (day : string) (t : Z) :
  weekdays_get weekdays day = Some t -> 0 <= t <= 6.
Proof.
  unfold weekdays. cbn [weekdays_get].
  repeat match goal with
         | |- context [String.eqb ?a ?b] => destruct (String.eqb a b)
         end; intros [= <-]; lia.
Qed.

(** The next occurrence of a weekday: one to seven days ahead. *)
Lemma get_next_weekday_spec (now : Datetime.datetime) (day : string)
    (t : Z) :
  weekdays_get weekdays (Text.lower day) = Some t ->
  0 < Datetime.toordinal now <= Datetime.MAXORDINAL - 7 ->
  exists d,
    _get_next_weekday now day = Returns d
    /\ Datetime.toordinal d
       = Datetime.toordinal now
         + (if t - Datetime.weekday now <=? 0
            then t - Datetime.weekday now + 7
            else t - Datetime.weekday now)
    /\ Datetime.toordinal now < Datetime.toordinal d
       <= Datetime.toordinal now + 7
    /\ Datetime.weekday d = t
    /\ midnight d
    /\ Datetime.tz d = Datetime.tz now
    /\ ymd d = Datetime.ord2ymd (Datetime.toordinal d).
Proof.
  intros Ht Hr. unfold _get_next_weekday. rewrite Ht.
  pose proof (weekdays_get_bounds _ _ Ht) as Hb.
  pose proof (weekday_bounds now) as Hw.
  set (k := if t - Datetime.weekday now <=? 0
            then t - Datetime.weekday now + 7
            else t - Datetime.weekday now).
  assert (Hk : 1 <= k <= 7
               /\ (Datetime.weekday now + k) mod 7 = t).
  { unfold k. destruct (Z.leb_spec (t - Datetime.weekday now) 0).
    - split; [lia|].
      replace (Datetime.weekday now + (t - Datetime.weekday now + 7))
        with (t + 1 * 7) by ring.
      rewrite Z_mod_plus_full. apply Z.mod_small. lia.
    - split; [lia|].
      replace (Datetime.weekday now + (t - Datetime.weekday now))
        with t by ring.
      apply Z.mod_small. lia. }
  destruct Hk as [Hk Hmod].
  destruct (add_days_spec now k) as (d & Hd & Ho & Hy & Hh); [lia|].
  rewrite Hd. eexists. split; [reflexivity|].
  change (Datetime.toordinal (Datetime.replace_time d 0 0 0 0))
    with (Datetime.toordinal d).
  change (Datetime.weekday (Datetime.replace_time d 0 0 0 0))
    with (Datetime.weekday d).
  change (ymd (Datetime.replace_time d 0 0 0 0)) with (ymd d).
  rewrite Hy, Ho.
  repeat split; try lia; try tauto.
  unfold Datetime.weekday in *. rewrite Ho.
  rewrite <- Hmod, Zplus_mod_idemp_l.
  f_equal. ring.
Qed.

End ParserFacts.

(** * The claims *)

Lemma bind_lift_returns {A B : Type} (o : outcome A) (a : A)
    (f : A -> M B) (c : Clock) :
  o = Returns a -> bind (lift o) f c = f a c.
Proof. intros ->. reflexivity. Qed.

Ltac run_bind H := rewrite (bind_lift_returns _ _ _ _ H).

Section Totality.

Variable host : Host.
Variable self : CalendarQueryParser.

Lemma get_next_weekday_total (now : Datetime.datetime) (day : string) :
  0 < Datetime.toordinal now <= Datetime.MAXORDINAL - 7 ->
  exists d, _get_next_weekday now day = Returns d.
Proof.
  intros Hr.
  destruct (weekdays_get weekdays (Text.lower day)) as [t|] eqn:Et.
  - destruct (get_next_weekday_spec now day t Et Hr) as (d & Hd & _).
    now exists d.
  - unfold _get_next_weekday. rewrite Et. now exists now.
Qed.

Lemma weekday_or_default_total (query text : string)
    (hint : option string) (now : Datetime.datetime) (c : Clock) :
  0 < Datetime.toordinal now <= Datetime.MAXORDINAL - 7 ->
  exists pq,
    weekday_or_default self query text hint now c = (Returns pq, c)
    /\ original_query pq = query /\ timezone pq = hint.
Proof.
  intros Hr. unfold weekday_or_default.
  destruct (_extract_day_of_week self text) as [day|].
  - destruct (get_next_weekday_total now day Hr) as (d & Hd).
    run_bind Hd. eexists. repeat split.
  - eexists. repeat split.
Qed.

Lemma dispatch_total (cat : category) (query : string)
    (hint : option string) (z : Datetime.tzinfo)
    (now : Datetime.datetime) (c : Clock) :
  safe_date now ->
  (String.length query <= MAX_STR_DIGITS)%nat ->
  exists pq c',
    dispatch host self cat query hint z now c = (Returns pq, c')
    /\ original_query pq = query /\ timezone pq = hint.
Proof.
  unfold safe_date, Datetime.MAXORDINAL. intros Hs Hlen.
  pose proof (weekday_bounds now) as Hw.
  assert (Hwd : exists pq,
    weekday_or_default self query (Text.lower query) hint now c
    = (Returns pq, c) /\ original_query pq = query /\ timezone pq = hint).
  { apply weekday_or_default_total. unfold Datetime.MAXORDINAL. lia. }
  destruct cat; unfold dispatch.
  - eexists. eexists. repeat split.
  - destruct (add_days_spec now 1) as (d & Hd & _);
      [unfold Datetime.MAXORDINAL; lia|].
    run_bind Hd. eexists. eexists. repeat split.
  - destruct (add_days_spec now (-1)) as (d & Hd & _);
      [unfold Datetime.MAXORDINAL; lia|].
    run_bind Hd. eexists. eexists. repeat split.
  - destruct (add_days_spec now (- Datetime.weekday now))
      as (d & Hd & Ho & _); [unfold Datetime.MAXORDINAL; lia|].
    destruct (add_days_spec d 6) as (e & He & _);
      [unfold Datetime.MAXORDINAL; lia|].
    run_bind Hd. run_bind He. eexists. eexists. repeat split.
  - destruct (add_days_spec now (7 - Datetime.weekday now))
      as (d & Hd & Ho & _); [unfold Datetime.MAXORDINAL; lia|].
    destruct (add_days_spec d 6) as (e & He & _);
      [unfold Datetime.MAXORDINAL; lia|].
    run_bind Hd. run_bind He. eexists. eexists. repeat split.
  - rewrite <- lower_length in Hlen.
    destruct (extract_number_of_days_returns _ Hlen) as (d & Hd).
    destruct (extract_max_results_returns _ Hlen) as (m & Hm).
    run_bind Hd. run_bind Hm. eexists. eexists. repeat split.
  - unfold _extract_specific_date, bind at 1.
    destruct (extract_from_returns host date_patterns query z c)
      as (o & c' & Ho).
    rewrite Ho. destruct o as [d|].
    + eexists. eexists. repeat split.
    + destruct (weekday_or_default_total query (Text.lower query) hint
                  now c') as (pq & Hpq & H1 & H2);
        [unfold Datetime.MAXORDINAL; lia|].
      exists pq, c'. now repeat split.
  - destruct Hwd as (pq & Hpq & H1 & H2). exists pq, c. now repeat split.
Qed.

End Totality.

Section Precedence.

Variable host : Host.

Lemma today_patterns_head :
  exists pats,
    get (patterns (init host)) "today"
    = (WordB ++ Lit "today" ++ WordB)%re :: pats.
Proof. eexists. reflexivity. Qed.

(** A word of the text is found by the pattern [\bword\b]. *)
Lemma word_found (w text : string) (c0 : ascii) (w' : string) :
  w = String c0 w' ->
  Text.is_word c0 = true ->
  begins_word (last_char None w) = true ->
  contains_word w text ->
  truthy (search (WordB ++ Lit w ++ WordB)%re text true) = true.
Proof.
  intros Ew Hc0 Hlast (pre & post & -> & Hpre & Hpost).
  unfold search.
  destruct (search_from_found true (WordB ++ Lit w ++ WordB)%re pre None 0
              (w ++ post)
              (Match (String.length pre)
                 (String.length pre + String.length w) None))
    as (m & Hm); [|now rewrite Hm].
  unfold match_here. cbn [run Nat.add pos].
  assert (B1 : at_boundary
                 (Cursor (last_char None pre) (String.length pre) (w ++ post))
               = true).
  { unfold at_boundary, word_before, word_after. cbn [prev rest].
    fold (begins_word (last_char None pre)). rewrite Hpre, Ew.
    cbn [append]. now rewrite Hc0. }
  rewrite B1, lit_from_same.
  assert (B2 : at_boundary
                 (Cursor (last_char (last_char None pre) w)
                    (String.length pre + String.length w) post) = true).
  { unfold at_boundary, word_before, word_after. cbn [prev rest].
    fold (begins_word (last_char (last_char None pre) w)).
    fold (ends_word post). rewrite Hpost.
    replace (last_char (last_char None pre) w) with (last_char None w).
    - now rewrite Hlast.
    - rewrite Ew. reflexivity. }
  now rewrite B2.
Qed.

Lemma contains_today_matches (q : string) :
  contains_word "today" (Text.lower q) ->
  category_matches (init host) (Text.lower q) today = true.
Proof.
  intros H. unfold category_matches. cbn [category_key].
  destruct today_patterns_head as (pats & ->).
  cbn [_matches_patterns].
  now rewrite (word_found "today" (Text.lower q) "t"%char "oday").
Qed.

(** The category [classify] returns stands in the fixed order at or before
    every category that matches. *)
Lemma classify_first (self : CalendarQueryParser) (q : string)
    (c : category) (j : nat) :
  nth_error CATEGORY_ORDER j = Some c ->
  category_matches self (Text.lower q) c = true ->
  exists i,
    (i <= j)%nat
    /\ nth_error CATEGORY_ORDER i = Some (classify self q)
    /\ category_matches self (Text.lower q) (classify self q) = true.
Proof.
  intros Hj Hc. unfold classify, CATEGORY_ORDER, first_category.
  destruct (category_matches self (Text.lower q) today) eqn:E0;
    [exists 0%nat; repeat split; [lia | exact E0]|].
  destruct j as [|j]; [injection Hj as <-; congruence|].
  destruct (category_matches self (Text.lower q) tomorrow) eqn:E1;
    [exists 1%nat; repeat split; [lia | exact E1]|].
  destruct j as [|j]; [injection Hj as <-; congruence|].
  destruct (category_matches self (Text.lower q) yesterday) eqn:E2;
    [exists 2%nat; repeat split; [lia | exact E2]|].
  destruct j as [|j]; [injection Hj as <-; congruence|].
  destruct (category_matches self (Text.lower q) this_week) eqn:E3;
    [exists 3%nat; repeat split; [lia | exact E3]|].
  destruct j as [|j]; [injection Hj as <-; congruence|].
  destruct (category_matches self (Text.lower q) next_week) eqn:E4;
    [exists 4%nat; repeat split; [lia | exact E4]|].
  destruct j as [|j]; [injection Hj as <-; congruence|].
  destruct (category_matches self (Text.lower q) upcoming) eqn:E5;
    [exists 5%nat; repeat split; [lia | exact E5]|].
  destruct j as [|j]; [injection Hj as <-; congruence|].
  destruct (category_matches self (Text.lower q) specific_date_literal)
    eqn:E6; [exists 6%nat; repeat split; [lia | exact E6]|].
  destruct j as [|j]; [injection Hj as <-; congruence|].
  destruct j; discriminate.
Qed.

End Precedence.

(** C3.  Order of the categories.  [parse_query] dispatches on the
    category [classify] returns, which is the first one, in the order
    today, tomorrow, yesterday, this_week, next_week, upcoming,
    specific_date_literal, with a matching pattern: it stands at or before
    every matching category.  In particular a query that contains the word
    "today" gets the [today] result -- the current day at midnight -- and
    this also when a date literal stands in it, as in "today at noon on
    2025-08-12", where the patterns of specific_date match too. *)
Theorem category_order_precedence :
  (forall h self q hint c,
     parse_query h self q hint c
     = dispatch h self (classify self q) q hint (resolve_timezone h self hint)
         (now_of h self hint c) (after_now c))
  /\ (forall self q cat j,
        nth_error CATEGORY_ORDER j = Some cat ->
        category_matches self (Text.lower q) cat = true ->
        exists i,
          (i <= j)%nat
          /\ nth_error CATEGORY_ORDER i = Some (classify self q)
          /\ category_matches self (Text.lower q) (classify self q) = true)
  /\ (forall h q hint c,
        contains_word "today" (Text.lower q) ->
        classify (init h) q = today
        /\ parse_query h (init h) q hint c
           = (Returns
                (result
                   (specific_date
                      (Datetime.replace_time (now_of h (init h) hint c)
                         0 0 0 0))
                   hint q),
              after_now c))
  /\ (forall h,
        contains_word "today" (Text.lower "today at noon on 2025-08-12")
        /\ category_matches (init h)
             (Text.lower "today at noon on 2025-08-12")
             specific_date_literal = true).
Proof.
  split; [intros; apply parse_query_dispatch|].
  split; [intros self q cat j; apply classify_first|].
  split.
  - intros h q hint c H.
    assert (E : classify (init h) q = today).
    { unfold classify, CATEGORY_ORDER, first_category.
      now rewrite contains_today_matches. }
    split; [exact E|].
    rewrite parse_query_dispatch, E. reflexivity.
  - intros h. split.
    + exists "", " at noon on 2025-08-12". now repeat split.
    + vm_compute. reflexivity.
Qed.

Lemma category_order_precedence_witness :
  parse_query sample_host (init sample_host) "Today at noon on 2025-08-12"
    None (frozen (instant 2025 8 13 15 30 0 0))
  = (Returns
       (result (specific_date (date_at 2025 8 13 0 0 0 0 Pytz.utc)) None
          "Today at noon on 2025-08-12"),
     after_now (frozen (instant 2025 8 13 15 30 0 0))).
Proof.
  refine (proj2 (proj1 (proj2 (proj2 category_order_precedence))
                   sample_host "Today at noon on 2025-08-12" None
                   (frozen (instant 2025 8 13 15 30 0 0)) _)).
  exists "", " at noon on 2025-08-12". repeat split.
Defined.

(** Evaluates the searches of a concrete text. *)
Ltac eval_search :=
  repeat match goal with
         | |- context [search ?r ?t ?ic] =>
             let v := eval vm_compute in (search r t ic) in
             change (search r t ic) with v
         end.

Section Literals.

Variable host : Host.

Lemma bind_raises {A B : Type} (m : M A) (f : A -> M B) (c c' : Clock)
    (e : exn) :
  m c = (Raises e, c') -> bind m f c = (Raises e, c').
Proof. intros H. unfold bind. now rewrite H. Qed.

Lemma bind_returns {A B : Type} (m : M A) (f : A -> M B) (c c' : Clock)
    (a : A) :
  m c = (Returns a, c') -> bind m f c = f a c'.
Proof. intros H. unfold bind. now rewrite H. Qed.

Lemma try_except_raises {A : Type} (m h : M A) (handled : exn -> bool)
    (c c' : Clock) (e : exn) :
  m c = (Raises e, c') -> handled e = true ->
  try_except m handled h c = h c'.
Proof. intros H He. unfold try_except. now rewrite H, He. Qed.

Lemma try_except_returns {A : Type} (m h : M A) (handled : exn -> bool)
    (c c' : Clock) (a : A) :
  m c = (Returns a, c') -> try_except m handled h c = (Returns a, c').
Proof. intros H. unfold try_except. now rewrite H. Qed.

(** [dateutil] on a month and a day without year: the year is the one of
    the host's local date. *)
Lemma parse_yearless (s : string) (m d : Z) (c : Clock) :
  Dateutil.month_day_literal s = Some (m, d, None) ->
  Dateutil.parse host s c
  = (Dateutil.build
       (Datetime.year
          (Datetime.wall_clock (host_zone host) false (ticks c (reads c))))
       m d,
     after_now c).
Proof.
  intros H.
  unfold Dateutil.parse, Datetime.now_naive, read_clock, ret, lift, bind.
  cbv beta iota. now rewrite H.
Qed.

Lemma build_february_30 (y : Z) : Dateutil.build y 2 30 = Raises ValueError.
Proof.
  unfold Dateutil.build.
  assert (E : (30 <=? Datetime.days_in_month y 2) = false).
  { unfold Datetime.days_in_month. change (2 =? 2) with true.
    destruct (Datetime.is_leap y); reflexivity. }
  now rewrite E, !andb_false_r.
Qed.

Lemma february_30_unreadable (z : Datetime.tzinfo) (c : Clock) :
  _extract_specific_date host "on february 30" z c
  = (Returns None, after_now c).
Proof.
  unfold _extract_specific_date, date_patterns. cbn [extract_from].
  eval_search. cbv beta iota.
  change (group1 "on february 30" _) with "february 30".
  rewrite (try_except_raises _ _ _ c (after_now c) ValueError);
    [reflexivity | | reflexivity].
  apply bind_raises. unfold parse_literal. apply bind_raises.
  rewrite (parse_yearless "february 30" 2 30) by reflexivity.
  now rewrite build_february_30.
Qed.

End Literals.

(** C4.  The universal fallback.  A query that matches no category and
    names no weekday, and a query of the specific_date category whose
    literal cannot be read and that names no weekday, both get
    [upcoming_events] with [days_ahead = 7] and [max_results = 10];
    nothing is raised.  "asdkjhasdf random text" is of the first kind,
    "on february 30" of the second. *)
Theorem universal_fallback :
  (forall h q hint c,
     _extract_day_of_week (init h) (Text.lower q) = None ->
     classify (init h) q = none
     \/ (classify (init h) q = specific_date_literal
         /\ fst (_extract_specific_date h q
                   (resolve_timezone h (init h) hint) (after_now c))
            = Returns None) ->
     fst (parse_query h (init h) q hint c)
     = Returns (result (upcoming_events 7 10) hint q))
  /\ (forall h hint c,
        fst (parse_query h (init h) "asdkjhasdf random text" hint c)
        = Returns
            (result (upcoming_events 7 10) hint "asdkjhasdf random text"))
  /\ (forall h hint c,
        classify (init h) "on february 30" = specific_date_literal
        /\ fst (parse_query h (init h) "on february 30" hint c)
           = Returns (result (upcoming_events 7 10) hint "on february 30")).
Proof.
  assert (G : forall h q hint c,
     _extract_day_of_week (init h) (Text.lower q) = None ->
     classify (init h) q = none
     \/ (classify (init h) q = specific_date_literal
         /\ fst (_extract_specific_date h q
                   (resolve_timezone h (init h) hint) (after_now c))
            = Returns None) ->
     fst (parse_query h (init h) q hint c)
     = Returns (result (upcoming_events 7 10) hint q)).
  { intros h q hint c Hday [Hc | [Hc Hx]];
      rewrite parse_query_dispatch, Hc; unfold dispatch.
    - unfold weekday_or_default. now rewrite Hday.
    - unfold bind at 1.
      destruct (_extract_specific_date h q _ (after_now c)) as [o c'].
      cbn [fst] in Hx. subst o.
      unfold weekday_or_default. now rewrite Hday. }
  split; [exact G|]. split.
  - intros h hint c. apply G; [|left]; vm_compute; reflexivity.
  - intros h hint c.
    assert (Hc : classify (init h) "on february 30" = specific_date_literal)
      by (vm_compute; reflexivity).
    split; [exact Hc|].
    apply G; [vm_compute; reflexivity|]. right. split; [exact Hc|].
    now rewrite february_30_unreadable.
Qed.

Lemma universal_fallback_witness :
  fst (parse_query sample_host (init sample_host) "on february 30"
         (Some "UTC") (frozen (instant 2025 8 13 15 30 0 0)))
  = Returns (result (upcoming_events 7 10) (Some "UTC") "on february 30").
Proof.
  apply (proj1 universal_fallback sample_host "on february 30" (Some "UTC")
           (frozen (instant 2025 8 13 15 30 0 0))).
  - vm_compute. reflexivity.
  - right. split; vm_compute; reflexivity.
Defined.

Section Weeks.

Variable host : Host.
Variable self : CalendarQueryParser.

Lemma weekday_of_ordinal (d : Datetime.datetime) (o : Z) :
  Datetime.toordinal d = o -> Datetime.weekday d = (o + 6) mod 7.
Proof. intros <-. reflexivity. Qed.

(** The range a week query produces, [w] weeks after the Monday on or
    before [now]; [k] is the number of days from [now] to its first day. *)
Lemma week_range (w k : Z) (now : Datetime.datetime) :
  0 <= w <= 1 ->
  safe_date now ->
  k = 7 * w - Datetime.weekday now ->
  exists s e,
    Datetime.add_days now k = Returns s
    /\ Datetime.add_days s 6 = Returns e
    /\ Datetime.toordinal s = Datetime.toordinal now + k
    /\ ymd s = Datetime.ord2ymd (Datetime.toordinal now + k)
    /\ Datetime.weekday s = 0
    /\ Datetime.toordinal e = Datetime.toordinal now + k + 6
    /\ ymd e = Datetime.ord2ymd (Datetime.toordinal now + k + 6)
    /\ Datetime.weekday e = 6.
Proof.
  intros Hk Hs Ek. unfold safe_date, Datetime.MAXORDINAL in Hs.
  pose proof (weekday_bounds now) as Hw.
  destruct (add_days_spec now k) as (s & Hd & Ho & Hy & _);
    [unfold Datetime.MAXORDINAL; lia|].
  destruct (add_days_spec s 6) as (e & He & Ho' & Hy' & _);
    [unfold Datetime.MAXORDINAL; lia|].
  rewrite Ho in *.
  assert (Hm : (Datetime.toordinal now + k + 6) mod 7 = 0).
  { rewrite Ek. unfold Datetime.weekday.
    pose proof (Z_div_mod_eq_full (Datetime.toordinal now + 6) 7) as E.
    replace (Datetime.toordinal now
             + (7 * w - (Datetime.toordinal now + 6) mod 7) + 6)
      with (((Datetime.toordinal now + 6) / 7 + w) * 7) by lia.
    apply Z_mod_mult. }
  exists s, e. repeat split; try assumption.
  - now rewrite (weekday_of_ordinal s _ Ho).
  - rewrite (weekday_of_ordinal e _ Ho').
    replace (Datetime.toordinal now + k + 6 + 6)
      with (6 + (Datetime.toordinal now + k + 6)) by ring.
    rewrite <- Zplus_mod_idemp_r, Hm. reflexivity.
Qed.

Lemma week_dispatch (now s e : Datetime.datetime) (k : Z)
    (F : Datetime.datetime -> Datetime.datetime -> ParsedQuery) (c : Clock) :
  Datetime.add_days now k = Returns s ->
  Datetime.add_days s 6 = Returns e ->
  (x <- lift (Datetime.add_days now k) ;;
   y <- lift (Datetime.add_days x 6) ;; ret (F x y)) c
  = (Returns (F s e), c).
Proof.
  intros H1 H2. unfold bind, lift, ret. now rewrite H1, H2.
Qed.

End Weeks.

(** C5.  Week boundaries, weeks running from Monday to Sunday.  A
    this_week query gives the range from the Monday on or before the
    current day, at 00:00:00, to the Sunday six days later, at
    23:59:59.999999; a next_week query gives the Monday after the current
    day and the Sunday six days after that Monday.  When the current day is
    Wednesday 2025-08-13, "this week" is 2025-08-11 to 2025-08-17 and
    "next week" is 2025-08-18 to 2025-08-24. *)
Theorem week_boundaries :
  (forall h q hint c,
     safe_date (now_of h (init h) hint c) ->
     classify (init h) q = this_week ->
     exists s e,
       parse_query h (init h) q hint c
       = (Returns (result (date_range s e) hint q), after_now c)
       /\ Datetime.weekday s = 0 /\ midnight s
       /\ Datetime.toordinal s <= Datetime.toordinal (now_of h (init h) hint c)
          < Datetime.toordinal s + 7
       /\ Datetime.toordinal e = Datetime.toordinal s + 6
       /\ Datetime.weekday e = 6 /\ last_instant e
       /\ ymd s = Datetime.ord2ymd (Datetime.toordinal s)
       /\ ymd e = Datetime.ord2ymd (Datetime.toordinal e))
  /\ (forall h q hint c,
        safe_date (now_of h (init h) hint c) ->
        classify (init h) q = next_week ->
        exists s e,
          parse_query h (init h) q hint c
          = (Returns (result (date_range s e) hint q), after_now c)
          /\ Datetime.weekday s = 0 /\ midnight s
          /\ Datetime.toordinal (now_of h (init h) hint c)
             < Datetime.toordinal s
             <= Datetime.toordinal (now_of h (init h) hint c) + 7
          /\ Datetime.toordinal e = Datetime.toordinal s + 6
          /\ Datetime.weekday e = 6 /\ last_instant e
          /\ ymd s = Datetime.ord2ymd (Datetime.toordinal s)
          /\ ymd e = Datetime.ord2ymd (Datetime.toordinal e))
  /\ (forall h hint c,
        ymd (now_of h (init h) hint c) = (2025, 8, 13) ->
        Datetime.weekday (now_of h (init h) hint c) = 2
        /\ (exists s e,
              parse_query h (init h) "this week" hint c
              = (Returns (result (date_range s e) hint "this week"),
                 after_now c)
              /\ ymd s = (2025, 8, 11) /\ midnight s
              /\ ymd e = (2025, 8, 17) /\ last_instant e)
        /\ (exists s e,
              parse_query h (init h) "next week" hint c
              = (Returns (result (date_range s e) hint "next week"),
                 after_now c)
              /\ ymd s = (2025, 8, 18) /\ midnight s
              /\ ymd e = (2025, 8, 24) /\ last_instant e)).
Proof.
  assert (G : forall w h q hint c,
    0 <= w <= 1 ->
    safe_date (now_of h (init h) hint c) ->
    classify (init h) q = (if w =? 0 then this_week else next_week) ->
    exists s e,
      parse_query h (init h) q hint c
      = (Returns (result (date_range s e) hint q), after_now c)
      /\ Datetime.weekday s = 0 /\ midnight s
      /\ Datetime.toordinal s
         = Datetime.toordinal (now_of h (init h) hint c)
           + (7 * w - Datetime.weekday (now_of h (init h) hint c))
      /\ ymd s = Datetime.ord2ymd (Datetime.toordinal s)
      /\ Datetime.toordinal e = Datetime.toordinal s + 6
      /\ ymd e = Datetime.ord2ymd (Datetime.toordinal s + 6)
      /\ Datetime.weekday e = 6 /\ last_instant e).
  { intros w h q hint c Hw Hs Hc.
    rewrite parse_query_dispatch, Hc.
    set (now := now_of h (init h) hint c) in *. clearbody now.
    set (F := fun x y =>
                result
                  (date_range (Datetime.replace_time x 0 0 0 0)
                     (Datetime.replace_time y 23 59 59 999999))
                  hint q).
    assert (D : forall k, k = 7 * w - Datetime.weekday now ->
      exists s e,
        (x <- lift (Datetime.add_days now k) ;;
         y <- lift (Datetime.add_days x 6) ;; ret (F x y)) (after_now c)
        = (Returns (F s e), after_now c)
        /\ Datetime.weekday s = 0
        /\ Datetime.toordinal s
           = Datetime.toordinal now + (7 * w - Datetime.weekday now)
        /\ ymd s = Datetime.ord2ymd (Datetime.toordinal s)
        /\ Datetime.toordinal e = Datetime.toordinal s + 6
        /\ ymd e = Datetime.ord2ymd (Datetime.toordinal s + 6)
        /\ Datetime.weekday e = 6).
    { intros k Ek.
      destruct (week_range w k now Hw Hs Ek)
        as (s & e & Hd & He & Ho & Hy & Hwd & Ho' & Hy' & Hwd').
      exists s, e.
      split; [exact (week_dispatch now s e k F (after_now c) Hd He)|].
      rewrite Ho, Ho', <- Ek. now repeat split. }
    assert (Ew : w = 0 \/ w = 1) by lia.
    destruct Ew as [-> | ->]; cbn [Z.eqb]; unfold dispatch.
    - destruct (D (- Datetime.weekday now)) as (s & e & Hp & H); [lia|].
      exists (Datetime.replace_time s 0 0 0 0),
             (Datetime.replace_time e 23 59 59 999999).
      split; [exact Hp|].
      split; [exact (proj1 H)|]. split; [now repeat split|].
      split; [exact (proj1 (proj2 H))|].
      split; [exact (proj1 (proj2 (proj2 H)))|].
      split; [exact (proj1 (proj2 (proj2 (proj2 H))))|].
      split; [exact (proj1 (proj2 (proj2 (proj2 (proj2 H)))))|].
      split; [exact (proj2 (proj2 (proj2 (proj2 (proj2 H)))))|].
      now repeat split.
    - destruct (D (7 - Datetime.weekday now)) as (s & e & Hp & H); [lia|].
      exists (Datetime.replace_time s 0 0 0 0),
             (Datetime.replace_time e 23 59 59 999999).
      split; [exact Hp|].
      split; [exact (proj1 H)|]. split; [now repeat split|].
      split; [exact (proj1 (proj2 H))|].
      split; [exact (proj1 (proj2 (proj2 H)))|].
      split; [exact (proj1 (proj2 (proj2 (proj2 H))))|].
      split; [exact (proj1 (proj2 (proj2 (proj2 (proj2 H)))))|].
      split; [exact (proj2 (proj2 (proj2 (proj2 (proj2 H)))))|].
      now repeat split. }
  split; [|split].
  - intros h q hint c.
    pose proof (G 0 h q hint c) as G0.
    set (now := now_of h (init h) hint c) in *. clearbody now.
    intros Hs Hc.
    destruct G0 as (s & e & Hp & H1 & H2 & H3 & H4 & H5 & H6 & H7 & H8);
      [lia | exact Hs | exact Hc |].
    pose proof (weekday_bounds now).
    exists s, e.
    split; [exact Hp|]. split; [exact H1|]. split; [exact H2|].
    split; [lia|]. split; [exact H5|]. split; [exact H7|].
    split; [exact H8|]. split; [exact H4|]. now rewrite H5.
  - intros h q hint c.
    pose proof (G 1 h q hint c) as G0.
    set (now := now_of h (init h) hint c) in *. clearbody now.
    intros Hs Hc.
    destruct G0 as (s & e & Hp & H1 & H2 & H3 & H4 & H5 & H6 & H7 & H8);
      [lia | exact Hs | exact Hc |].
    pose proof (weekday_bounds now).
    exists s, e.
    split; [exact Hp|]. split; [exact H1|]. split; [exact H2|].
    split; [lia|]. split; [exact H5|]. split; [exact H7|].
    split; [exact H8|]. split; [exact H4|]. now rewrite H5.
  - intros h hint c.
    pose proof (G 0 h "this week" hint c) as G0.
    pose proof (G 1 h "next week" hint c) as G1.
    set (now := now_of h (init h) hint c) in *. clearbody now.
    intros Hy.
    assert (Ho : Datetime.toordinal now = 739476).
    { unfold ymd in Hy. injection Hy as Ey Em Ed.
      unfold Datetime.toordinal. rewrite Ey, Em, Ed. reflexivity. }
    assert (Hw : Datetime.weekday now = 2).
    { unfold Datetime.weekday. rewrite Ho. reflexivity. }
    assert (Hs : safe_date now).
    { unfold safe_date. rewrite Ho. unfold Datetime.MAXORDINAL. lia. }
    split; [exact Hw|]. split.
    + destruct G0 as (s & e & Hp & _ & H2 & H3 & H4 & _ & H6 & H8);
        [lia | exact Hs | vm_compute; reflexivity |].
      exists s, e. rewrite Ho, Hw in H3. rewrite H3 in H4, H6.
      vm_compute in H4, H6.
      split; [exact Hp|]. split; [exact H4|]. split; [exact H2|].
      split; [exact H6 | exact (proj2 H8)].
    + destruct G1 as (s & e & Hp & _ & H2 & H3 & H4 & _ & H6 & H8);
        [lia | exact Hs | vm_compute; reflexivity |].
      exists s, e. rewrite Ho, Hw in H3. rewrite H3 in H4, H6.
      vm_compute in H4, H6.
      split; [exact Hp|]. split; [exact H4|]. split; [exact H2|].
      split; [exact H6 | exact (proj2 H8)].
Qed.

(** C6.  Next occurrence of a weekday.  For a weekday name of the table,
    [_get_next_weekday] moves [delta = target - now.weekday()] days ahead,
    and [delta + 7] days when [delta <= 0]: the date it returns, at
    00:00:00, falls on the target weekday and lies one to seven days after
    the current day, never on it.  Asked for "monday" on Monday 2025-08-11,
    the parser answers 2025-08-18. *)
Theorem next_weekday_always_future :
  (forall now day t,
     In (day, t) weekdays ->
     0 < Datetime.toordinal now <= Datetime.MAXORDINAL - 7 ->
     exists d,
       _get_next_weekday now day = Returns d
       /\ Datetime.toordinal d
          = Datetime.toordinal now
            + (if t - Datetime.weekday now <=? 0
               then t - Datetime.weekday now + 7
               else t - Datetime.weekday now)
       /\ Datetime.toordinal now < Datetime.toordinal d
          <= Datetime.toordinal now + 7
       /\ Datetime.weekday d = t
       /\ midnight d
       /\ ymd d = Datetime.ord2ymd (Datetime.toordinal d))
  /\ (forall h hint c,
        ymd (now_of h (init h) hint c) = (2025, 8, 11) ->
        Datetime.weekday (now_of h (init h) hint c) = 0
        /\ exists d,
             parse_query h (init h) "monday" hint c
             = (Returns (result (specific_date d) hint "monday"),
                after_now c)
             /\ ymd d = (2025, 8, 18) /\ midnight d).
Proof.
  split.
  - intros now day t Hin Hr.
    assert (Ht : weekdays_get weekdays (Text.lower day) = Some t).
    { unfold weekdays in Hin. cbn [In] in Hin.
      repeat (destruct Hin as [[= <- <-] | Hin]; [reflexivity|]).
      destruct Hin. }
    destruct (get_next_weekday_spec now day t Ht Hr)
      as (d & Hd & Ho & Hlt & Hw & Hm & _ & Hy).
    exists d. split; [exact Hd|]. split; [exact Ho|].
    split; [exact Hlt|]. split; [exact Hw|]. split; [exact Hm | exact Hy].
  - intros h hint c.
    rewrite parse_query_dispatch.
    set (now := now_of h (init h) hint c). clearbody now. intros Hy.
    assert (Ho : Datetime.toordinal now = 739474).
    { unfold ymd in Hy. injection Hy as Ey Em Ed.
      unfold Datetime.toordinal. rewrite Ey, Em, Ed. reflexivity. }
    assert (Hw : Datetime.weekday now = 0).
    { unfold Datetime.weekday. rewrite Ho. reflexivity. }
    split; [exact Hw|].
    destruct (get_next_weekday_spec now "monday" 0)
      as (d & Hd & Hod & _ & _ & Hm & _ & Hyd);
      [reflexivity | rewrite Ho; unfold Datetime.MAXORDINAL; lia |].
    exists d. split; [|split; [|exact Hm]].
    + change (classify (init h) "monday") with none.
      unfold dispatch, weekday_or_default.
      change (_extract_day_of_week (init h) (Text.lower "monday"))
        with (Some "monday").
      cbv beta iota. now rewrite (bind_lift_returns _ _ _ _ Hd).
    + rewrite Hod, Ho, Hw in Hyd. exact Hyd.
Qed.

Lemma next_weekday_always_future_witness :
  exists d,
    _get_next_weekday (date_at 2025 8 13 15 30 0 0 Pytz.utc) "sunday"
    = Returns d
    /\ Datetime.toordinal d
       = Datetime.toordinal (date_at 2025 8 13 15 30 0 0 Pytz.utc)
         + (if 6 - Datetime.weekday (date_at 2025 8 13 15 30 0 0 Pytz.utc)
               <=? 0
            then 6 - Datetime.weekday (date_at 2025 8 13 15 30 0 0 Pytz.utc)
                 + 7
            else 6 - Datetime.weekday (date_at 2025 8 13 15 30 0 0 Pytz.utc))
    /\ Datetime.toordinal (date_at 2025 8 13 15 30 0 0 Pytz.utc)
       < Datetime.toordinal d
       <= Datetime.toordinal (date_at 2025 8 13 15 30 0 0 Pytz.utc) + 7
    /\ Datetime.weekday d = 6
    /\ midnight d
    /\ ymd d = Datetime.ord2ymd (Datetime.toordinal d).
Proof.
  apply (proj1 next_weekday_always_future
           (date_at 2025 8 13 15 30 0 0 Pytz.utc) "sunday" 6).
  - unfold weekdays. cbn [In]. tauto.
  - vm_compute. split; [reflexivity | discriminate].
Defined.

Lemma week_boundaries_witness :
  exists s e,
    parse_query sample_host (init sample_host)
      "Show me this week's appointments" None
      (frozen (instant 2025 8 13 15 30 0 0))
    = (Returns
         (result (date_range s e) None "Show me this week's appointments"),
       after_now (frozen (instant 2025 8 13 15 30 0 0)))
    /\ Datetime.weekday s = 0 /\ midnight s
    /\ Datetime.toordinal s
       <= Datetime.toordinal
            (now_of sample_host (init sample_host) None
               (frozen (instant 2025 8 13 15 30 0 0)))
       < Datetime.toordinal s + 7
    /\ Datetime.toordinal e = Datetime.toordinal s + 6
    /\ Datetime.weekday e = 6 /\ last_instant e
    /\ ymd s = Datetime.ord2ymd (Datetime.toordinal s)
    /\ ymd e = Datetime.ord2ymd (Datetime.toordinal e).
Proof.
  apply (proj1 week_boundaries sample_host
           "Show me this week's appointments" None
           (frozen (instant 2025 8 13 15 30 0 0))).
  - vm_compute. split; [reflexivity | discriminate].
  - vm_compute. reflexivity.
Defined.

Section WeekdayOrder.


End WeekdayOrder.



(** ** Matching step by step *)

Section ReRun.

Context {R : Type}.
Variable ic : bool.

Lemma run_seq (a b : regex) (cu : cursor) (g : caps)
    (k : cursor -> caps -> option R) :
  run ic (Seq a b) cu g k = run ic a cu g (fun cu' g' => run ic b cu' g' k).
Proof. reflexivity. Qed.

Lemma run_wordb (cu : cursor) (g : caps) (k : cursor -> caps -> option R)
    (res : R) :
  at_boundary cu = true -> k cu g = Some res ->
  run ic WordB cu g k = Some res.
Proof. intros Hb Hk. cbn [run]. now rewrite Hb. Qed.

Lemma run_lit (l post : string) (p : option ascii) (i : nat) (g : caps)
    (k : cursor -> caps -> option R) (res : R) :
  k (Cursor (last_char p l) (i + String.length l) post) g = Some res ->
  run ic (Lit l) (Cursor p i (l ++ post)) g k = Some res.
Proof. intros Hk. cbn [run]. now rewrite lit_from_same. Qed.

Lemma run_rep (c : cset) (lo : nat) (ds tail : string) (p : option ascii)
    (i : nat) (g : caps) (k : cursor -> caps -> option R) (res : R) :
  all_in ic c ds = true ->
  (lo <= String.length ds)%nat ->
  match tail with
  | String x _ => in_cset ic c x = false
  | EmptyString => True
  end ->
  k (Cursor (last_char p ds) (i + String.length ds) tail) g = Some res ->
  run ic (Rep c lo None) (Cursor p i (ds ++ tail)) g k = Some res.
Proof.
  intros Hall Hlo Ht Hk. cbn [run prev pos rest].
  now apply rep_from_run.
Qed.

Lemma run_group (a : regex) (cu : cursor) (g : caps)
    (k : cursor -> caps -> option R) (res : R) :
  run ic a cu g (fun cu' _ => k cu' (Some (pos cu, pos cu'))) = Some res ->
  run ic (Group a) cu g k = Some res.
Proof. intros H. exact H. Qed.

Lemma run_alt_left (a b : regex) (cu : cursor) (g : caps)
    (k : cursor -> caps -> option R) (res : R) :
  run ic a cu g k = Some res -> run ic (Alt a b) cu g k = Some res.
Proof. intros H. cbn [run]. now rewrite H. Qed.

Lemma run_opt_take (a : regex) (cu : cursor) (g : caps)
    (k : cursor -> caps -> option R) (res : R) :
  run ic a cu g k = Some res -> run ic (Opt a) cu g k = Some res.
Proof. intros H. cbn [run]. now rewrite H. Qed.

End ReRun.

Section ReNone.

Lemma lacks_append (ic : bool) (a : ascii) (x y : string) :
  lacks ic a (x ++ y) = lacks ic a x && lacks ic a y.
Proof.
  induction x as [|c x IH]; cbn; [reflexivity|].
  now rewrite IH, andb_assoc.
Qed.

Lemma lacks_digits (a : ascii) (ds : string) :
  Text.is_digit a = false -> Text.all_digits ds = true ->
  lacks false a ds = true.
Proof.
  intros Ha. induction ds as [|x ds IH]; cbn; [reflexivity|].
  intros H. apply andb_true_iff in H as [Hx Hds].
  rewrite (IH Hds), andb_true_r.
  destruct (Ascii.eqb_spec a x) as [-> | _]; [congruence | reflexivity].
Qed.

(** A pattern [\b a...] finds nothing in a text without the character
    [a]. *)
Lemma search_from_lacks (ic : bool) (a : ascii) (l : string) (r : regex)
    (s : string) :
  lacks ic a s = true ->
  forall p i,
  search_from ic (Seq WordB (Seq (Lit (String a l)) r)) p i s = None.
Proof.
  induction s as [|x s IH]; intros H p i; rewrite search_from_eq;
    unfold match_here; cbn [run lit_from rest].
  - now destruct (at_boundary _).
  - cbn [lacks] in H. apply andb_true_iff in H as [Hx Hs].
    apply negb_true_iff in Hx. rewrite Hx.
    destruct (at_boundary _); now apply IH.
Qed.

Lemma digit_cases (c : ascii) :
  Text.is_digit c = true ->
  In c ["0"; "1"; "2"; "3"; "4"; "5"; "6"; "7"; "8"; "9"]%char.
Proof.
  destruct c as [[] [] [] [] [] [] [] []]; vm_compute; intros H;
    try discriminate H; tauto.
Qed.

Lemma digit_not_space (c : ascii) :
  Text.is_digit c = true -> Text.is_space c = false.
Proof.
  intros H. apply digit_cases in H. cbn [In] in H.
  repeat (destruct H as [<- | H]; [reflexivity|]). destruct H.
Qed.

Lemma digits_head (ds tail : string) (c : cset) :
  ds <> EmptyString -> Text.all_digits ds = true ->
  (forall x, Text.is_digit x = true -> in_cset false c x = false) ->
  match ds ++ tail with
  | String x _ => in_cset false c x = false
  | EmptyString => True
  end.
Proof.
  intros Hne Hall Hc. destruct ds as [|d ds]; [congruence|].
  cbn in *. apply andb_true_iff in Hall as [Hd _]. now apply Hc.
Qed.

End ReNone.

Section Quantities.

Lemma search_from_cons_none (ic : bool) (r : regex) (p : option ascii)
    (i : nat) (x : ascii) (s : string) :
  match_here ic r (Cursor p i (String x s)) = None ->
  search_from ic r p i (String x s) = search_from ic r (Some x) (S i) s.
Proof. intros H. rewrite search_from_eq. now rewrite H. Qed.

Variable ds : string.
Hypothesis ds_nonempty : ds <> EmptyString.
Hypothesis ds_digits : Text.all_digits ds = true.

Lemma ds_length : (1 <= String.length ds)%nat.
Proof. destruct ds; [congruence | cbn; lia]. Qed.

(** "next N days": the pattern [\bnext\s+(\d+)\s+days?\b] captures N. *)
Lemma next_n_days_found :
  exists m,
    search RE_NEXT_N_DAYS ("next " ++ ds ++ " days") false = Some m
    /\ group1 ("next " ++ ds ++ " days") m = ds.
Proof.
  assert (H : exists m,
    match_here false RE_NEXT_N_DAYS (Cursor None 0 ("next " ++ ds ++ " days"))
    = Some m
    /\ m_group1 m = Some (5%nat, (5 + String.length ds)%nat)).
  { eexists. split.
    - unfold match_here, RE_NEXT_N_DAYS.
      rewrite run_seq. apply run_wordb; [reflexivity|].
      rewrite run_seq.
      apply (run_lit false "next" (" " ++ ds ++ " days") None 0).
      rewrite run_seq.
      apply (run_rep false Space 1 " " (ds ++ " days"));
        [reflexivity | cbn; lia | | ].
      { apply digits_head; [assumption | assumption |].
        intros x Hx. now apply digit_not_space. }
      rewrite run_seq. apply run_group.
      apply (run_rep false Digit 1 ds " days");
        [now rewrite all_in_digit | apply ds_length | reflexivity |].
      cbn. reflexivity.
    - cbn. reflexivity. }
  destruct H as (m & Hm & Hg). exists m. split.
  - unfold search. rewrite search_from_eq. now rewrite Hm.
  - unfold group1. rewrite Hg.
    apply (slice_middle "next " ds " days").
Qed.

(** "show me N events": the pattern of [_extract_max_results] captures
    N. *)
Lemma show_me_n_events_found :
  exists m,
    search RE_MAX_RESULTS ("show me " ++ ds ++ " events") false = Some m
    /\ group1 ("show me " ++ ds ++ " events") m = ds.
Proof.
  assert (H : exists m,
    match_here false RE_MAX_RESULTS
      (Cursor None 0 ("show me " ++ ds ++ " events")) = Some m
    /\ m_group1 m = Some (8%nat, (8 + String.length ds)%nat)).
  { eexists. split.
    - unfold match_here, RE_MAX_RESULTS.
      rewrite run_seq. apply run_wordb; [reflexivity|].
      rewrite run_seq. cbn [any_of]. apply run_alt_left.
      apply (run_lit false "show" (" me " ++ ds ++ " events") None 0).
      rewrite run_seq.
      apply (run_rep false Space 1 " " ("me " ++ ds ++ " events"));
        [reflexivity | cbn; lia | reflexivity |].
      rewrite run_seq. apply run_opt_take. rewrite run_seq.
      apply (run_lit false "me" (" " ++ ds ++ " events")).
      apply (run_rep false Space 1 " " (ds ++ " events"));
        [reflexivity | cbn; lia | | ].
      { apply digits_head; [assumption | assumption |].
        intros x Hx. now apply digit_not_space. }
      rewrite run_seq. apply run_group.
      apply (run_rep false Digit 1 ds " events");
        [now rewrite all_in_digit | apply ds_length | reflexivity |].
      cbn. reflexivity.
    - cbn. reflexivity. }
  destruct H as (m & Hm & Hg). exists m. split.
  - unfold search. rewrite search_from_eq. now rewrite Hm.
  - unfold group1. rewrite Hg.
    apply (slice_middle "show me " ds " events").
Qed.

Lemma lacks_ds (a : ascii) :
  Text.is_digit a = false -> lacks false a ds = true.
Proof. intros Ha. now apply lacks_digits. Qed.

(** Neither week phrase stands in "next N days". *)
Lemma next_n_days_no_week :
  search RE_NEXT_WEEK ("next " ++ ds ++ " days") false = None
  /\ search RE_THIS_WEEK ("next " ++ ds ++ " days") false = None.
Proof.
  split; unfold search; cbn [append].
  - rewrite search_from_cons_none.
    + apply search_from_lacks.
      change ("ext " ++ ds ++ " days") with ("ext " ++ (ds ++ " days")).
      cbn [lacks]. rewrite lacks_append, lacks_ds by reflexivity.
      reflexivity.
    + destruct ds as [|d0 ds']; [congruence|].
      cbn in ds_digits. apply andb_true_iff in ds_digits as [Hd _].
      apply digit_cases in Hd. cbn [In] in Hd.
      repeat (destruct Hd as [<- | Hd]; [vm_compute; reflexivity|]).
      destruct Hd.
  - do 4 (rewrite search_from_cons_none by (vm_compute; reflexivity)).
    apply search_from_lacks.
    cbn [lacks]. rewrite lacks_append, lacks_ds by reflexivity.
    reflexivity.
Qed.

End Quantities.

(** C7.  Quantity extraction.  [_extract_number_of_days] answers 7 when
    "next week" or "this week" stands in the text, else the N of the first
    "next N days", else the N of the first "N days", else 7;
    [_extract_max_results] answers min(N, 50) for the N of the first
    "(show|first|next) [me] N (events|appointments|meetings)", else 10; a
    run of more than 4300 digits makes [int] raise [ValueError].  Each
    function falls back to its default on its own.  [parse_query] calls
    the two functions for a query of the upcoming category, and only
    there: its result then carries the two numbers.  The phrases "show me
    75 events" and "next 3 days" contain no word of the upcoming category:
    as queries they reach the final default of [parse_query], 7 days and
    10 results, where the two functions alone would give 50 results and
    3 days. *)
Theorem quantity_extraction :
  (forall text,
     truthy (search RE_NEXT_WEEK text false)
     || truthy (search RE_THIS_WEEK text false) = true ->
     _extract_number_of_days text = Returns 7)
  /\ (forall text m,
        search RE_NEXT_WEEK text false = None ->
        search RE_THIS_WEEK text false = None ->
        search RE_NEXT_N_DAYS text false = Some m ->
        _extract_number_of_days text = int (group1 text m))
  /\ (forall text m,
        search RE_NEXT_WEEK text false = None ->
        search RE_THIS_WEEK text false = None ->
        search RE_NEXT_N_DAYS text false = None ->
        search RE_N_DAYS text false = Some m ->
        _extract_number_of_days text = int (group1 text m))
  /\ (forall text,
        search RE_NEXT_WEEK text false = None ->
        search RE_THIS_WEEK text false = None ->
        search RE_NEXT_N_DAYS text false = None ->
        search RE_N_DAYS text false = None ->
        _extract_number_of_days text = Returns 7)
  /\ (forall text m n,
        search RE_MAX_RESULTS text false = Some m ->
        int (group1 text m) = Returns n ->
        _extract_max_results text = Returns (Z.min n 50))
  /\ (forall text,
        search RE_MAX_RESULTS text false = None ->
        _extract_max_results text = Returns 10)
  /\ (forall ds,
        ds <> EmptyString -> Text.all_digits ds = true ->
        (String.length ds <= MAX_STR_DIGITS)%nat ->
        _extract_number_of_days ("next " ++ ds ++ " days")
        = Returns (Text.decimal ds)
        /\ _extract_max_results ("show me " ++ ds ++ " events")
           = Returns (Z.min (Text.decimal ds) 50))
  /\ (forall ds,
        Text.all_digits ds = true ->
        (MAX_STR_DIGITS < String.length ds)%nat ->
        _extract_number_of_days ("next " ++ ds ++ " days")
        = Raises ValueError
        /\ _extract_max_results ("show me " ++ ds ++ " events")
           = Raises ValueError)
  /\ (forall h q hint c,
        classify (init h) q = upcoming ->
        parse_query h (init h) q hint c
        = (match _extract_number_of_days (Text.lower q) with
           | Returns days_ahead =>
               match _extract_max_results (Text.lower q) with
               | Returns max_results =>
                   Returns
                     (result (upcoming_events days_ahead max_results)
                        hint q)
               | Raises e => Raises e
               end
           | Raises e => Raises e
           end,
           after_now c))
  /\ (forall h hint c,
        classify (init h) "show me 75 events" = none
        /\ fst (parse_query h (init h) "show me 75 events" hint c)
           = Returns (result (upcoming_events 7 10) hint "show me 75 events")
        /\ classify (init h) "next 3 days" = none
        /\ fst (parse_query h (init h) "next 3 days" hint c)
           = Returns (result (upcoming_events 7 10) hint "next 3 days")
        /\ fst (parse_query h (init h) "upcoming: show me 75 events" hint c)
           = Returns
               (result (upcoming_events 7 50) hint
                  "upcoming: show me 75 events")
        /\ fst (parse_query h (init h) "upcoming events, next 3 days" hint c)
           = Returns
               (result (upcoming_events 3 10) hint
                  "upcoming events, next 3 days"))
  /\ _extract_max_results "show me 75 events" = Returns 50
  /\ _extract_number_of_days "next 3 days" = Returns 3
  /\ _extract_number_of_days "show me 75 events" = Returns 7
  /\ _extract_max_results "next 3 days" = Returns 10
  /\ (_extract_number_of_days "next 3 days, first 7 meetings",
      _extract_max_results "next 3 days, first 7 meetings")
     = (Returns 3, Returns 7).
Proof.
  split; [|split; [|split; [|split; [|split; [|split; [|split; [|split;
    [|split; [|split]]]]]]]]].
  - intros text H. unfold _extract_number_of_days. now rewrite H.
  - intros text m H1 H2 H3. unfold _extract_number_of_days.
    now rewrite H1, H2, H3.
  - intros text m H1 H2 H3 H4. unfold _extract_number_of_days.
    now rewrite H1, H2, H3, H4.
  - intros text H1 H2 H3 H4. unfold _extract_number_of_days.
    now rewrite H1, H2, H3, H4.
  - intros text m n H Hn. unfold _extract_max_results. now rewrite H, Hn.
  - intros text H. unfold _extract_max_results. now rewrite H.
  - intros ds H H0 Hlen. split.
    + destruct (next_n_days_no_week ds H H0) as [H1 H2].
      destruct (next_n_days_found ds H H0) as (m & Hm & Hg).
      unfold _extract_number_of_days.
      now rewrite H1, H2, Hm, Hg, int_returns.
    + destruct (show_me_n_events_found ds H H0) as (m & Hm & Hg).
      unfold _extract_max_results. now rewrite Hm, Hg, int_returns.
  - intros ds H0 Hlen.
    assert (H : ds <> EmptyString).
    { intros ->. cbn in Hlen. unfold MAX_STR_DIGITS in Hlen. lia. }
    split.
    + destruct (next_n_days_no_week ds H H0) as [H1 H2].
      destruct (next_n_days_found ds H H0) as (m & Hm & Hg).
      unfold _extract_number_of_days.
      now rewrite H1, H2, Hm, Hg, int_raises.
    + destruct (show_me_n_events_found ds H H0) as (m & Hm & Hg).
      unfold _extract_max_results. now rewrite Hm, Hg, int_raises.
  - intros h q hint c H. rewrite parse_query_dispatch, H.
    unfold dispatch, bind, lift, ret.
    destruct (_extract_number_of_days (Text.lower q)); [|reflexivity].
    destruct (_extract_max_results (Text.lower q)); reflexivity.
  - intros h hint c. rewrite !parse_query_dispatch.
    split; [reflexivity|]. split; [|split; [reflexivity|split; [|split]]].
    + change (classify (init h) "show me 75 events") with none.
      unfold dispatch, weekday_or_default.
      change (_extract_day_of_week (init h) (Text.lower "show me 75 events"))
        with (@None string).
      reflexivity.
    + change (classify (init h) "next 3 days") with none.
      unfold dispatch, weekday_or_default.
      change (_extract_day_of_week (init h) (Text.lower "next 3 days"))
        with (@None string).
      reflexivity.
    + change (classify (init h) "upcoming: show me 75 events")
        with upcoming.
      unfold dispatch.
      change (_extract_number_of_days
                (Text.lower "upcoming: show me 75 events"))
        with (Returns 7).
      change (_extract_max_results
                (Text.lower "upcoming: show me 75 events"))
        with (Returns 50).
      reflexivity.
    + change (classify (init h) "upcoming events, next 3 days")
        with upcoming.
      unfold dispatch.
      change (_extract_number_of_days
                (Text.lower "upcoming events, next 3 days"))
        with (Returns 3).
      change (_extract_max_results
                (Text.lower "upcoming events, next 3 days"))
        with (Returns 10).
      reflexivity.
  - repeat split; vm_compute; reflexivity.
Qed.

Lemma quantity_extraction_witness :
  parse_query sample_host (init sample_host)
    "Coming up: first 75 meetings of the next 14 days" (Some "UTC")
    (frozen (instant 2025 8 13 15 30 0 0))
  = (match
       _extract_number_of_days
         (Text.lower "Coming up: first 75 meetings of the next 14 days")
     with
     | Returns days_ahead =>
         match
           _extract_max_results
             (Text.lower "Coming up: first 75 meetings of the next 14 days")
         with
         | Returns max_results =>
             Returns
               (result (upcoming_events days_ahead max_results)
                  (Some "UTC")
                  "Coming up: first 75 meetings of the next 14 days")
         | Raises e => Raises e
         end
     | Raises e => Raises e
     end,
     after_now (frozen (instant 2025 8 13 15 30 0 0))).
Proof.
  apply (proj1 (proj2 (proj2 (proj2 (proj2 (proj2 (proj2 (proj2 (proj2
           quantity_extraction))))))))
           sample_host "Coming up: first 75 meetings of the next 14 days"
           (Some "UTC") (frozen (instant 2025 8 13 15 30 0 0))).
  vm_compute. reflexivity.
Defined.

Section Bounds.

Lemma nonempty_run (ds : string) :
  (1 <= String.length ds)%nat -> ds <> EmptyString.
Proof. intros H ->. cbn in H. lia. Qed.

(** What [int] returns for the group of a search is the number of a run of
    one to 4300 digits of the text. *)
Lemma int_of_group (a b : regex) (text : string) (m : match_obj) (n : Z) :
  groupless a = true -> groupless b = true ->
  search (Seq a (Seq (Group (Rep Digit 1 None)) b)) text false = Some m ->
  int (group1 text m) = Returns n ->
  exists pre ds post,
    text = pre ++ ds ++ post
    /\ ds <> EmptyString
    /\ Text.all_digits ds = true
    /\ (String.length ds <= MAX_STR_DIGITS)%nat
    /\ n = Text.decimal ds.
Proof.
  intros Ha Hb Hm Hn.
  destruct (search_group_run false a b 1 None text m Ha Hb Hm)
    as (pre & ds & post & Ht & Hd & Hlo & Hg).
  rewrite Hg in Hn. unfold int in Hn.
  destruct (Nat.leb_spec (String.length ds) MAX_STR_DIGITS);
    [|discriminate].
  injection Hn as <-. exists pre, ds, post.
  repeat split; try assumption. now apply nonempty_run.
Qed.

(** The number of days comes from the text or is the default. *)
Lemma days_from_text (text : string) (d : Z) :
  _extract_number_of_days text = Returns d ->
  d = 7
  \/ exists pre ds post,
       text = pre ++ ds ++ post
       /\ ds <> EmptyString
       /\ Text.all_digits ds = true
       /\ (String.length ds <= MAX_STR_DIGITS)%nat
       /\ d = Text.decimal ds.
Proof.
  unfold _extract_number_of_days.
  destruct (truthy _ || truthy _); [intros [= <-]; now left|].
  destruct (search RE_NEXT_N_DAYS text false) as [m|] eqn:E1.
  - intros Hn. right.
    apply (int_of_group (WordB ++ Lit "next" ++ plus Space)%re
             (plus Space ++ Lit "day" ++ Opt (Lit "s") ++ WordB)%re
             text m d); [reflexivity | reflexivity | | exact Hn].
    rewrite <- E1. unfold search. apply search_from_ext.
    intros cu. reflexivity.
  - destruct (search RE_N_DAYS text false) as [m|] eqn:E2;
      [|intros [= <-]; now left].
    intros Hn. right.
    exact (int_of_group WordB
             (plus Space ++ Lit "day" ++ Opt (Lit "s") ++ WordB)%re
             text m d eq_refl eq_refl E2 Hn).
Qed.

(** The number of results is the default or a number of the text, capped
    at 50. *)
Lemma max_from_text (text : string) (n : Z) :
  _extract_max_results text = Returns n ->
  n = 10
  \/ exists pre ds post,
       text = pre ++ ds ++ post
       /\ ds <> EmptyString
       /\ Text.all_digits ds = true
       /\ (String.length ds <= MAX_STR_DIGITS)%nat
       /\ n = Z.min (Text.decimal ds) 50.
Proof.
  unfold _extract_max_results.
  destruct (search RE_MAX_RESULTS text false) as [m|] eqn:E;
    [|intros [= <-]; now left].
  destruct (int (group1 text m)) as [n0|e] eqn:En; [|discriminate].
  intros [= <-]. right.
  destruct (int_of_group
              (WordB ++ any_of "show" ["first"; "next"] ++ plus Space
               ++ Opt (Lit "me" ++ plus Space))%re
              (plus Space
               ++ Alt (Lit "event" ++ Opt (Lit "s"))
                    (Alt (Lit "appointment" ++ Opt (Lit "s"))
                         (Lit "meeting" ++ Opt (Lit "s")))
               ++ WordB)%re
              text m n0) as (pre & ds & post & Ht & Hne & Hd & Hl & ->);
    [reflexivity | reflexivity | | exact En |].
  - rewrite <- E. unfold search. apply search_from_ext.
    intros cu. reflexivity.
  - exists pre, ds, post. now repeat split.
Qed.

Variable host : Host.
Variable self : CalendarQueryParser.

Lemma weekday_or_default_upcoming (query text : string)
    (hint : option string) (now : Datetime.datetime) (c c' : Clock)
    (pq : ParsedQuery) (d m : Z) :
  weekday_or_default self query text hint now c = (Returns pq, c') ->
  intent pq = upcoming_events d m ->
  d = 7 /\ m = 10.
Proof.
  unfold weekday_or_default.
  destruct (_extract_day_of_week self text) as [day|].
  - unfold bind, lift, ret.
    destruct (_get_next_weekday now day); intros [= <- _]; discriminate.
  - unfold ret. intros [= <- _] [= <- <-]. now split.
Qed.

(** Where an [upcoming_events] intent can come from. *)
Lemma dispatch_upcoming (cat : category) (query : string)
    (hint : option string) (z : Datetime.tzinfo)
    (now : Datetime.datetime) (c c' : Clock) (pq : ParsedQuery) (d m : Z) :
  dispatch host self cat query hint z now c = (Returns pq, c') ->
  intent pq = upcoming_events d m ->
  (_extract_number_of_days (Text.lower query) = Returns d
   /\ _extract_max_results (Text.lower query) = Returns m)
  \/ (d = 7 /\ m = 10).
Proof.
  destruct cat; unfold dispatch.
  - unfold ret. intros [= <- _]. discriminate.
  - unfold bind, lift, ret.
    destruct (Datetime.add_days now 1); intros [= <- _]; discriminate.
  - unfold bind, lift, ret.
    destruct (Datetime.add_days now (-1)); intros [= <- _]; discriminate.
  - unfold bind, lift, ret.
    destruct (Datetime.add_days now (- Datetime.weekday now)) as [s|];
      [|discriminate].
    destruct (Datetime.add_days s 6); intros [= <- _]; discriminate.
  - unfold bind, lift, ret.
    destruct (Datetime.add_days now (7 - Datetime.weekday now)) as [s|];
      [|discriminate].
    destruct (Datetime.add_days s 6); intros [= <- _]; discriminate.
  - unfold bind, lift, ret.
    destruct (_extract_number_of_days (Text.lower query)) as [d0|];
      [|discriminate].
    destruct (_extract_max_results (Text.lower query)) as [m0|];
      [|discriminate].
    intros [= <- _] [= <- <-]. left. now split.
  - unfold bind at 1.
    destruct (_extract_specific_date host query z c) as [[[dt|]|e] c0].
    + unfold ret. intros [= <- _]. discriminate.
    + intros H1 H2. right.
      exact (weekday_or_default_upcoming _ _ _ _ _ _ _ _ _ H1 H2).
    + discriminate.
  - intros H1 H2. right.
    exact (weekday_or_default_upcoming _ _ _ _ _ _ _ _ _ H1 H2).
Qed.

End Bounds.

Section WellFormed.

Variable host : Host.
Variable self : CalendarQueryParser.

Lemma tz_wall_clock (z : Datetime.tzinfo) (t : Z) :
  Datetime.tz (Datetime.wall_clock z true t) = Some z.
Proof.
  unfold Datetime.wall_clock. cbv zeta.
  now destruct (Datetime.ord2ymd _) as [[y m] d].
Qed.

Lemma add_days_tz (d d' : Datetime.datetime) (k : Z) :
  Datetime.add_days d k = Returns d' -> Datetime.tz d' = Datetime.tz d.
Proof.
  unfold Datetime.add_days. destruct (_ && _); [|discriminate].
  destruct (Datetime.ord2ymd _) as [[y m] dd]. now intros [= <-].
Qed.

Lemma get_next_weekday_tz (now d : Datetime.datetime) (day : string) :
  _get_next_weekday now day = Returns d -> Datetime.tz d = Datetime.tz now.
Proof.
  unfold _get_next_weekday.
  destruct (weekdays_get weekdays (Text.lower day)) as [t|];
    [|now intros [= <-]].
  destruct (Datetime.add_days now _) as [d0|] eqn:E; [|discriminate].
  intros [= <-]. exact (add_days_tz _ _ _ E).
Qed.

Lemma parse_literal_aware (s : string) (z : Datetime.tzinfo) (c c' : Clock)
    (d : Datetime.datetime) :
  parse_literal host s z c = (Returns d, c') -> aware d.
Proof.
  unfold parse_literal, bind at 1.
  destruct (Dateutil.parse host s c) as [[d0|e0] c0]; [|discriminate].
  unfold bind at 1.
  match goal with
  | |- context [(if ?b then ?m1 else ?m2) c0] =>
      destruct ((if b then m1 else m2) c0) as [[d1|e1] c1]; [|discriminate]
  end.
  unfold ret. intros [= <- _]. unfold aware.
  destruct (Datetime.tz d1) eqn:E; cbn; [rewrite E|]; discriminate.
Qed.

Lemma extract_from_aware (pats : list regex) (text : string)
    (z : Datetime.tzinfo) (d : Datetime.datetime) :
  forall c c', extract_from host pats text z c = (Returns (Some d), c') ->
  aware d.
Proof.
  induction pats as [|pat pats IH]; intros c c'; cbn [extract_from].
  - discriminate.
  - destruct (search pat text true) as [m|]; [|apply IH].
    unfold try_except, bind at 1.
    destruct (parse_literal host (group1 text m) z c)
      as [[d0|e0] c0] eqn:Ep.
    + unfold ret. intros [= <- _]. exact (parse_literal_aware _ _ _ _ _ Ep).
    + destruct (caught e0); [apply IH | discriminate].
Qed.

Lemma weekday_or_default_well_formed (query text : string)
    (hint : option string) (now : Datetime.datetime) (c c' : Clock)
    (pq : ParsedQuery) :
  aware now ->
  weekday_or_default self query text hint now c = (Returns pq, c') ->
  well_formed pq.
Proof.
  intros Ha. unfold weekday_or_default.
  destruct (_extract_day_of_week self text) as [day|].
  - unfold bind, lift, ret.
    destruct (_get_next_weekday now day) as [d|] eqn:E; [|discriminate].
    intros [= <- _]. unfold well_formed, aware. cbn.
    now rewrite (get_next_weekday_tz _ _ _ E).
  - unfold ret. intros [= <- _]. unfold well_formed. cbn. lia.
Qed.

(** Every result of the dispatch is well formed. *)
Lemma dispatch_well_formed (cat : category) (query : string)
    (hint : option string) (z : Datetime.tzinfo)
    (now : Datetime.datetime) (c c' : Clock) (pq : ParsedQuery) :
  aware now ->
  dispatch host self cat query hint z now c = (Returns pq, c') ->
  well_formed pq.
Proof.
  intros Ha. destruct cat; unfold dispatch.
  - unfold ret. intros [= <- _]. exact Ha.
  - unfold bind, lift, ret.
    destruct (Datetime.add_days now 1) as [d|] eqn:E; [|discriminate].
    intros [= <- _]. unfold well_formed, aware. cbn.
    now rewrite (add_days_tz _ _ _ E).
  - unfold bind, lift, ret.
    destruct (Datetime.add_days now (-1)) as [d|] eqn:E; [|discriminate].
    intros [= <- _]. unfold well_formed, aware. cbn.
    now rewrite (add_days_tz _ _ _ E).
  - unfold bind, lift, ret.
    destruct (Datetime.add_days now (- Datetime.weekday now)) as [s|] eqn:E;
      [|discriminate].
    destruct (Datetime.add_days s 6) as [e|] eqn:E'; [|discriminate].
    intros [= <- _]. unfold well_formed, aware. cbn.
    rewrite (add_days_tz _ _ _ E'), (add_days_tz _ _ _ E). now split.
  - unfold bind, lift, ret.
    destruct (Datetime.add_days now (7 - Datetime.weekday now)) as [s|] eqn:E;
      [|discriminate].
    destruct (Datetime.add_days s 6) as [e|] eqn:E'; [|discriminate].
    intros [= <- _]. unfold well_formed, aware. cbn.
    rewrite (add_days_tz _ _ _ E'), (add_days_tz _ _ _ E). now split.
  - unfold bind, lift, ret.
    destruct (_extract_number_of_days (Text.lower query)) as [d0|] eqn:Ed;
      [|discriminate].
    destruct (_extract_max_results (Text.lower query)) as [m0|] eqn:Em;
      [|discriminate].
    intros [= <- _]. unfold well_formed. cbn [intent result].
    destruct (days_from_text _ _ Ed)
      as [-> | (pre & ds & post & _ & _ & Hds & _ & ->)];
      destruct (max_from_text _ _ Em)
        as [-> | (pre' & ds' & post' & _ & _ & Hds' & _ & ->)];
      try pose proof (int_nonneg _ Hds);
      try pose proof (int_nonneg _ Hds'); lia.
  - unfold bind at 1.
    destruct (_extract_specific_date host query z c) as [[[d|]|e] c0] eqn:E.
    + unfold ret. intros [= <- _].
      exact (extract_from_aware _ _ _ _ _ _ E).
    + now apply weekday_or_default_well_formed.
    + discriminate.
  - now apply weekday_or_default_well_formed.
Qed.

End WellFormed.

Lemma tz_aware_now (h : Host) (self : CalendarQueryParser)
    (hint : option string) (c : Clock) :
  aware (now_of h self hint c).
Proof. unfold aware, now_of. now rewrite tz_wall_clock. Qed.

Section Escapes.

Variable host : Host.
Variable self : CalendarQueryParser.

Lemma add_days_raises (d : Datetime.datetime) (k : Z) (e : exn) :
  Datetime.add_days d k = Raises e -> e = OverflowError.
Proof.
  unfold Datetime.add_days. destruct (_ && _).
  - destruct (Datetime.ord2ymd _) as [[y m] dd]. discriminate.
  - now intros [= <-].
Qed.

Lemma get_next_weekday_raises (now : Datetime.datetime) (day : string)
    (e : exn) :
  _get_next_weekday now day = Raises e -> e = OverflowError.
Proof.
  unfold _get_next_weekday.
  destruct (weekdays_get weekdays (Text.lower day)) as [t|]; [|discriminate].
  destruct (Datetime.add_days now _) as [d|e0] eqn:E; [discriminate|].
  intros [= <-]. exact (add_days_raises _ _ _ E).
Qed.

Lemma weekday_or_default_raises (query text : string)
    (hint : option string) (now : Datetime.datetime) (c c' : Clock)
    (e : exn) :
  weekday_or_default self query text hint now c = (Raises e, c') ->
  e = OverflowError.
Proof.
  unfold weekday_or_default.
  destruct (_extract_day_of_week self text) as [day|]; [|discriminate].
  unfold bind, lift, ret.
  destruct (_get_next_weekday now day) as [d|e0] eqn:E; [discriminate|].
  intros [= <- _]. exact (get_next_weekday_raises _ _ _ E).
Qed.

(** What escapes from the dispatch: the [ValueError] of [int] and the
    [OverflowError] of the day arithmetic. *)
Lemma dispatch_raises (cat : category) (query : string)
    (hint : option string) (z : Datetime.tzinfo)
    (now : Datetime.datetime) (c c' : Clock) (e : exn) :
  dispatch host self cat query hint z now c = (Raises e, c') ->
  (e = ValueError /\ cat = upcoming) \/ e = OverflowError.
Proof.
  destruct cat; unfold dispatch.
  - discriminate.
  - unfold bind, lift, ret.
    destruct (Datetime.add_days now 1) as [d|e0] eqn:E; [discriminate|].
    intros [= <- _]. right. exact (add_days_raises _ _ _ E).
  - unfold bind, lift, ret.
    destruct (Datetime.add_days now (-1)) as [d|e0] eqn:E; [discriminate|].
    intros [= <- _]. right. exact (add_days_raises _ _ _ E).
  - unfold bind, lift, ret.
    destruct (Datetime.add_days now (- Datetime.weekday now)) as [s|e0]
      eqn:E; [|intros [= <- _]; right; exact (add_days_raises _ _ _ E)].
    destruct (Datetime.add_days s 6) as [d|e1] eqn:E'; [discriminate|].
    intros [= <- _]. right. exact (add_days_raises _ _ _ E').
  - unfold bind, lift, ret.
    destruct (Datetime.add_days now (7 - Datetime.weekday now)) as [s|e0]
      eqn:E; [|intros [= <- _]; right; exact (add_days_raises _ _ _ E)].
    destruct (Datetime.add_days s 6) as [d|e1] eqn:E'; [discriminate|].
    intros [= <- _]. right. exact (add_days_raises _ _ _ E').
  - unfold bind, lift, ret.
    destruct (_extract_number_of_days (Text.lower query)) as [d|e0] eqn:Ed.
    + destruct (_extract_max_results (Text.lower query)) as [m|e1] eqn:Em;
        [discriminate|].
      intros [= <- _]. left.
      now rewrite (extract_max_results_raises _ _ Em).
    + intros [= <- _]. left.
      now rewrite (extract_number_of_days_raises _ _ Ed).
  - unfold _extract_specific_date, bind at 1.
    destruct (extract_from_returns host date_patterns query z c)
      as (o & c0 & ->).
    destruct o as [d|]; [discriminate|].
    intros H. right. exact (weekday_or_default_raises _ _ _ _ _ _ _ H).
  - intros H. right. exact (weekday_or_default_raises _ _ _ _ _ _ _ H).
Qed.

End Escapes.

(** C1 on the code.  [parse_query] is not total: a query of the upcoming
    category that asks for a number of more than 4300 digits makes [int]
    raise [ValueError], which nothing in [parse_query] handles, whereas
    the [ValueError] of a date literal is handled.  On every query of at
    most 4300 characters -- empty, blank or unrelated -- and every hint --
    known to the zone database or not -- [parse_query] returns a
    well-formed parsed query, with the hint and the query as given, while
    the clock shows a date at least a week inside the range of the
    calendar.  Nothing but [ValueError] and the [OverflowError] of the day
    arithmetic escapes. *)
Theorem parse_query_partial :
  (forall h hint c,
     classify (init h) long_number_query = upcoming
     /\ parse_query h (init h) long_number_query hint c
        = (Raises ValueError, after_now c))
  /\ (forall h query hint c,
        safe_date (now_of h (init h) hint c) ->
        (String.length query <= MAX_STR_DIGITS)%nat ->
        exists pq c',
          parse_query h (init h) query hint c = (Returns pq, c')
          /\ original_query pq = query
          /\ timezone pq = hint
          /\ well_formed pq)
  /\ (forall h self query hint c e,
        fst (parse_query h self query hint c) = Raises e ->
        (e = ValueError /\ classify self query = upcoming)
        \/ e = OverflowError).
Proof.
  split; [|split].
  - intros h hint c.
    assert (E : classify (init h) long_number_query = upcoming)
      by (vm_compute; reflexivity).
    split; [exact E|].
    rewrite parse_query_dispatch, E. unfold dispatch.
    assert (Ed : _extract_number_of_days (Text.lower long_number_query)
                 = Raises ValueError) by (vm_compute; reflexivity).
    unfold bind, lift. now rewrite Ed.
  - intros h query hint c Hs Hlen. rewrite parse_query_dispatch.
    destruct (dispatch_total h (init h) (classify (init h) query) query
                hint (resolve_timezone h (init h) hint)
                (now_of h (init h) hint c) (after_now c) Hs Hlen)
      as (pq & c' & Hd & Hq & Hh).
    exists pq, c'. repeat split; try assumption.
    apply (dispatch_well_formed _ _ _ _ _ _ _ _ _ _ (tz_aware_now _ _ _ _)
             Hd).
  - intros h self query hint c e. rewrite parse_query_dispatch.
    destruct (dispatch _ _ _ _ _ _ _ _) as [o c'] eqn:Ed.
    cbn [fst]. intros ->. exact (dispatch_raises _ _ _ _ _ _ _ _ _ _ Ed).
Qed.

Lemma parse_query_partial_witness :
  exists pq c',
    parse_query sample_host (init sample_host) "   " (Some "Mars/Phobos")
      (frozen (instant 2025 8 13 15 30 0 0)) = (Returns pq, c')
    /\ original_query pq = "   "
    /\ timezone pq = Some "Mars/Phobos"
    /\ well_formed pq.
Proof.
  apply (proj1 (proj2 parse_query_partial) sample_host "   "
           (Some "Mars/Phobos") (frozen (instant 2025 8 13 15 30 0 0))).
  - vm_compute. split; [reflexivity | discriminate].
  - unfold MAX_STR_DIGITS. cbn. lia.
Defined.

(** C8, as the specification states it, fails: "upcoming 0 days" is parsed
    to [upcoming_events] with [days_ahead = 0]. *)
Lemma days_ahead_below_one :
  ~ (forall h q hint c pq d m,
       fst (parse_query h (init h) q hint c) = Returns pq ->
       intent pq = upcoming_events d m ->
       1 <= d /\ m <= 50).
Proof.
  intros H.
  destruct (H sample_host "upcoming 0 days" None
              (frozen (instant 2025 8 13 15 30 0 0))
              (result (upcoming_events 0 10) None "upcoming 0 days") 0 10)
    as [H1 _]; [vm_compute; reflexivity | reflexivity | lia].
Qed.

(** C8, amended.  In every parsed query whose intent is [upcoming_events],
    [days_ahead] is not negative: it is the default 7 or the number that a
    run of one to 4300 digits of the lowercased query writes;
    [max_results] lies between 0 and 50: it is the default 10 or the
    smaller of 50 and the number of such a run. *)
Theorem upcoming_bounds (h : Host) (q : string) (hint : option string)
    (c : Clock) (pq : ParsedQuery) (d m : Z) :
  fst (parse_query h (init h) q hint c) = Returns pq ->
  intent pq = upcoming_events d m ->
  0 <= d
  /\ (d = 7
      \/ exists pre ds post,
           Text.lower q = pre ++ ds ++ post
           /\ ds <> EmptyString
           /\ Text.all_digits ds = true
           /\ (String.length ds <= MAX_STR_DIGITS)%nat
           /\ d = Text.decimal ds)
  /\ 0 <= m <= 50
  /\ (m = 10
      \/ exists pre ds post,
           Text.lower q = pre ++ ds ++ post
           /\ ds <> EmptyString
           /\ Text.all_digits ds = true
           /\ (String.length ds <= MAX_STR_DIGITS)%nat
           /\ m = Z.min (Text.decimal ds) 50).
Proof.
  intros Hp Hi.
  destruct (parse_query h (init h) q hint c) as [o c'] eqn:E.
  cbn [fst] in Hp. subst o. rewrite parse_query_dispatch in E.
  destruct (dispatch_upcoming _ _ _ _ _ _ _ _ _ _ _ _ E Hi)
    as [[Hd Hm] | [-> ->]].
  - pose proof (days_from_text _ _ Hd) as Hd'.
    pose proof (max_from_text _ _ Hm) as Hm'.
    split; [|split; [exact Hd'|split; [|exact Hm']]].
    + destruct Hd' as [-> | (pre & ds & post & _ & _ & Hds & _ & ->)];
        [lia | now apply int_nonneg].
    + destruct Hm' as [-> | (pre & ds & post & _ & _ & Hds & _ & ->)];
        [lia|].
      pose proof (int_nonneg ds Hds). lia.
  - split; [lia|]. split; [now left|]. split; [lia | now left].
Qed.

Lemma upcoming_bounds_witness :
  0 <= 0
  /\ (0 = 7
      \/ exists pre ds post,
           Text.lower "Upcoming 0 days" = pre ++ ds ++ post
           /\ ds <> EmptyString
           /\ Text.all_digits ds = true
           /\ (String.length ds <= MAX_STR_DIGITS)%nat
           /\ 0 = Text.decimal ds)
  /\ 0 <= 10 <= 50
  /\ (10 = 10
      \/ exists pre ds post,
           Text.lower "Upcoming 0 days" = pre ++ ds ++ post
           /\ ds <> EmptyString
           /\ Text.all_digits ds = true
           /\ (String.length ds <= MAX_STR_DIGITS)%nat
           /\ 10 = Z.min (Text.decimal ds) 50).
Proof.
  apply (upcoming_bounds sample_host "Upcoming 0 days" None
           (frozen (instant 2025 8 13 15 30 0 0))
           (result (upcoming_events 0 10) None "Upcoming 0 days") 0 10).
  - vm_compute. reflexivity.
  - reflexivity.
Defined.

Section Determinism.

Variable host : Host.
Variable self : CalendarQueryParser.

Lemma within_now (z : Datetime.tzinfo) : reads_within 1 (Datetime.now z).
Proof.
  apply (within_bind 1 0); [apply within_read_clock|].
  intros t. apply within_ret.
Qed.

Lemma within_parse_timezone (hint : option string) :
  reads_within 0 (_parse_timezone host self hint).
Proof.
  destruct hint as [[|a s]|]; cbn [_parse_timezone]; try apply within_ret.
  apply (within_try_except 0 0); [|apply within_ret].
  unfold Pytz.timezone.
  destruct (tzdb host _); [apply within_ret | apply within_raise].
Qed.

Lemma within_dateutil_parse (s : string) :
  reads_within 1 (Dateutil.parse host s).
Proof.
  apply (within_bind 1 0).
  - apply (within_bind 1 0); [apply within_read_clock|].
    intros t. apply within_ret.
  - intros default.
    destruct (Dateutil.month_day_literal s) as [[[m d] [y|]]|];
      try apply within_pure.
    destruct (other_literal host s _) as [[[y m] d]|];
      [apply within_pure | apply within_raise].
Qed.

Lemma within_parse_literal (s : string) (z : Datetime.tzinfo) :
  reads_within 2 (parse_literal host s z).
Proof.
  apply (within_bind 1 1); [apply within_dateutil_parse|].
  intros d. apply (within_bind 1 0); [|intros d'; apply within_ret].
  destruct (Datetime.year d =? 1900); [|apply within_ret].
  apply (within_bind 1 0); [apply within_now|].
  intros now. apply within_pure.
Qed.

Lemma within_extract_from (pats : list regex) (text : string)
    (z : Datetime.tzinfo) :
  reads_within (2 * List.length pats) (extract_from host pats text z).
Proof.
  induction pats as [|pat pats IH]; cbn [extract_from].
  - apply within_ret.
  - assert (E : (2 * List.length (pat :: pats)
                 = 2 + 2 * List.length pats)%nat) by (cbn; lia).
    rewrite E.
    destruct (search pat text true) as [m|];
      [|apply (within_weaken (2 * List.length pats)); [lia | exact IH]].
    apply within_try_except; [|exact IH].
    apply (within_bind 2 0); [apply within_parse_literal|].
    intros d. apply within_ret.
Qed.

Lemma within_weekday_or_default (k : nat) (query text : string)
    (hint : option string) (now : Datetime.datetime) :
  reads_within k (weekday_or_default self query text hint now).
Proof.
  unfold weekday_or_default.
  destruct (_extract_day_of_week self text); [|apply within_ret].
  apply within_bind_pure. intros d. apply within_ret.
Qed.

(** [parse_query] reads the clock at most thirteen times, and its outcome
    depends on the clock through these readings only. *)
Lemma within_parse_query (query : string) (hint : option string) :
  reads_within 13 (parse_query host self query hint).
Proof.
  unfold parse_query.
  apply (within_bind 0 13); [apply within_parse_timezone | intros z].
  apply (within_bind 1 12); [apply within_now | intros now].
  repeat match goal with
         | |- reads_within _ (if ?b then _ else _) => destruct b
         end;
    try (apply (within_bind 12 0);
         [apply (within_extract_from date_patterns)|];
         intros [d|]; [apply within_ret | apply within_weekday_or_default]);
    repeat first
      [ apply within_ret
      | apply within_weekday_or_default
      | apply within_bind_pure; intros ? ].
Qed.

(** Outside the date literals the dispatch reads no clock. *)
Lemma within_dispatch_plain (cat : category) (query : string)
    (hint : option string) (z : Datetime.tzinfo)
    (now : Datetime.datetime) :
  cat <> specific_date_literal ->
  reads_within 0 (dispatch host self cat query hint z now).
Proof.
  intros Hc. destruct cat; unfold dispatch; try congruence;
    repeat first
      [ apply within_ret
      | apply within_weekday_or_default
      | apply within_bind_pure; intros ? ].
Qed.

End Determinism.

(** C2, as the specification states it, fails.  [parse_query] has the
    parameters [query] and [timezone] only and reads the clock itself: the
    same arguments give different outputs on different days, and even two
    runs whose first reading of the clock -- the [now] of the parser -- is
    the same instant differ when a later reading, the one [dateutil] makes
    for its default year, falls in another year. *)
Lemma now_is_not_a_parameter :
  ~ (forall h q hint c1 c2,
       fst (parse_query h (init h) q hint c1)
       = fst (parse_query h (init h) q hint c2))
  /\ ~ (forall h q hint c1 c2,
          ticks c1 (reads c1) = ticks c2 (reads c2) ->
          fst (parse_query h (init h) q hint c1)
          = fst (parse_query h (init h) q hint c2)).
Proof.
  split; intros H.
  - specialize (H sample_host "today" None
                  (frozen (instant 2025 8 13 15 30 0 0))
                  (frozen (instant 2025 8 14 15 30 0 0))).
    vm_compute in H. discriminate H.
  - specialize (H sample_host "meet on march 5" None
                  (frozen (instant 2025 12 31 23 59 59 999999))
                  (stepping (instant 2025 12 31 23 59 59 999999)
                     (instant 2026 1 1 0 0 0 1))
                  eq_refl).
    vm_compute in H. discriminate H.
Qed.

Section MissingYear.

Variable host : Host.

Lemma build_march_5 (y : Z) :
  1 <= y <= 9999 ->
  Dateutil.build y 3 5
  = Returns {| Datetime.year := y; Datetime.month := 3; Datetime.day := 5;
               Datetime.hour := 0; Datetime.minute := 0;
               Datetime.second := 0; Datetime.microsecond := 0;
               Datetime.tz := None |}.
Proof.
  intros [H1 H2]. unfold Dateutil.build, Datetime.MINYEAR, Datetime.MAXYEAR.
  apply Z.leb_le in H1. apply Z.leb_le in H2. rewrite H1, H2.
  reflexivity.
Qed.

Lemma parse_literal_march_5 (z : Datetime.tzinfo) (c : Clock) :
  1 <= host_year host c <= 9999 ->
  host_year host c <> 1900 ->
  parse_literal host "march 5" z c
  = (Returns (date_at (host_year host c) 3 5 0 0 0 0 z), after_now c).
Proof.
  intros Hy H1900. unfold parse_literal.
  rewrite (bind_returns _ _ c (after_now c)
             {| Datetime.year := host_year host c; Datetime.month := 3;
                Datetime.day := 5; Datetime.hour := 0;
                Datetime.minute := 0; Datetime.second := 0;
                Datetime.microsecond := 0; Datetime.tz := None |}).
  - cbn [Datetime.year]. apply Z.eqb_neq in H1900. rewrite H1900.
    reflexivity.
  - rewrite (parse_yearless host "march 5" 3 5) by reflexivity.
    fold (host_year host c). now rewrite build_march_5.
Qed.

Lemma march_5_extracted (z : Datetime.tzinfo) (c : Clock) :
  1 <= host_year host c <= 9999 ->
  host_year host c <> 1900 ->
  _extract_specific_date host "meet on march 5" z c
  = (Returns (Some (date_at (host_year host c) 3 5 0 0 0 0 z)), after_now c).
Proof.
  intros Hy H1900.
  unfold _extract_specific_date, date_patterns. cbn [extract_from].
  eval_search. cbv beta iota.
  change (group1 "meet on march 5" _) with "march 5".
  apply try_except_returns.
  now rewrite (bind_returns _ _ _ _ _ (parse_literal_march_5 z c Hy H1900)).
Qed.

End MissingYear.

(** C9 on the code.  A literal without year gets the year of the host's
    local date, the default of [dateutil]: the test [year == 1900] that
    guards the substitution of the current year of the resolved zone does
    not fire for it.  The result is at 00:00:00 in the resolved zone.  With
    the host on UTC at 2025-12-31 12:00 and the zone Pacific/Kiritimati,
    where it is already 2026, "meet on march 5" gives 2025-03-05; when both
    are in 2026 it gives 2026-03-05. *)
Theorem missing_year_from_host_clock :
  (forall h hint c,
     1 <= host_year h (after_now c) <= 9999 ->
     host_year h (after_now c) <> 1900 ->
     fst (parse_query h (init h) "meet on march 5" hint c)
     = Returns
         (result
            (specific_date
               (date_at (host_year h (after_now c)) 3 5 0 0 0 0
                  (resolve_timezone h (init h) hint)))
            hint "meet on march 5"))
  /\ (Datetime.year
        (now_of sample_host (init sample_host) (Some "Pacific/Kiritimati")
           (frozen (instant 2025 12 31 12 0 0 0))) = 2026
      /\ fst (parse_query sample_host (init sample_host) "meet on march 5"
                (Some "Pacific/Kiritimati")
                (frozen (instant 2025 12 31 12 0 0 0)))
         = Returns
             (result (specific_date (date_at 2025 3 5 0 0 0 0 kiritimati))
                (Some "Pacific/Kiritimati") "meet on march 5"))
  /\ (Datetime.year
        (now_of sample_host (init sample_host) None
           (frozen (instant 2026 1 15 9 0 0 0))) = 2026
      /\ fst (parse_query sample_host (init sample_host) "meet on march 5"
                None (frozen (instant 2026 1 15 9 0 0 0)))
         = Returns
             (result (specific_date (date_at 2026 3 5 0 0 0 0 Pytz.utc))
                None "meet on march 5")).
Proof.
  split.
  - intros h hint c Hy H1900.
    rewrite parse_query_dispatch.
    change (classify (init h) "meet on march 5") with specific_date_literal.
    unfold dispatch.
    now rewrite (bind_returns _ _ _ _ _
                   (march_5_extracted h (resolve_timezone h (init h) hint)
                      (after_now c) Hy H1900)).
  - split; split; vm_compute; reflexivity.
Qed.

Lemma missing_year_from_host_clock_witness :
  fst (parse_query sample_host (init sample_host) "meet on march 5"
         (Some "Pacific/Kiritimati") (frozen (instant 2025 12 31 12 0 0 0)))
  = Returns
      (result
         (specific_date
            (date_at
               (host_year sample_host
                  (after_now (frozen (instant 2025 12 31 12 0 0 0))))
               3 5 0 0 0 0
               (resolve_timezone sample_host (init sample_host)
                  (Some "Pacific/Kiritimati"))))
         (Some "Pacific/Kiritimati") "meet on march 5").
Proof.
  apply (proj1 missing_year_from_host_clock sample_host
           (Some "Pacific/Kiritimati")
           (frozen (instant 2025 12 31 12 0 0 0))).
  - vm_compute. split; discriminate.
  - vm_compute. discriminate.
Defined.

(** * Further properties of the code *)

Section LowerCase.

Lemma ascii_cases (P : ascii -> Prop) :
  (forall n : nat, (n < 256)%nat -> P (ascii_of_nat n)) -> forall c, P c.
Proof.
  intros H c. rewrite <- (ascii_nat_embedding c). apply H.
  apply nat_ascii_bounded.
Qed.


Lemma lower_char_facts_hold (c : ascii) : lower_char_facts c = true.
Proof.
  destruct c as [[] [] [] [] [] [] [] []]; vm_compute; reflexivity.
Qed.


Lemma lower_char_idem (c : ascii) :
  Text.lower_char (Text.lower_char c) = Text.lower_char c.
Proof.
  pose proof (lower_char_facts_hold c) as H. unfold lower_char_facts in H.
  rewrite !andb_true_iff in H. destruct H as [[[[H _] _] _] _].
  now apply Ascii.eqb_eq.
Qed.

Lemma is_word_lower (c : ascii) :
  Text.is_word (Text.lower_char c) = Text.is_word c.
Proof.
  pose proof (lower_char_facts_hold c) as H. unfold lower_char_facts in H.
  rewrite !andb_true_iff in H. destruct H as [[[[_ H] _] _] _].
  now apply Bool.eqb_prop.
Qed.

Lemma char_eq_lower (a x : ascii) :
  char_eq true a (Text.lower_char x) = char_eq true a x.
Proof. unfold char_eq. now rewrite lower_char_idem. Qed.

Lemma in_cset_lower (c : cset) (x : ascii) :
  in_cset true c (Text.lower_char x) = in_cset true c x.
Proof.
  pose proof (lower_char_facts_hold x) as H. unfold lower_char_facts in H.
  rewrite !andb_true_iff in H. destruct H as [[[[_ _] Hd] Hs] Hn].
  apply Bool.eqb_prop in Hd, Hs, Hn.
  destruct c as [| | |l]; cbn [in_cset]; [exact Hd | exact Hs | |].
  - now rewrite Hn.
  - induction l as [|a l IH]; cbn [existsb]; [reflexivity|].
    now rewrite char_eq_lower, IH.
Qed.

Lemma at_boundary_lower (cu : cursor) :
  at_boundary (lower_cursor cu) = at_boundary cu.
Proof.
  unfold at_boundary, word_before, word_after, lower_cursor.
  cbn [prev rest].
  destruct (prev cu) as [p|], (rest cu) as [|x s]; cbn [option_map Text.lower];
    now rewrite ?is_word_lower.
Qed.

Lemma lit_from_lower (l : string) :
  forall cu,
  lit_from true l (lower_cursor cu)
  = option_map lower_cursor (lit_from true l cu).
Proof.
  induction l as [|a l IH]; intros cu; cbn [lit_from]; [reflexivity|].
  unfold lower_cursor at 1. cbn [rest pos].
  destruct (rest cu) as [|x s]; cbn [Text.lower]; [reflexivity|].
  rewrite char_eq_lower. destruct (char_eq true a x); [|reflexivity].
  exact (IH (Cursor (Some x) (S (pos cu)) s)).
Qed.

Lemma rep_from_lower {R : Type} (c : cset) (lo : nat) (hi : option nat)
    (k k' : cursor -> caps -> option R) :
  (forall cu g, k' (lower_cursor cu) g = k cu g) ->
  forall s n p i g,
  rep_from true c lo hi n (option_map Text.lower_char p) i (Text.lower s)
    g k'
  = rep_from true c lo hi n p i s g k.
Proof.
  intros Hk. induction s as [|x s IH]; intros n p i g;
    cbn [rep_from Text.lower].
  - now rewrite <- (Hk (Cursor p i EmptyString)).
  - rewrite in_cset_lower.
    rewrite <- (Hk (Cursor p i (String x s)) g).
    unfold lower_cursor at 1 2. cbn [prev pos rest Text.lower].
    destruct (in_cset true c x && below hi n); [|reflexivity].
    now rewrite <- (IH (S n) (Some x) (S i) g).
Qed.

(** A case-insensitive run over the lower-case form of the text goes as
    the run over the text itself. *)
Lemma run_lower {R : Type} (r : regex) :
  forall (k k' : cursor -> caps -> option R),
  (forall cu g, k' (lower_cursor cu) g = k cu g) ->
  forall cu g, run true r (lower_cursor cu) g k' = run true r cu g k.
Proof.
  induction r as [| l | c | | a IHa b IHb | a IHa b IHb | a IHa
                  | c lo hi | a IHa]; intros k k' Hk cu g; cbn [run].
  - apply Hk.
  - rewrite lit_from_lower. destruct (lit_from true l cu) as [cu'|];
      cbn [option_map]; [apply Hk | reflexivity].
  - unfold lower_cursor at 1. cbn [rest pos].
    destruct (rest cu) as [|x s]; cbn [Text.lower]; [reflexivity|].
    rewrite in_cset_lower. destruct (in_cset true c x); [|reflexivity].
    exact (Hk (Cursor (Some x) (S (pos cu)) s) g).
  - rewrite at_boundary_lower. destruct (at_boundary cu);
      [apply Hk | reflexivity].
  - apply IHa. intros cu' g'. now apply IHb.
  - rewrite (IHa k k' Hk), (IHb k k' Hk). reflexivity.
  - rewrite (IHa k k' Hk), Hk. reflexivity.
  - unfold lower_cursor at 1. cbn [prev pos rest].
    now apply rep_from_lower.
  - apply IHa. intros cu' g'. unfold lower_cursor at 2. cbn [pos].
    apply Hk.
Qed.

Lemma match_here_lower (r : regex) (cu : cursor) :
  match_here true r (lower_cursor cu) = match_here true r cu.
Proof.
  unfold match_here. apply run_lower. intros cu' g. reflexivity.
Qed.

Lemma search_from_lower (r : regex) (s : string) :
  forall p i,
  search_from true r (option_map Text.lower_char p) i (Text.lower s)
  = search_from true r p i s.
Proof.
  induction s as [|x s IH]; intros p i;
    rewrite (search_from_eq true r p), search_from_eq;
    rewrite <- (match_here_lower r (Cursor p i _));
    unfold lower_cursor; cbn [prev pos rest Text.lower].
  - reflexivity.
  - now rewrite <- (IH (Some x) (S i)).
Qed.

Lemma matches_patterns_lower (text : string) (pats : list regex) :
  _matches_patterns (Text.lower text) pats = _matches_patterns text pats.
Proof.
  induction pats as [|r pats IH]; cbn [_matches_patterns]; [reflexivity|].
  unfold search. pose proof (search_from_lower r text None 0) as H.
  cbn [option_map] in H. now rewrite H, IH.
Qed.

End LowerCase.

(** X2.  On a query of ASCII characters and for patterns written in
    ASCII, as all the patterns of the parser are, [_matches_patterns],
    which searches with [re.IGNORECASE], answers alike on the query and on
    its lower-case form, match positions included: the [query.lower()] of
    [parse_query] changes nothing for it, and the category of the query
    can be read off the query as it was typed. *)
Theorem lowering_is_redundant (q : string) :
  ascii_text q = true ->
  (forall r, ascii_pattern r = true ->
     search r (Text.lower q) true = search r q true)
  /\ (forall pats, forallb ascii_pattern pats = true ->
        _matches_patterns (Text.lower q) pats = _matches_patterns q pats)
  /\ (forall self, ascii_parser self = true ->
        classify self q = first_category self q CATEGORY_ORDER)
  /\ (forall h, ascii_parser (init h) = true).
Proof.
  intros _. split; [|split; [|split]].
  - intros r _. exact (search_from_lower r q None 0).
  - intros pats _. apply matches_patterns_lower.
  - intros self _. unfold classify.
    induction CATEGORY_ORDER as [|c cs IH]; cbn [first_category];
      [reflexivity|].
    unfold category_matches. now rewrite matches_patterns_lower, IH.
  - intros h. reflexivity.
Qed.

Lemma lowering_is_redundant_witness :
  (forall r, ascii_pattern r = true ->
     search r (Text.lower "What is on THIS Week?") true
     = search r "What is on THIS Week?" true)
  /\ (forall pats, forallb ascii_pattern pats = true ->
        _matches_patterns (Text.lower "What is on THIS Week?") pats
        = _matches_patterns "What is on THIS Week?" pats)
  /\ (forall self, ascii_parser self = true ->
        classify self "What is on THIS Week?"
        = first_category self "What is on THIS Week?" CATEGORY_ORDER)
  /\ (forall h, ascii_parser (init h) = true).
Proof.
  apply (lowering_is_redundant "What is on THIS Week?"). reflexivity.
Defined.

Section Lowered.

Lemma lower_idem (s : string) : Text.lower (Text.lower s) = Text.lower s.
Proof.
  induction s as [|c s IH]; cbn [Text.lower]; [reflexivity|].
  now rewrite lower_char_idem, IH.
Qed.

Lemma char_eq_lowered (a x : ascii) :
  Text.lower_char a = a -> Text.lower_char x = x ->
  char_eq true a x = char_eq false a x.
Proof. intros Ha Hx. unfold char_eq. now rewrite Ha, Hx. Qed.

Lemma lowered_cons (x : ascii) (s : string) :
  Text.lower (String x s) = String x s ->
  Text.lower_char x = x /\ Text.lower s = s.
Proof. cbn [Text.lower]. intros [= Hx Hs]. now split. Qed.

Lemma in_cset_lowered (c : cset) (x : ascii) :
  lowercase (Set_ c) = true -> Text.lower_char x = x ->
  in_cset true c x = in_cset false c x.
Proof.
  intros Hc Hx. destruct c as [| | |l]; cbn [in_cset]; try reflexivity.
  cbn [lowercase] in Hc.
  induction l as [|a l IH]; cbn [existsb forallb] in *; [reflexivity|].
  apply andb_true_iff in Hc as [Ha Hl]. apply Ascii.eqb_eq in Ha.
  now rewrite (char_eq_lowered a x Ha Hx), (IH Hl).
Qed.

Lemma lit_from_lowered (l : string) :
  Text.lower l = l ->
  forall cu, Text.lower (rest cu) = rest cu ->
  lit_from true l cu = lit_from false l cu
  /\ forall cu', lit_from false l cu = Some cu' ->
       Text.lower (rest cu') = rest cu'.
Proof.
  induction l as [|a l IH]; intros Hl cu Hcu; cbn [lit_from].
  - split; [reflexivity|]. now intros cu' [= <-].
  - apply lowered_cons in Hl as [Ha Hl].
    destruct (rest cu) as [|x s] eqn:Er.
    + split; [reflexivity | discriminate].
    + apply lowered_cons in Hcu as [Hx Hs].
      rewrite (char_eq_lowered a x Ha Hx).
      destruct (char_eq false a x); [|split; [reflexivity | discriminate]].
      exact (IH Hl (Cursor (Some x) (S (pos cu)) s) Hs).
Qed.

Lemma rep_from_lowered {R : Type} (c : cset) (lo : nat) (hi : option nat)
    (k k' : cursor -> caps -> option R) :
  lowercase (Set_ c) = true ->
  (forall cu g, Text.lower (rest cu) = rest cu -> k cu g = k' cu g) ->
  forall s n p i g, Text.lower s = s ->
  rep_from true c lo hi n p i s g k = rep_from false c lo hi n p i s g k'.
Proof.
  intros Hc Hk. induction s as [|x s IH]; intros n p i g Hs;
    cbn [rep_from].
  - now rewrite (Hk (Cursor p i EmptyString) g).
  - rewrite (Hk (Cursor p i (String x s)) g Hs).
    apply lowered_cons in Hs as [Hx Hs].
    rewrite (in_cset_lowered c x Hc Hx).
    destruct (in_cset false c x && below hi n); [|reflexivity].
    now rewrite (IH (S n) (Some x) (S i) g Hs).
Qed.

(** On a text in lower case, a pattern in lower case matches with and
    without [re.IGNORECASE] alike. *)
Lemma run_lowered {R : Type} (r : regex) :
  lowercase r = true ->
  forall (k k' : cursor -> caps -> option R),
  (forall cu g, Text.lower (rest cu) = rest cu -> k cu g = k' cu g) ->
  forall cu g, Text.lower (rest cu) = rest cu ->
  run true r cu g k = run false r cu g k'.
Proof.
  induction r as [| l | c | | a IHa b IHb | a IHa b IHb | a IHa
                  | c lo hi | a IHa]; intros Hr k k' Hk cu g Hcu;
    cbn [run]; cbn [lowercase] in Hr.
  - now apply Hk.
  - apply String.eqb_eq in Hr.
    destruct (lit_from_lowered l Hr cu Hcu) as [-> Hrest].
    destruct (lit_from false l cu) as [cu'|]; [|reflexivity].
    apply Hk. now apply Hrest.
  - destruct (rest cu) as [|x s] eqn:Er; [reflexivity|].
    apply lowered_cons in Hcu as [Hx Hs].
    rewrite (in_cset_lowered c x Hr Hx).
    destruct (in_cset false c x); [|reflexivity].
    now apply Hk.
  - destruct (at_boundary cu); [now apply Hk | reflexivity].
  - apply andb_true_iff in Hr as [Ha Hb].
    apply (IHa Ha); [|exact Hcu].
    intros cu' g' Hcu'. now apply (IHb Hb).
  - apply andb_true_iff in Hr as [Ha Hb].
    now rewrite (IHa Ha k k' Hk cu g Hcu), (IHb Hb k k' Hk cu g Hcu).
  - now rewrite (IHa Hr k k' Hk cu g Hcu), (Hk cu g Hcu).
  - now apply rep_from_lowered.
  - apply (IHa Hr); [|exact Hcu].
    intros cu' g' Hcu'. now apply Hk.
Qed.

Lemma search_from_lowered (r : regex) (s : string) :
  lowercase r = true ->
  forall p i, Text.lower s = s ->
  search_from true r p i s = search_from false r p i s.
Proof.
  intros Hr. induction s as [|x s IH]; intros p i Hs;
    rewrite (search_from_eq true), (search_from_eq false);
    unfold match_here;
    rewrite (run_lowered r Hr _
               (fun cu' g => Some (Match (pos (Cursor p i _)) (pos cu') g)))
      by (reflexivity || exact Hs); [reflexivity|].
  apply lowered_cons in Hs as [_ Hs]. now rewrite (IH (Some x) (S i) Hs).
Qed.

Lemma search_lowered (r : regex) (text : string) :
  lowercase r = true ->
  search r (Text.lower text) false = search r text true.
Proof.
  intros Hr. unfold search.
  rewrite <- (search_from_lowered r (Text.lower text) Hr None 0
                (lower_idem text)).
  pose proof (search_from_lower r text None 0) as H.
  cbn [option_map] in H. exact H.
Qed.

End Lowered.

(** X3.  The quantity patterns are searched without [re.IGNORECASE], but
    on the lower-case form of the query: on a query of ASCII characters,
    for a pattern written in ASCII and in lower case, this is the
    case-insensitive search of the query itself, with the same match
    positions. *)
Theorem case_sensitive_search_on_lowered (r : regex) (text : string) :
  ascii_text text = true ->
  ascii_pattern r = true ->
  lowercase r = true ->
  search r (Text.lower text) false = search r text true.
Proof.
  intros _ _ Hr. unfold search.
  rewrite <- (search_from_lowered r (Text.lower text) Hr None 0
                (lower_idem text)).
  pose proof (search_from_lower r text None 0) as H.
  cbn [option_map] in H. exact H.
Qed.

Lemma case_sensitive_search_on_lowered_witness :
  search RE_NEXT_N_DAYS (Text.lower "Events of the NEXT 3 Days") false
  = search RE_NEXT_N_DAYS "Events of the NEXT 3 Days" true.
Proof.
  apply (case_sensitive_search_on_lowered RE_NEXT_N_DAYS
           "Events of the NEXT 3 Days"); reflexivity.
Defined.

Section Shortcut.

Variable host : Host.

Lemma classify_upcoming_weeks (self : CalendarQueryParser) (q : string) :
  classify self q = upcoming ->
  category_matches self (Text.lower q) this_week = false
  /\ category_matches self (Text.lower q) next_week = false.
Proof.
  unfold classify, CATEGORY_ORDER, first_category.
  destruct (category_matches self (Text.lower q) today); [discriminate|].
  destruct (category_matches self (Text.lower q) tomorrow); [discriminate|].
  destruct (category_matches self (Text.lower q) yesterday);
    [discriminate|].
  destruct (category_matches self (Text.lower q) this_week);
    [discriminate|].
  destruct (category_matches self (Text.lower q) next_week);
    [discriminate|].
  now split.
Qed.

Lemma week_patterns_head :
  (exists pats, get (patterns (init host)) "this_week" = RE_THIS_WEEK :: pats)
  /\ (exists pats,
        get (patterns (init host)) "next_week" = RE_NEXT_WEEK :: pats).
Proof. split; eexists; reflexivity. Qed.

Lemma not_truthy (m : option match_obj) : truthy m = false -> m = None.
Proof. now destruct m. Qed.

Lemma upcoming_no_week (q : string) :
  classify (init host) q = upcoming ->
  search RE_NEXT_WEEK (Text.lower q) false = None
  /\ search RE_THIS_WEEK (Text.lower q) false = None.
Proof.
  intros H. destruct (classify_upcoming_weeks _ _ H) as [Ht Hn].
  unfold category_matches in Ht, Hn. cbn [category_key] in Ht, Hn.
  destruct week_patterns_head as [(pt & Et) (pn & En)].
  rewrite Et in Ht. rewrite En in Hn. cbn [_matches_patterns] in Ht, Hn.
  split.
  - destruct (truthy (search RE_NEXT_WEEK (Text.lower q) true)) eqn:E;
      [discriminate|].
    apply not_truthy in E.
    rewrite <- E, <- (lower_idem q) at 1.
    now rewrite (search_lowered RE_NEXT_WEEK (Text.lower q)).
  - destruct (truthy (search RE_THIS_WEEK (Text.lower q) true)) eqn:E;
      [discriminate|].
    apply not_truthy in E.
    rewrite <- E, <- (lower_idem q) at 1.
    now rewrite (search_lowered RE_THIS_WEEK (Text.lower q)).
Qed.

End Shortcut.

(** X4.  When [parse_query] reaches its [upcoming] branch, the lower-case
    query contains neither "next week" nor "this week" -- the categories
    this_week and next_week come first -- so the shortcut that makes
    [_extract_number_of_days] return 7 for these phrases is never taken
    there: the number of days is the one of "next N days", else of
    "N days", else 7. *)
Theorem week_shortcut_unreachable (h : Host) (q : string) :
  classify (init h) q = upcoming ->
  search RE_NEXT_WEEK (Text.lower q) false = None
  /\ search RE_THIS_WEEK (Text.lower q) false = None
  /\ _extract_number_of_days (Text.lower q)
     = match search RE_NEXT_N_DAYS (Text.lower q) false with
       | Some m => int (group1 (Text.lower q) m)
       | None =>
           match search RE_N_DAYS (Text.lower q) false with
           | Some m => int (group1 (Text.lower q) m)
           | None => Returns 7
           end
       end.
Proof.
  intros H. destruct (upcoming_no_week h q H) as [Hn Ht].
  split; [exact Hn | split; [exact Ht|]].
  unfold _extract_number_of_days. now rewrite Hn, Ht.
Qed.

Lemma week_shortcut_unreachable_witness :
  search RE_NEXT_WEEK (Text.lower "Upcoming 3 days") false = None
  /\ search RE_THIS_WEEK (Text.lower "Upcoming 3 days") false = None
  /\ _extract_number_of_days (Text.lower "Upcoming 3 days")
     = match search RE_NEXT_N_DAYS (Text.lower "Upcoming 3 days") false with
       | Some m => int (group1 (Text.lower "Upcoming 3 days") m)
       | None =>
           match search RE_N_DAYS (Text.lower "Upcoming 3 days") false with
           | Some m => int (group1 (Text.lower "Upcoming 3 days") m)
           | None => Returns 7
           end
       end.
Proof.
  apply (week_shortcut_unreachable sample_host "Upcoming 3 days").
  vm_compute. reflexivity.
Defined.

Section Fallback.

Variable host : Host.
Variable self : CalendarQueryParser.

Lemma same_answer_bind {A : Type} (q : string) (h1 h2 : option string)
    (m : M A) (f1 f2 : A -> M ParsedQuery) (c : Clock) :
  (forall a c', same_answer q h1 h2 (f1 a c') (f2 a c')) ->
  same_answer q h1 h2 (bind m f1 c) (bind m f2 c).
Proof.
  intros H. unfold bind. destruct (m c) as [[a|e] c'].
  - apply H.
  - now split.
Qed.

Lemma same_answer_ret (i : Intent) (h1 h2 : option string) (q : string)
    (c : Clock) :
  same_answer q h1 h2 (ret (result i h1 q) c) (ret (result i h2 q) c).
Proof. now repeat split. Qed.

Lemma weekday_or_default_hint (query text : string)
    (h1 h2 : option string) (now : Datetime.datetime) (c : Clock) :
  same_answer query h1 h2 (weekday_or_default self query text h1 now c)
    (weekday_or_default self query text h2 now c).
Proof.
  unfold weekday_or_default.
  destruct (_extract_day_of_week self text) as [day|].
  - apply same_answer_bind. intros d c'. apply same_answer_ret.
  - apply same_answer_ret.
Qed.

Lemma dispatch_hint (cat : category) (query : string)
    (h1 h2 : option string) (z : Datetime.tzinfo)
    (now : Datetime.datetime) (c : Clock) :
  same_answer query h1 h2 (dispatch host self cat query h1 z now c)
    (dispatch host self cat query h2 z now c).
Proof.
  destruct cat; unfold dispatch.
  - apply same_answer_ret.
  - apply same_answer_bind. intros d c'. apply same_answer_ret.
  - apply same_answer_bind. intros d c'. apply same_answer_ret.
  - apply same_answer_bind. intros d c'. apply same_answer_bind.
    intros e c''. apply same_answer_ret.
  - apply same_answer_bind. intros d c'. apply same_answer_bind.
    intros e c''. apply same_answer_ret.
  - apply same_answer_bind. intros d c'. apply same_answer_bind.
    intros m c''. apply same_answer_ret.
  - apply same_answer_bind. intros [d|] c'.
    + apply same_answer_ret.
    + apply weekday_or_default_hint.
  - apply weekday_or_default_hint.
Qed.

(** Hints that resolve to the same zone give the same result, up to the
    hint the result echoes. *)
Lemma parse_query_hint (query : string) (h1 h2 : option string)
    (c : Clock) :
  resolve_timezone host self h1 = resolve_timezone host self h2 ->
  same_answer query h1 h2 (parse_query host self query h1 c)
    (parse_query host self query h2 c).
Proof.
  intros E. rewrite !parse_query_dispatch. unfold now_of. rewrite E.
  apply dispatch_hint.
Qed.

End Fallback.

(** X1.  Time zone fallback.  A hint that is empty or unknown to the zone
    database resolves, like no hint, to the default zone without raising;
    [parse_query] then leaves the clock as with no hint and gives the same
    outcome -- the same intent with the same dates and numbers, or the same
    exception -- the two results differing only in the hint they echo. *)
Theorem unknown_zone_falls_back (h : Host) (self : CalendarQueryParser)
    (q name : string) (c : Clock) :
  name = EmptyString \/ tzdb h name = None ->
  _parse_timezone h self (Some name) c = (Returns (default_timezone self), c)
  /\ _parse_timezone h self None c = (Returns (default_timezone self), c)
  /\ snd (parse_query h self q (Some name) c)
     = snd (parse_query h self q None c)
  /\ match fst (parse_query h self q (Some name) c),
           fst (parse_query h self q None c) with
     | Returns pq, Returns pq0 =>
         intent pq = intent pq0
         /\ timezone pq = Some name /\ timezone pq0 = None
         /\ original_query pq = q /\ original_query pq0 = q
     | Raises e, Raises e0 => e = e0
     | _, _ => False
     end.
Proof.
  intros Hn.
  assert (E : resolve_timezone h self (Some name) = default_timezone self).
  { destruct Hn as [-> | Hn]; [reflexivity|].
    cbn [resolve_timezone]. rewrite Hn. now destruct name. }
  split; [now rewrite parse_timezone_resolves, E|].
  split; [now rewrite parse_timezone_resolves|].
  exact (parse_query_hint h self q (Some name) None c E).
Qed.

Lemma unknown_zone_falls_back_witness :
  let c := frozen (instant 2025 8 13 15 30 0 0) in
  let self := init sample_host in
  _parse_timezone sample_host self (Some "Mars/Phobos") c
  = (Returns (default_timezone self), c)
  /\ _parse_timezone sample_host self None c
     = (Returns (default_timezone self), c)
  /\ snd (parse_query sample_host self "tomorrow" (Some "Mars/Phobos") c)
     = snd (parse_query sample_host self "tomorrow" None c)
  /\ match fst (parse_query sample_host self "tomorrow"
                  (Some "Mars/Phobos") c),
           fst (parse_query sample_host self "tomorrow" None c) with
     | Returns pq, Returns pq0 =>
         intent pq = intent pq0
         /\ timezone pq = Some "Mars/Phobos" /\ timezone pq0 = None
         /\ original_query pq = "tomorrow" /\ original_query pq0 = "tomorrow"
     | Raises e, Raises e0 => e = e0
     | _, _ => False
     end.
Proof.
  intros c self.
  apply (unknown_zone_falls_back sample_host self "tomorrow" "Mars/Phobos"
           c).
  right. reflexivity.
Defined.

Section WeekdayNames.

Lemma first_day_in (items : list (string * list regex)) (text d : string) :
  first_day items text = Some d -> In d (map fst items).
Proof.
  induction items as [|[d0 pats] items IH]; cbn [first_day map fst].
  - discriminate.
  - destruct (_matches_patterns text pats).
    + intros [= <-]. now left.
    + intros H. right. now apply IH.
Qed.

(** The keys of [day_patterns] are keys of [weekdays], each with its place
    in the week. *)
Lemma day_patterns_keys (h : Host) (d : string) :
  In d (map fst (day_patterns (init h))) ->
  exists t,
    weekdays_get weekdays (Text.lower d) = Some t
    /\ nth_error (map fst (day_patterns (init h))) (Z.to_nat t) = Some d.
Proof.
  cbn [init day_patterns map fst In].
  intros [<- | [<- | [<- | [<- | [<- | [<- | [<- | []]]]]]]];
    eexists; split; reflexivity.
Qed.

End WeekdayNames.

(** X5.  Every name [_extract_day_of_week] returns is a key of the table
    [weekdays] of [_get_next_weekday], with the number of its place in
    [day_patterns]: for such a name [_get_next_weekday] never takes the
    branch that returns the current date unchanged, but returns the
    midnight of that weekday, one to seven days ahead. *)
Theorem extracted_weekday_is_known (h : Host) (text d : string)
    (now : Datetime.datetime) :
  _extract_day_of_week (init h) text = Some d ->
  0 < Datetime.toordinal now <= Datetime.MAXORDINAL - 7 ->
  exists t r,
    weekdays_get weekdays (Text.lower d) = Some t
    /\ nth_error (map fst (day_patterns (init h))) (Z.to_nat t) = Some d
    /\ _get_next_weekday now d = Returns r
    /\ Datetime.weekday r = t
    /\ Datetime.toordinal now < Datetime.toordinal r
       <= Datetime.toordinal now + 7
    /\ midnight r.
Proof.
  intros Hd Hr.
  destruct (day_patterns_keys h d (first_day_in _ _ _ Hd)) as (t & Ht & Hn).
  destruct (get_next_weekday_spec now d t Ht Hr)
    as (r & Hg & _ & Ho & Hw & Hm & _).
  exists t, r. exact (conj Ht (conj Hn (conj Hg (conj Hw (conj Ho Hm))))).
Qed.

Lemma extracted_weekday_is_known_witness :
  exists t r,
    weekdays_get weekdays (Text.lower "friday") = Some t
    /\ nth_error (map fst (day_patterns (init sample_host))) (Z.to_nat t)
       = Some "friday"
    /\ _get_next_weekday (date_at 2025 8 13 15 30 0 0 Pytz.utc) "friday"
       = Returns r
    /\ Datetime.weekday r = t
    /\ Datetime.toordinal (date_at 2025 8 13 15 30 0 0 Pytz.utc)
       < Datetime.toordinal r
       <= Datetime.toordinal (date_at 2025 8 13 15 30 0 0 Pytz.utc) + 7
    /\ midnight r.
Proof.
  apply (extracted_weekday_is_known sample_host "lunch on fri" "friday"
           (date_at 2025 8 13 15 30 0 0 Pytz.utc)).
  - vm_compute. reflexivity.
  - vm_compute. split; [reflexivity | discriminate].
Defined.



Section Normalised.

Variable host : Host.

Lemma midnight_replace_time (d : Datetime.datetime) :
  midnight (Datetime.replace_time d 0 0 0 0).
Proof. now repeat split. Qed.

Lemma last_instant_replace_time (d : Datetime.datetime) :
  last_instant (Datetime.replace_time d 23 59 59 999999).
Proof. now repeat split. Qed.

Lemma build_naive (y m d : Z) (r : Datetime.datetime) :
  Dateutil.build y m d = Returns r -> Datetime.tz r = None.
Proof.
  unfold Dateutil.build. destruct (_ && _); [|discriminate].
  now intros [= <-].
Qed.

(** What [dateutil] returns for the literals of the parser carries no
    zone. *)
Lemma parse_naive (s : string) (c c' : Clock) (r : Datetime.datetime) :
  Dateutil.parse host s c = (Returns r, c') -> Datetime.tz r = None.
Proof.
  unfold Dateutil.parse, Datetime.now_naive, read_clock, ret, lift,
    raise, bind. cbv beta iota.
  destruct (Dateutil.month_day_literal s) as [[[m d] [y|]]|].
  - intros [= H _]. exact (build_naive _ _ _ _ H).
  - intros [= H _]. exact (build_naive _ _ _ _ H).
  - match goal with
    | |- context [other_literal host s ?x] =>
        destruct (other_literal host s x) as [[[y m] d]|]
    end.
    + intros [= H _]. exact (build_naive _ _ _ _ H).
    + discriminate.
Qed.

Lemma replace_year_tz (d d' : Datetime.datetime) (y : Z) :
  Datetime.replace_year d y = Returns d' -> Datetime.tz d' = Datetime.tz d.
Proof.
  unfold Datetime.replace_year. destruct (_ && _); [|discriminate].
  now intros [= <-].
Qed.

Lemma parse_literal_zone (s : string) (z : Datetime.tzinfo) (c c' : Clock)
    (d : Datetime.datetime) :
  parse_literal host s z c = (Returns d, c') ->
  midnight d /\ Datetime.tz d = Some z.
Proof.
  unfold parse_literal, bind at 1.
  destruct (Dateutil.parse host s c) as [[d0|e0] c0] eqn:Ep; [|discriminate].
  pose proof (parse_naive _ _ _ _ Ep) as Hn.
  unfold bind at 1.
  destruct (Datetime.year d0 =? 1900).
  - unfold Datetime.now, read_clock, ret, lift, bind. cbv beta iota.
    destruct (Datetime.replace_year d0 _) as [d1|e1] eqn:Er; [|discriminate].
    rewrite (replace_year_tz _ _ _ Er), Hn.
    intros [= <- _]. split; [apply midnight_replace_time | reflexivity].
  - unfold ret. rewrite Hn.
    intros [= <- _]. split; [apply midnight_replace_time | reflexivity].
Qed.

Lemma extract_from_zone (pats : list regex) (text : string)
    (z : Datetime.tzinfo) (d : Datetime.datetime) :
  forall c c', extract_from host pats text z c = (Returns (Some d), c') ->
  midnight d /\ Datetime.tz d = Some z.
Proof.
  induction pats as [|pat pats IH]; intros c c'; cbn [extract_from].
  - discriminate.
  - destruct (search pat text true) as [m|]; [|apply IH].
    unfold try_except, bind at 1.
    destruct (parse_literal host (group1 text m) z c)
      as [[d0|e0] c0] eqn:Ep.
    + unfold ret. intros [= <- _]. exact (parse_literal_zone _ _ _ _ _ Ep).
    + destruct (caught e0); [apply IH | discriminate].
Qed.

Lemma known_weekday_midnight (now r : Datetime.datetime) (day : string)
    (t : Z) :
  weekdays_get weekdays (Text.lower day) = Some t ->
  _get_next_weekday now day = Returns r ->
  midnight r /\ Datetime.tz r = Datetime.tz now.
Proof.
  intros Ht H. split; [|exact (get_next_weekday_tz _ _ _ H)].
  unfold _get_next_weekday in H. rewrite Ht in H.
  destruct (Datetime.add_days now _) as [d0|]; [|discriminate].
  injection H as <-. apply midnight_replace_time.
Qed.

Lemma weekday_or_default_normalised (query text : string)
    (hint : option string) (z : Datetime.tzinfo) (now : Datetime.datetime)
    (c c' : Clock) (pq : ParsedQuery) :
  Datetime.tz now = Some z ->
  weekday_or_default (init host) query text hint now c = (Returns pq, c') ->
  normalised z pq.
Proof.
  intros Hz. unfold weekday_or_default.
  destruct (_extract_day_of_week (init host) text) as [day|] eqn:Ed.
  - destruct (day_patterns_keys host day (first_day_in _ _ _ Ed))
      as (t & Ht & _).
    destruct (_get_next_weekday now day) as [r|e] eqn:Eg; [|discriminate].
    unfold bind, lift, ret. intros [= <- _].
    destruct (known_weekday_midnight _ _ _ _ Ht Eg) as [Hm Htz].
    unfold normalised. cbn [intent result]. split; [exact Hm|].
    now rewrite Htz.
  - unfold ret. intros [= <- _]. exact I.
Qed.

Lemma dispatch_normalised (cat : category) (query : string)
    (hint : option string) (z : Datetime.tzinfo)
    (now : Datetime.datetime) (c c' : Clock) (pq : ParsedQuery) :
  Datetime.tz now = Some z ->
  dispatch host (init host) cat query hint z now c = (Returns pq, c') ->
  normalised z pq.
Proof.
  intros Hz. destruct cat; unfold dispatch.
  - unfold ret. intros [= <- _]. unfold normalised. cbn [intent result].
    split; [apply midnight_replace_time | exact Hz].
  - destruct (Datetime.add_days now 1) as [d|e] eqn:Ed; [|discriminate].
    unfold bind, lift, ret. intros [= <- _].
    unfold normalised. cbn [intent result].
    split; [apply midnight_replace_time|].
    cbn [Datetime.replace_time Datetime.tz].
    now rewrite (add_days_tz _ _ _ Ed).
  - destruct (Datetime.add_days now (-1)) as [d|e] eqn:Ed; [|discriminate].
    unfold bind, lift, ret. intros [= <- _].
    unfold normalised. cbn [intent result].
    split; [apply midnight_replace_time|].
    cbn [Datetime.replace_time Datetime.tz].
    now rewrite (add_days_tz _ _ _ Ed).
  - destruct (Datetime.add_days now (- Datetime.weekday now)) as [d|e]
      eqn:Ed; [|discriminate].
    destruct (Datetime.add_days d 6) as [d'|e'] eqn:Ee;
      [|unfold bind, lift; rewrite Ee; discriminate].
    unfold bind, lift. rewrite Ee. unfold ret. intros [= <- _].
    unfold normalised. cbn [intent result].
    split; [apply midnight_replace_time|].
    split; [apply last_instant_replace_time|].
    cbn [Datetime.replace_time Datetime.tz].
    rewrite (add_days_tz _ _ _ Ee), (add_days_tz _ _ _ Ed).
    now split.
  - destruct (Datetime.add_days now (7 - Datetime.weekday now)) as [d|e]
      eqn:Ed; [|discriminate].
    destruct (Datetime.add_days d 6) as [d'|e'] eqn:Ee;
      [|unfold bind, lift; rewrite Ee; discriminate].
    unfold bind, lift. rewrite Ee. unfold ret. intros [= <- _].
    unfold normalised. cbn [intent result].
    split; [apply midnight_replace_time|].
    split; [apply last_instant_replace_time|].
    cbn [Datetime.replace_time Datetime.tz].
    rewrite (add_days_tz _ _ _ Ee), (add_days_tz _ _ _ Ed).
    now split.
  - unfold bind, lift, ret.
    destruct (_extract_number_of_days (Text.lower query)) as [d|];
      [|discriminate].
    destruct (_extract_max_results (Text.lower query)) as [m|];
      [|discriminate].
    intros [= <- _]. exact I.
  - unfold _extract_specific_date, bind at 1.
    destruct (extract_from host date_patterns query z c)
      as [[[d|]|e] c0] eqn:Ex; [| |discriminate].
    + unfold ret. intros [= <- _]. unfold normalised. cbn [intent result].
      exact (extract_from_zone _ _ _ _ _ _ Ex).
    + now apply weekday_or_default_normalised.
  - now apply weekday_or_default_normalised.
Qed.

End Normalised.

(** X6.  Every date in a result of [parse_query] is in the resolved zone:
    the date of a [specific_date] intent and the start of a [date_range]
    are at 00:00:00.000000, the end of a range at 23:59:59.999999. *)
Theorem result_dates_normalised (h : Host) (q : string)
    (hint : option string) (c : Clock) (pq : ParsedQuery) :
  fst (parse_query h (init h) q hint c) = Returns pq ->
  normalised (resolve_timezone h (init h) hint) pq.
Proof.
  rewrite parse_query_dispatch.
  destruct (dispatch _ _ _ _ _ _ _ _) as [o c'] eqn:Ed.
  cbn [fst]. intros ->.
  refine (dispatch_normalised h _ _ _ _ _ _ _ _ _ Ed).
  unfold now_of. apply tz_wall_clock.
Qed.

Lemma result_dates_normalised_witness :
  normalised (resolve_timezone sample_host (init sample_host)
                (Some "Pacific/Kiritimati"))
    (result
       (specific_date (date_at 2025 8 15 0 0 0 0 kiritimati))
       (Some "Pacific/Kiritimati") "lunch on friday").
Proof.
  apply (result_dates_normalised sample_host "lunch on friday"
           (Some "Pacific/Kiritimati")
           (frozen (instant 2025 8 13 15 30 0 0))).
  vm_compute. reflexivity.
Defined.


Section Readings.

Variable host : Host.
Variable self : CalendarQueryParser.

Lemma advanced_refl (c : Clock) : advanced 0 0 c c.
Proof. split; [reflexivity | lia]. Qed.

Lemma advanced_after_now (c : Clock) : advanced 1 1 c (after_now c).
Proof. split; [reflexivity | cbn; lia]. Qed.

Lemma advanced_trans (a b a' b' : nat) (c c' c'' : Clock) :
  advanced a b c c' -> advanced a' b' c' c'' ->
  advanced (a + a') (b + b') c c''.
Proof. intros [T R] [T' R']. split; [congruence | lia]. Qed.

Lemma advanced_weaken (a b a' b' : nat) (c c' : Clock) :
  (a' <= a)%nat -> (b <= b')%nat ->
  advanced a b c c' -> advanced a' b' c c'.
Proof. intros Ha Hb [T R]. split; [exact T | lia]. Qed.

(** [dateutil] reads the clock once, for its default date. *)
Lemma parse_reads (s : string) (c : Clock) :
  snd (Dateutil.parse host s c) = after_now c.
Proof.
  unfold Dateutil.parse, Datetime.now_naive, read_clock, ret, lift,
    raise, bind. cbv beta iota.
  destruct (Dateutil.month_day_literal s) as [[[m d] [y|]]|];
    try reflexivity.
  match goal with
  | |- context [other_literal host s ?x] =>
      destruct (other_literal host s x) as [[[y m] d]|]
  end; reflexivity.
Qed.

(** The body of the [try] reads the clock once or twice. *)
Lemma parse_literal_reads (s : string) (z : Datetime.tzinfo) (c : Clock) :
  advanced 1 2 c (snd (parse_literal host s z c)).
Proof.
  unfold parse_literal, bind at 1.
  pose proof (parse_reads s c) as Hp.
  destruct (Dateutil.parse host s c) as [[d0|e0] c0]; cbn [snd] in Hp;
    subst c0.
  - unfold bind at 1. destruct (Datetime.year d0 =? 1900).
    + unfold Datetime.now, read_clock, ret, lift, bind. cbv beta iota.
      destruct (Datetime.replace_year d0 _) as [d1|e1]; cbn [snd];
        (split; [reflexivity | cbn; lia]).
    + unfold ret. cbn [snd]. split; [reflexivity | cbn; lia].
  - cbn [snd]. split; [reflexivity | cbn; lia].
Qed.

Lemma extract_from_reads (pats : list regex) (text : string)
    (z : Datetime.tzinfo) :
  forall c,
  advanced 0 (2 * List.length pats) c
    (snd (extract_from host pats text z c)).
Proof.
  induction pats as [|pat pats IH]; intros c; cbn [extract_from].
  - apply advanced_refl.
  - destruct (search pat text true) as [m|].
    + unfold try_except, bind at 1.
      pose proof (parse_literal_reads (group1 text m) z c) as Hp.
      destruct (parse_literal host (group1 text m) z c) as [[d|e] c0];
        cbn [snd] in Hp.
      * unfold ret. cbn [snd].
        apply (advanced_weaken 1 2); [lia | cbn [List.length]; lia | exact Hp].
      * destruct (caught e).
        -- apply (advanced_weaken (1 + 0) (2 + 2 * List.length pats));
             [lia | cbn [List.length]; lia|].
           exact (advanced_trans _ _ _ _ _ _ _ Hp (IH c0)).
        -- cbn [snd].
           apply (advanced_weaken 1 2);
             [lia | cbn [List.length]; lia | exact Hp].
    + apply (advanced_weaken 0 (2 * List.length pats));
        [lia | cbn [List.length]; lia | apply IH].
Qed.

Lemma bind_lift_clock {A B : Type} (o : outcome A) (f : A -> M B)
    (c : Clock) :
  (forall a, snd (f a c) = c) -> snd (bind (lift o) f c) = c.
Proof.
  intros H. destruct o as [a|e]; unfold bind, lift; [apply H | reflexivity].
Qed.

Lemma weekday_or_default_clock (query text : string)
    (hint : option string) (now : Datetime.datetime) (c : Clock) :
  snd (weekday_or_default self query text hint now c) = c.
Proof.
  unfold weekday_or_default.
  destruct (_extract_day_of_week self text) as [day|]; [|reflexivity].
  apply bind_lift_clock. reflexivity.
Qed.

Lemma dispatch_reads (cat : category) (query : string)
    (hint : option string) (z : Datetime.tzinfo)
    (now : Datetime.datetime) (c : Clock) :
  match cat with
  | specific_date_literal =>
      advanced 0 12 c (snd (dispatch host self cat query hint z now c))
  | _ => snd (dispatch host self cat query hint z now c) = c
  end.
Proof.
  destruct cat; unfold dispatch; try reflexivity;
    try (apply bind_lift_clock; intros d; try reflexivity;
         apply bind_lift_clock; reflexivity).
  - unfold _extract_specific_date, bind at 1.
    pose proof (extract_from_reads date_patterns query z c) as Hx.
    destruct (extract_from host date_patterns query z c)
      as [[[d|]|e] c0]; cbn [snd] in Hx |- *; try exact Hx.
    now rewrite weekday_or_default_clock.
  - apply weekday_or_default_clock.
Qed.

End Readings.

(** X7.  [parse_query] reads the system clock at least once and at most
    thirteen times -- once for [now], and at most twice for each of the six
    date patterns -- and exactly once when the category of the query is not
    specific_date. *)
Theorem clock_readings_bounded (h : Host) (self : CalendarQueryParser)
    (q : string) (hint : option string) (c : Clock) :
  advanced 1 13 c (snd (parse_query h self q hint c))
  /\ match classify self q with
     | specific_date_literal => True
     | _ => snd (parse_query h self q hint c) = after_now c
     end.
Proof.
  rewrite parse_query_dispatch.
  pose proof (dispatch_reads h self (classify self q) q hint
                (resolve_timezone h self hint) (now_of h self hint c)
                (after_now c)) as H.
  destruct (classify self q);
    try (rewrite H; split; [|reflexivity];
         apply (advanced_weaken 1 1); [lia | lia | apply advanced_after_now]).
  split; [|exact I].
  exact (advanced_trans 1 1 0 12 _ _ _ (advanced_after_now c) H).
Qed.

(** C2, amended.  [parse_query] has no parameter for the time: it reads
    the system clock itself.  Its first reading, taken in the resolved
    zone, is the [now] it dispatches on; the only further readings are
    those of the date literals it tries, one by [dateutil] for its default
    date and at most one more for each literal, so that it reads the clock
    one to thirteen times, and once only when the category of the query is
    not specific_date.  For a fixed query and hint, two runs to which the
    clock gives the same next thirteen readings -- the same first reading,
    when the category is not specific_date -- return the same output after
    the same number of readings. *)
Theorem parse_query_deterministic (h : Host) (self : CalendarQueryParser)
    (q : string) (hint : option string) (c1 c2 : Clock) :
  (agree_upto 13 c1 c2 ->
   fst (parse_query h self q hint c1) = fst (parse_query h self q hint c2)
   /\ exists j : nat,
        (1 <= j <= 13)%nat
        /\ reads (snd (parse_query h self q hint c1)) = (reads c1 + j)%nat
        /\ reads (snd (parse_query h self q hint c2)) = (reads c2 + j)%nat
        /\ (classify self q <> specific_date_literal -> j = 1%nat))
  /\ (classify self q <> specific_date_literal ->
      agree_upto 1 c1 c2 ->
      fst (parse_query h self q hint c1) = fst (parse_query h self q hint c2))
  /\ parse_query h self q hint c1
     = dispatch h self (classify self q) q hint
         (resolve_timezone h self hint)
         (Datetime.wall_clock (resolve_timezone h self hint) true
            (ticks c1 (reads c1)))
         (after_now c1)
  /\ (forall s, snd (Dateutil.parse h s c1) = after_now c1)
  /\ (forall s z, advanced 1 2 c1 (snd (parse_literal h s z c1))).
Proof.
  split; [|split; [|split; [|split]]].
  - intros H.
    destruct (within_parse_query h self q hint c1 c2 H)
      as (E & j & Hj & _ & R1 & _ & R2).
    split; [exact E|]. exists j.
    assert (H1 : (reads c1 + 1 <= reads (snd (parse_query h self q hint c1)))%nat
                 /\ (classify self q <> specific_date_literal ->
                     reads (snd (parse_query h self q hint c1))
                     = (reads c1 + 1)%nat)).
    { rewrite parse_query_dispatch.
      pose proof (dispatch_reads h self (classify self q) q hint
                    (resolve_timezone h self hint) (now_of h self hint c1)
                    (after_now c1)) as Hd.
      destruct (classify self q);
        try (rewrite Hd; cbn [after_now reads]; split; [lia|];
             intros _; lia).
      destruct Hd as [_ Hd]. cbn [after_now reads] in Hd.
      split; [lia | congruence]. }
    destruct H1 as [Hlo Hone].
    split; [lia|]. split; [exact R1|]. split; [exact R2|].
    intros Hc. specialize (Hone Hc). lia.
  - intros Hc H. rewrite !parse_query_dispatch. unfold now_of.
    pose proof (H 0%nat) as H0. rewrite !Nat.add_0_r in H0.
    rewrite <- H0 by lia.
    apply (within_dispatch_plain h self _ q hint _ _ Hc).
    intros n Hn. lia.
  - apply parse_query_dispatch.
  - intros s. apply parse_reads.
  - intros s z. apply parse_literal_reads.
Qed.

Lemma parse_query_deterministic_witness :
  fst (parse_query sample_host (init sample_host) "meet on march 5" None
         (frozen (instant 2025 12 31 23 59 59 999999)))
  = fst (parse_query sample_host (init sample_host) "meet on march 5" None
           (thirteen_then (instant 2025 12 31 23 59 59 999999)
              (instant 2026 1 1 0 0 0 1)))
  /\ exists j : nat,
       (1 <= j <= 13)%nat
       /\ reads
            (snd (parse_query sample_host (init sample_host)
                    "meet on march 5" None
                    (frozen (instant 2025 12 31 23 59 59 999999))))
          = (reads (frozen (instant 2025 12 31 23 59 59 999999)) + j)%nat
       /\ reads
            (snd (parse_query sample_host (init sample_host)
                    "meet on march 5" None
                    (thirteen_then (instant 2025 12 31 23 59 59 999999)
                       (instant 2026 1 1 0 0 0 1))))
          = (reads
               (thirteen_then (instant 2025 12 31 23 59 59 999999)
                  (instant 2026 1 1 0 0 0 1)) + j)%nat
       /\ (classify (init sample_host) "meet on march 5"
           <> specific_date_literal -> j = 1%nat).
Proof.
  apply (proj1 (parse_query_deterministic sample_host (init sample_host)
                  "meet on march 5" None
                  (frozen (instant 2025 12 31 23 59 59 999999))
                  (thirteen_then (instant 2025 12 31 23 59 59 999999)
                     (instant 2026 1 1 0 0 0 1)))).
  intros n Hn. unfold thirteen_then, frozen. cbn [ticks reads Nat.add].
  apply Nat.ltb_lt in Hn. now rewrite Hn.
Defined.

Section Year1900.

Variable host : Host.

Lemma build_valid (y m d : Z) :
  1 <= y <= 9999 -> 1 <= m <= 12 -> 1 <= d <= Datetime.days_in_month y m ->
  Dateutil.build y m d
  = Returns {| Datetime.year := y; Datetime.month := m; Datetime.day := d;
               Datetime.hour := 0; Datetime.minute := 0;
               Datetime.second := 0; Datetime.microsecond := 0;
               Datetime.tz := None |}.
Proof.
  intros [Y1 Y2] [M1 M2] [D1 D2].
  unfold Dateutil.build, Datetime.MINYEAR, Datetime.MAXYEAR.
  apply Z.leb_le in Y1, Y2, M1, M2, D1, D2.
  now rewrite Y1, Y2, M1, M2, D1, D2.
Qed.

(** [dateutil] on a month, a day and a year: no default is used. *)
Lemma parse_with_year (s : string) (m d y : Z) (c : Clock) :
  Dateutil.month_day_literal s = Some (m, d, Some y) ->
  Dateutil.parse host s c = (Dateutil.build y m d, after_now c).
Proof.
  intros H.
  unfold Dateutil.parse, Datetime.now_naive, read_clock, ret, lift, bind.
  cbv beta iota. now rewrite H.
Qed.

Lemma parse_literal_1900 (s : string) (z : Datetime.tzinfo) (c : Clock)
    (m d y : Z) :
  Dateutil.month_day_literal s = Some (m, d, Some 1900) ->
  1 <= m <= 12 -> 1 <= d <= Datetime.days_in_month 1900 m ->
  y = Datetime.year (Datetime.wall_clock z true (ticks c (S (reads c)))) ->
  1 <= y <= 9999 -> d <= Datetime.days_in_month y m ->
  parse_literal host s z c
  = (Returns (date_at y m d 0 0 0 0 z), after_now (after_now c)).
Proof.
  intros Hs Hm Hd Hy Hyr Hdy. unfold parse_literal.
  rewrite (bind_returns _ _ c (after_now c)
             {| Datetime.year := 1900; Datetime.month := m;
                Datetime.day := d; Datetime.hour := 0;
                Datetime.minute := 0; Datetime.second := 0;
                Datetime.microsecond := 0; Datetime.tz := None |}).
  2:{ rewrite (parse_with_year s m d 1900 c Hs).
      rewrite build_valid; [reflexivity | lia | exact Hm | exact Hd]. }
  cbn [Datetime.year]. change (1900 =? 1900) with true. cbv iota.
  unfold Datetime.now, read_clock, after_now, bind, ret, lift.
  cbv beta iota. cbn [ticks reads]. rewrite <- Hy. clear Hy.
  unfold Datetime.replace_year, Datetime.MINYEAR, Datetime.MAXYEAR.
  cbn [Datetime.month Datetime.day].
  destruct Hyr as [Y1 Y2]. destruct Hm as [M1 M2]. destruct Hd as [D1 _].
  apply Z.leb_le in Y1, Y2, M1, M2, D1, Hdy.
  rewrite Y1, Y2, M1, M2, D1, Hdy. reflexivity.
Qed.

End Year1900.

(** X8.  A literal that spells the year 1900 out is taken for a literal
    without year: [dateutil] returns the year 1900, the guard
    [year == 1900] fires, and the year becomes the current year of the
    zone, read from the clock a second time.  The day has to exist in that
    year. *)
Theorem explicit_year_1900_is_replaced (h : Host) (s : string)
    (z : Datetime.tzinfo) (c : Clock) (m d : Z) :
  Dateutil.month_day_literal s = Some (m, d, Some 1900) ->
  1 <= m <= 12 -> 1 <= d <= Datetime.days_in_month 1900 m ->
  1 <= Datetime.year (Datetime.wall_clock z true (ticks c (S (reads c))))
    <= 9999 ->
  d <= Datetime.days_in_month
         (Datetime.year
            (Datetime.wall_clock z true (ticks c (S (reads c))))) m ->
  parse_literal h s z c
  = (Returns
       (date_at
          (Datetime.year
             (Datetime.wall_clock z true (ticks c (S (reads c)))))
          m d 0 0 0 0 z),
     after_now (after_now c)).
Proof.
  intros Hs Hm Hd Hy Hdy.
  now apply (parse_literal_1900 h s z c m d _ Hs Hm Hd eq_refl).
Qed.

Lemma explicit_year_1900_is_replaced_witness :
  parse_literal sample_host "March 5, 1900" kiritimati
    (frozen (instant 2025 12 31 12 0 0 0))
  = (Returns
       (date_at
          (Datetime.year
             (Datetime.wall_clock kiritimati true
                (ticks (frozen (instant 2025 12 31 12 0 0 0))
                   (S (reads (frozen (instant 2025 12 31 12 0 0 0)))))))
          3 5 0 0 0 0 kiritimati),
     after_now (after_now (frozen (instant 2025 12 31 12 0 0 0)))).
Proof.
  apply (explicit_year_1900_is_replaced sample_host "March 5, 1900"
           kiritimati (frozen (instant 2025 12 31 12 0 0 0)) 3 5).
  - reflexivity.
  - lia.
  - vm_compute. split; discriminate.
  - vm_compute. split; discriminate.
  - vm_compute. discriminate.
Defined.


Section RelativeDays.

Variable host : Host.
Variable self : CalendarQueryParser.

Lemma add_days_overflow (d : Datetime.datetime) (k : Z) :
  Datetime.toordinal d + k <= 0
  \/ Datetime.MAXORDINAL < Datetime.toordinal d + k ->
  Datetime.add_days d k = Raises OverflowError.
Proof.
  intros H. unfold Datetime.add_days.
  destruct (Z.ltb_spec 0 (Datetime.toordinal d + k)); [|reflexivity].
  destruct (Z.leb_spec (Datetime.toordinal d + k) Datetime.MAXORDINAL);
    [lia | reflexivity].
Qed.

Lemma dispatch_relative_day (cat : category) (k : Z) (query : string)
    (hint : option string) (z : Datetime.tzinfo)
    (now : Datetime.datetime) (c : Clock) :
  day_offset cat = Some k ->
  0 < Datetime.toordinal now + k <= Datetime.MAXORDINAL ->
  exists d,
    dispatch host self cat query hint z now c
    = (Returns (result (specific_date d) hint query), c)
    /\ Datetime.toordinal d = Datetime.toordinal now + k
    /\ midnight d
    /\ Datetime.tz d = Datetime.tz now.
Proof.
  intros Hk Hr.
  destruct cat; try discriminate; injection Hk as <-; unfold dispatch.
  - exists (Datetime.replace_time now 0 0 0 0).
    split; [reflexivity|]. split; [|split].
    + change (Datetime.toordinal (Datetime.replace_time now 0 0 0 0))
        with (Datetime.toordinal now). lia.
    + apply midnight_replace_time.
    + reflexivity.
  - destruct (add_days_spec now 1 Hr) as (d & Hd & Ho & _ & _ & _ & _ & _ & Ht).
    run_bind Hd. exists (Datetime.replace_time d 0 0 0 0).
    split; [reflexivity|]. split; [exact Ho|].
    split; [apply midnight_replace_time | exact Ht].
  - destruct (add_days_spec now (-1) Hr)
      as (d & Hd & Ho & _ & _ & _ & _ & _ & Ht).
    run_bind Hd. exists (Datetime.replace_time d 0 0 0 0).
    split; [reflexivity|]. split; [exact Ho|].
    split; [apply midnight_replace_time | exact Ht].
Qed.

Lemma dispatch_relative_day_overflow (cat : category) (k : Z)
    (query : string) (hint : option string) (z : Datetime.tzinfo)
    (now : Datetime.datetime) (c : Clock) :
  day_offset cat = Some k -> k <> 0 ->
  Datetime.toordinal now + k <= 0
  \/ Datetime.MAXORDINAL < Datetime.toordinal now + k ->
  dispatch host self cat query hint z now c = (Raises OverflowError, c).
Proof.
  intros Hk H0 Hr.
  destruct cat; try discriminate; injection Hk as <-; unfold dispatch.
  - now destruct H0.
  - unfold bind, lift. now rewrite (add_days_overflow now 1 Hr).
  - unfold bind, lift. now rewrite (add_days_overflow now (-1) Hr).
Qed.

End RelativeDays.

(** X9.  The relative days.  For a query of category today, tomorrow or
    yesterday [parse_query] reads the clock once and returns the midnight,
    in the resolved zone, of the day 0, 1 or -1 days from the current day
    of that zone, provided that day is in the range of the calendar. *)
Theorem relative_day_offsets (h : Host) (self : CalendarQueryParser)
    (q : string) (hint : option string) (c : Clock) (k : Z) :
  day_offset (classify self q) = Some k ->
  0 < Datetime.toordinal (now_of h self hint c) + k <= Datetime.MAXORDINAL ->
  exists d,
    parse_query h self q hint c
    = (Returns (result (specific_date d) hint q), after_now c)
    /\ Datetime.toordinal d = Datetime.toordinal (now_of h self hint c) + k
    /\ midnight d
    /\ Datetime.tz d = Some (resolve_timezone h self hint).
Proof.
  intros Hk Hr. rewrite parse_query_dispatch.
  destruct (dispatch_relative_day h self _ k q hint
              (resolve_timezone h self hint) (now_of h self hint c)
              (after_now c) Hk Hr) as (d & Hd & Ho & Hm & Ht).
  exists d. split; [exact Hd|]. split; [exact Ho|]. split; [exact Hm|].
  rewrite Ht. unfold now_of. apply tz_wall_clock.
Qed.

Lemma relative_day_offsets_witness :
  exists d,
    parse_query sample_host (init sample_host) "What about YESTERDAY?"
      (Some "Pacific/Kiritimati") (frozen (instant 2025 12 31 12 0 0 0))
    = (Returns
         (result (specific_date d) (Some "Pacific/Kiritimati")
            "What about YESTERDAY?"),
       after_now (frozen (instant 2025 12 31 12 0 0 0)))
    /\ Datetime.toordinal d
       = Datetime.toordinal
           (now_of sample_host (init sample_host)
              (Some "Pacific/Kiritimati")
              (frozen (instant 2025 12 31 12 0 0 0))) + -1
    /\ midnight d
    /\ Datetime.tz d
       = Some (resolve_timezone sample_host (init sample_host)
                 (Some "Pacific/Kiritimati")).
Proof.
  apply (relative_day_offsets sample_host (init sample_host)
           "What about YESTERDAY?" (Some "Pacific/Kiritimati")
           (frozen (instant 2025 12 31 12 0 0 0)) (-1)).
  - vm_compute. reflexivity.
  - vm_compute. split; [reflexivity | discriminate].
Defined.

(** X10.  Nothing in [parse_query] handles the [OverflowError] of
    [timedelta] arithmetic: "tomorrow" on the last day of the calendar and
    "yesterday" on its first day raise it. *)
Theorem relative_day_overflow (h : Host) (self : CalendarQueryParser)
    (q : string) (hint : option string) (c : Clock) (k : Z) :
  day_offset (classify self q) = Some k -> k <> 0 ->
  Datetime.toordinal (now_of h self hint c) + k <= 0
  \/ Datetime.MAXORDINAL < Datetime.toordinal (now_of h self hint c) + k ->
  parse_query h self q hint c = (Raises OverflowError, after_now c).
Proof.
  intros Hk H0 Hr. rewrite parse_query_dispatch.
  now apply (dispatch_relative_day_overflow h self _ k).
Qed.

Lemma relative_day_overflow_witness :
  parse_query sample_host (init sample_host) "tomorrow" None
    (frozen (instant 9999 12 31 12 0 0 0))
  = (Raises OverflowError, after_now (frozen (instant 9999 12 31 12 0 0 0))).
Proof.
  apply (relative_day_overflow sample_host (init sample_host) "tomorrow"
           None (frozen (instant 9999 12 31 12 0 0 0)) 1).
  - vm_compute. reflexivity.
  - discriminate.
  - right. vm_compute. reflexivity.
Defined.

(** X11.  [_get_next_weekday] applied to its own result, for the same
    weekday, returns the same weekday exactly seven days later: a target
    that is the current day counts as passed. *)
Theorem next_weekday_from_that_weekday (now : Datetime.datetime)
    (day : string) (t : Z) :
  weekdays_get weekdays (Text.lower day) = Some t ->
  0 < Datetime.toordinal now <= Datetime.MAXORDINAL - 14 ->
  exists d1 d2,
    _get_next_weekday now day = Returns d1
    /\ _get_next_weekday d1 day = Returns d2
    /\ Datetime.toordinal d2 = Datetime.toordinal d1 + 7
    /\ Datetime.weekday d2 = Datetime.weekday d1.
Proof.
  intros Ht Hr.
  destruct (get_next_weekday_spec now day t Ht)
    as (d1 & H1 & _ & Ho1 & Hw1 & _); [lia|].
  destruct (get_next_weekday_spec d1 day t Ht)
    as (d2 & H2 & Ho2 & _ & Hw2 & _); [lia|].
  exists d1, d2. split; [exact H1|]. split; [exact H2|].
  split; [|congruence].
  rewrite Ho2, Hw1, Z.sub_diag. reflexivity.
Qed.

Lemma next_weekday_from_that_weekday_witness :
  exists d1 d2,
    _get_next_weekday (date_at 2025 8 13 15 30 0 0 Pytz.utc) "Friday"
    = Returns d1
    /\ _get_next_weekday d1 "Friday" = Returns d2
    /\ Datetime.toordinal d2 = Datetime.toordinal d1 + 7
    /\ Datetime.weekday d2 = Datetime.weekday d1.
Proof.
  apply (next_weekday_from_that_weekday
           (date_at 2025 8 13 15 30 0 0 Pytz.utc) "Friday" 4).
  - reflexivity.
  - vm_compute. split; [reflexivity | discriminate].
Defined.

Section Availability.

Variable host : Host.
Variable library : Library.
Variable this : Service.GoogleCalendarService.

(** The scan of [check_availability] stops at the first event in the
    way. *)
Lemma check_availability_scan (events : list Service.Event) :
  Service.check_availability events = negb (existsb conflicting events).
Proof.
  induction events as [|e events IH]; cbn [Service.check_availability existsb];
    [reflexivity|].
  unfold conflicting at 1.
  destruct (Service.declined e); cbn [negb andb orb]; [exact IH|].
  destruct (Service.present (Service.dateTime (Service.start e))
            && Service.present (Service.dateTime (Service.end_ e)));
    cbn [orb negb]; [reflexivity | exact IH].
Qed.

Lemma existsb_permutation {A : Type} (f : A -> bool) (l l' : list A) :
  Permutation l l' -> existsb f l = existsb f l'.
Proof.
  induction 1 as [| x l l' _ IH | x y l | l l' l'' _ IH1 _ IH2];
    cbn [existsb].
  - reflexivity.
  - now rewrite IH.
  - now destruct (f x), (f y).
  - now rewrite IH1.
Qed.

(** [_format_datetime] never raises, and reads the clock at most once. *)
Lemma format_datetime_returns (s : string) (tz : Datetime.tzinfo)
    (c : Clock) :
  exists text c',
    Service._format_datetime host library s tz c = (Returns text, c')
    /\ advanced 0 1 c c'.
Proof.
  unfold Service._format_datetime, advanced.
  destruct (Service.has_char "T" s).
  - unfold Datetime.now_naive, bind, read_clock, ret. cbv beta iota.
    match goal with
    | |- context [shown ?l ?t ?d ?z] => destruct (shown l t d z)
    end; do 2 eexists;
      (split; [reflexivity | cbn [ticks reads]; split; [reflexivity | lia]]).
  - exists s, c. split; [reflexivity | split; [reflexivity | lia]].
Qed.

(** [_format_event] never raises, reads the clock at most twice, and
    formats every event that is in the way, whatever the zone. *)
Lemma format_event_returns (e : Service.Event) (tz : Datetime.tzinfo)
    (c : Clock) :
  exists r c',
    Service._format_event host library e tz c = (Returns r, c')
    /\ advanced 0 2 c c'
    /\ (conflicting e = true -> exists f, r = Some f).
Proof.
  unfold Service._format_event.
  destruct (Service.present (Service.date (Service.start e))).
  - do 2 eexists. split; [reflexivity|].
    split; [split; [reflexivity | lia] | intros _; eexists; reflexivity].
  - destruct (Service.present (Service.dateTime (Service.start e))) eqn:Hs.
    + unfold bind at 1.
      destruct (format_datetime_returns
                  (Service.get_or (Service.dateTime (Service.start e)) "")
                  tz c) as (t1 & c1 & -> & Ht1 & Hr1).
      unfold bind.
      destruct (Service.present (Service.dateTime (Service.end_ e))).
      * destruct (format_datetime_returns
                    (Service.get_or (Service.dateTime (Service.end_ e)) "")
                    tz c1) as (t2 & c2 & -> & Ht2 & Hr2).
        do 2 eexists. split; [reflexivity|].
        split; [split; [congruence | lia] | intros _; eexists; reflexivity].
      * do 2 eexists. split; [reflexivity|].
        split; [split; [exact Ht1 | lia] | intros _; eexists; reflexivity].
    + do 2 eexists. split; [reflexivity|].
      split; [split; [reflexivity | lia]|].
      unfold conflicting. rewrite Hs, andb_false_r. discriminate.
Qed.

(** The loop of [get_conflicting_events] never raises, reads the clock at
    most twice for each item, and keeps an item that is in the way. *)
Lemma conflicts_of_returns (events : list Service.Event)
    (tz : Datetime.tzinfo) :
  forall c : Clock,
  exists l c',
    Service.conflicts_of host library events tz c = (Returns l, c')
    /\ advanced 0 (2 * List.length events) c c'
    /\ (existsb conflicting events = true -> exists f l', l = f :: l').
Proof.
  induction events as [|e events IH]; intros c;
    cbn [existsb Service.conflicts_of List.length].
  - exists [], c. split; [reflexivity|].
    split; [split; [reflexivity | lia] | discriminate].
  - destruct (Service.declined e) eqn:Hd.
    + destruct (IH c) as (l & c' & -> & [Ht Hr] & Hl).
      exists l, c'. split; [reflexivity|].
      split; [split; [exact Ht | lia]|].
      unfold conflicting at 1. rewrite Hd. cbn [negb andb orb]. exact Hl.
    + unfold bind at 1.
      destruct (format_event_returns e tz c) as (r & c1 & -> & [Ht1 Hr1] & Hf).
      unfold bind.
      destruct (IH c1) as (l & c' & -> & [Ht Hr] & Hl).
      do 2 eexists. split; [reflexivity|].
      split; [split; [congruence | lia]|].
      intros H. apply orb_true_iff in H as [H|H].
      * destruct (Hf H) as (f & ->). now exists f, l.
      * destruct (Hl H) as (f & l' & ->).
        destruct r as [f0|]; [now exists f0, (f :: l') | now exists f, l'].
Qed.

(** The service's [_parse_timezone] never raises and does not read the
    clock. *)
Lemma service_parse_timezone (hint : option string) (c : Clock) :
  exists tz, Service._parse_timezone host this hint c = (Returns tz, c).
Proof.
  destruct hint as [[|a s]|]; cbn; try (eexists; reflexivity).
  unfold try_except, Pytz.timezone.
  destruct (tzdb host _); eexists; reflexivity.
Qed.

End Availability.

(** X12.  The scan of [check_availability] answers [False] exactly when
    some item is in the way -- not declined by the first attendee flagged
    ['self'], with a start and an end [dateTime] -- in whatever order the
    API lists the items. *)
Theorem availability_scan (events events' : list Service.Event) :
  Permutation events events' ->
  Service.check_availability events' = negb (existsb conflicting events).
Proof.
  intros H. rewrite check_availability_scan.
  now rewrite (existsb_permutation conflicting _ _ H).
Qed.

Lemma availability_scan_witness :
  Service.check_availability [review; holiday]
  = negb (existsb conflicting [holiday; review]).
Proof. apply availability_scan. apply perm_swap. Defined.

(** X13.  Whenever [check_availability] answers [False] on the items of
    the API, [get_conflicting_events] on the same items, in any order and
    for any time zone hint, returns a list that is not empty: it does not
    raise, and it reads the clock at most twice for each item, once for
    each time that [dateutil] parses for the display. *)
Theorem unavailable_lists_a_conflict (h : Host) (lib : Library)
    (this : Service.GoogleCalendarService)
    (events events' : list Service.Event) (hint : option string)
    (c : Clock) :
  Permutation events events' ->
  Service.check_availability events = false ->
  exists f l c',
    Service.get_conflicting_events h lib this events' hint c
    = (Returns (f :: l), c')
    /\ advanced 0 (2 * List.length events') c c'.
Proof.
  intros Hp Hc. rewrite check_availability_scan in Hc.
  apply negb_false_iff in Hc.
  rewrite (existsb_permutation conflicting _ _ Hp) in Hc.
  unfold Service.get_conflicting_events, bind.
  destruct (service_parse_timezone h this hint c) as (tz & ->).
  destruct (conflicts_of_returns h lib events' tz c) as (l & c' & -> & Ha & Hl).
  destruct (Hl Hc) as (f & l' & ->).
  now exists f, l', c'.
Qed.

Lemma unavailable_lists_a_conflict_witness :
  exists f l c',
    Service.get_conflicting_events sample_host sample_library
      (Service.init sample_host) [review; holiday] (Some "Mars/Phobos")
      (frozen (instant 2025 8 13 9 0 0 0))
    = (Returns (f :: l), c')
    /\ advanced 0 (2 * List.length [review; holiday])
         (frozen (instant 2025 8 13 9 0 0 0)) c'.
Proof.
  apply (unavailable_lists_a_conflict sample_host sample_library
           (Service.init sample_host) [holiday; review] [review; holiday]
           (Some "Mars/Phobos") (frozen (instant 2025 8 13 9 0 0 0))).
  - apply perm_swap.
  - reflexivity.
Defined.

Section QueryTool.

Variable host : Host.
Variable library : Library.

(** What [parse_query] returns echoes the hint and the query. *)
Lemma parse_query_echo (self : CalendarQueryParser) (q : string)
    (hint : option string) (c c' : Clock) (pq : ParsedQuery) :
  parse_query host self q hint c = (Returns pq, c') ->
  timezone pq = hint /\ original_query pq = q.
Proof.
  intros H.
  destruct (parse_query_hint host self q hint hint c eq_refl) as [_ Hm].
  rewrite H in Hm. cbn [fst] in Hm. tauto.
Qed.

Lemma parse_query_normalised (q : string) (hint : option string)
    (c c' : Clock) (pq : ParsedQuery) :
  parse_query host (init host) q hint c = (Returns pq, c') ->
  normalised (resolve_timezone host (init host) hint) pq
  /\ well_formed pq.
Proof.
  rewrite parse_query_dispatch. intros Hd. split.
  - refine (dispatch_normalised host _ _ _ _ _ _ _ _ _ Hd).
    unfold now_of. apply tz_wall_clock.
  - refine (dispatch_well_formed host _ _ _ _ _ _ _ _ _ _ Hd).
    apply tz_aware_now.
Qed.

End QueryTool.

(** X14.  The plan of the tool [query_calendar].  Without a query, or
    with the empty one, the handler replies with the error text and reads
    no clock.  Otherwise it awaits one call of the calendar service, whose
    [timezone] is the hint and whose [calendar_id] is the argument, both as
    given; the call asks for at most 50 results and for no negative number
    of days, its dates are at midnight (the end of a range at the last
    instant of its day) in the zone the parser resolved; and no events
    give the reply "No events found for your query.". *)
Theorem calendar_query_plan (h : Host) (lib : Library)
    (arguments : Server.Arguments) (c c' : Clock) (plan : Server.Plan) :
  Server._handle_calendar_query h lib (Server.init h) arguments c
  = (Returns plan, c') ->
  match plan with
  | Server.Reply text =>
      Service.get_or (Server.a_query arguments) "" = ""
      /\ text = "Error: Query cannot be empty"
      /\ c' = c
  | Server.Await call respond =>
      Service.get_or (Server.a_query arguments) "" <> ""
      /\ respond [] = "No events found for your query."
      /\ match call with
         | Server.get_upcoming_events max_results days_ahead tz cal =>
             tz = Server.a_timezone arguments
             /\ cal = Server.a_calendar_id arguments
             /\ 0 <= days_ahead /\ 0 <= max_results <= 50
         | Server.get_events_for_date date tz cal =>
             tz = Server.a_timezone arguments
             /\ cal = Server.a_calendar_id arguments
             /\ midnight date
             /\ Datetime.tz date
                = Some (resolve_timezone h (init h)
                          (Server.a_timezone arguments))
         | Server.get_events_in_range start_date end_date tz cal =>
             tz = Server.a_timezone arguments
             /\ cal = Server.a_calendar_id arguments
             /\ midnight start_date /\ last_instant end_date
             /\ Datetime.tz start_date
                = Some (resolve_timezone h (init h)
                          (Server.a_timezone arguments))
             /\ Datetime.tz end_date
                = Some (resolve_timezone h (init h)
                          (Server.a_timezone arguments))
         end
  end.
Proof.
  unfold Server._handle_calendar_query. cbv zeta.
  destruct (String.eqb_spec (Service.get_or (Server.a_query arguments) "")
              "") as [E|E].
  - unfold ret. intros [= <- <-]. now rewrite E.
  - cbn [Server.init Server.query_parser]. unfold bind.
    destruct (parse_query h (init h) _ _ c) as [[pq|e] c0] eqn:Ep;
      [|discriminate].
    destruct (parse_query_echo h _ _ _ _ _ _ Ep) as [Hz _].
    destruct (parse_query_normalised h _ _ _ _ _ Ep) as [Hn Hw].
    unfold normalised in Hn. unfold well_formed in Hw.
    destruct (intent pq) as [d m | d | s e0]; unfold ret;
      intros [= <- _]; (split; [exact E|]); (split; [reflexivity|]);
      (split; [exact Hz|]); (split; [reflexivity|]); tauto.
Qed.

Lemma calendar_query_plan_witness :
  Service.get_or
    (Server.a_query
       {| Server.a_query := Some "What about tomorrow?";
          Server.a_timezone := Some "Pacific/Kiritimati";
          Server.a_calendar_id := Some "work" |}) "" <> ""
  /\ Server._format_events_response sample_library []
       "What about tomorrow?"
       (result (specific_date (date_at 2025 8 15 0 0 0 0 kiritimati))
          (Some "Pacific/Kiritimati") "What about tomorrow?")
     = "No events found for your query."
  /\ Some "Pacific/Kiritimati"
     = Server.a_timezone
         {| Server.a_query := Some "What about tomorrow?";
            Server.a_timezone := Some "Pacific/Kiritimati";
            Server.a_calendar_id := Some "work" |}
  /\ Some "work"
     = Server.a_calendar_id
         {| Server.a_query := Some "What about tomorrow?";
            Server.a_timezone := Some "Pacific/Kiritimati";
            Server.a_calendar_id := Some "work" |}
  /\ midnight (date_at 2025 8 15 0 0 0 0 kiritimati)
  /\ Datetime.tz (date_at 2025 8 15 0 0 0 0 kiritimati)
     = Some (resolve_timezone sample_host (init sample_host)
               (Server.a_timezone
                  {| Server.a_query := Some "What about tomorrow?";
                     Server.a_timezone := Some "Pacific/Kiritimati";
                     Server.a_calendar_id := Some "work" |})).
Proof.
  apply (calendar_query_plan sample_host sample_library
           {| Server.a_query := Some "What about tomorrow?";
              Server.a_timezone := Some "Pacific/Kiritimati";
              Server.a_calendar_id := Some "work" |}
           (frozen (instant 2025 8 13 15 30 0 0))
           (after_now (frozen (instant 2025 8 13 15 30 0 0)))
           (Server.Await
              (Server.get_events_for_date
                 (date_at 2025 8 15 0 0 0 0 kiritimati)
                 (Some "Pacific/Kiritimati") (Some "work"))
              (fun events =>
                 Server._format_events_response sample_library events
                   "What about tomorrow?"
                   (result
                      (specific_date (date_at 2025 8 15 0 0 0 0 kiritimati))
                      (Some "Pacific/Kiritimati")
                      "What about tomorrow?")))).
  vm_compute. reflexivity.
Defined.

(** X15.  The zone the calendar service resolves from the [timezone]
    argument of a call of the query tool, to display the events in, is the
    zone of the dates of that call. *)
Theorem request_zone_is_display_zone (h : Host) (lib : Library)
    (arguments : Server.Arguments) (c c' c2 : Clock) (call : Server.Call)
    (respond : list Service.FormattedEvent -> string) :
  Server._handle_calendar_query h lib (Server.init h) arguments c
  = (Returns (Server.Await call respond), c') ->
  exists z,
    Service._parse_timezone h (Service.init h) (call_timezone call) c2
    = (Returns z, c2)
    /\ match call with
       | Server.get_upcoming_events _ _ _ _ => True
       | Server.get_events_for_date date _ _ => Datetime.tz date = Some z
       | Server.get_events_in_range start_date end_date _ _ =>
           Datetime.tz start_date = Some z /\ Datetime.tz end_date = Some z
       end.
Proof.
  unfold Server._handle_calendar_query. cbv zeta.
  destruct (String.eqb (Service.get_or (Server.a_query arguments) "") "");
    [discriminate|].
  cbn [Server.init Server.query_parser]. unfold bind.
  destruct (parse_query h (init h) _ _ c) as [[pq|e] c0] eqn:Ep;
    [|discriminate].
  destruct (parse_query_echo h _ _ _ _ _ _ Ep) as [Hz _].
  destruct (parse_query_normalised h _ _ _ _ _ Ep) as [Hn _].
  unfold normalised in Hn. intros Hplan.
  exists (resolve_timezone h (init h) (Server.a_timezone arguments)).
  assert (Hs : forall hint,
    Service._parse_timezone h (Service.init h) hint c2
    = (Returns (resolve_timezone h (init h) hint), c2)).
  { intros hint. rewrite <- (parse_timezone_resolves h (init h) hint c2).
    reflexivity. }
  destruct (intent pq) as [d m | d | s e0]; unfold ret in Hplan;
    injection Hplan as <- _ _; cbn [call_timezone]; rewrite Hz;
    (split; [apply Hs | tauto]).
Qed.

Lemma request_zone_is_display_zone_witness :
  exists z,
    Service._parse_timezone sample_host (Service.init sample_host)
      (call_timezone
         (Server.get_events_for_date (date_at 2025 8 15 0 0 0 0 kiritimati)
            (Some "Pacific/Kiritimati") (Some "work")))
      (frozen 0)
    = (Returns z, frozen 0)
    /\ Datetime.tz (date_at 2025 8 15 0 0 0 0 kiritimati) = Some z.
Proof.
  apply (request_zone_is_display_zone sample_host sample_library
           {| Server.a_query := Some "What about tomorrow?";
              Server.a_timezone := Some "Pacific/Kiritimati";
              Server.a_calendar_id := Some "work" |}
           (frozen (instant 2025 8 13 15 30 0 0))
           (after_now (frozen (instant 2025 8 13 15 30 0 0)))
           (frozen 0)
           (Server.get_events_for_date
              (date_at 2025 8 15 0 0 0 0 kiritimati)
              (Some "Pacific/Kiritimati") (Some "work"))
           (fun events =>
              Server._format_events_response sample_library events
                "What about tomorrow?"
                (result
                   (specific_date (date_at 2025 8 15 0 0 0 0 kiritimati))
                   (Some "Pacific/Kiritimati") "What about tomorrow?"))).
  vm_compute. reflexivity.
Defined.

(** X16.  [_extract_specific_date] never raises: what [dateutil] and
    [replace] raise is caught and the next pattern is tried.  It reads the
    clock at most twelve times, and a date it returns is at midnight in
    the zone it was given. *)
Theorem extract_specific_date_total (h : Host) (text : string)
    (z : Datetime.tzinfo) (c : Clock) :
  exists found c',
    _extract_specific_date h text z c = (Returns found, c')
    /\ advanced 0 12 c c'
    /\ match found with
       | Some d => midnight d /\ Datetime.tz d = Some z
       | None => True
       end.
Proof.
  unfold _extract_specific_date.
  destruct (extract_from_returns h date_patterns text z c)
    as (found & c' & E).
  exists found, c'. split; [exact E|]. split.
  - pose proof (extract_from_reads h date_patterns text z c) as H.
    rewrite E in H. exact H.
  - destruct found as [d|]; [|exact I].
    exact (extract_from_zone h _ _ _ _ _ _ E).
Qed.
